(** * Triage server: a shallow embedding of the ingestion pipeline

    The repository holds two generations of the same Express server:
    [server.js] (single user, rows keyed by [message_id]) and the multi-user
    server (per-tenant tokens, rows keyed by [message_link]).  Functions that
    are textually identical in both files ([parseSenderName],
    [verifySlackSignature], [createGmailLink], [extractEmailHeaders]) are
    embedded once; the parts that differ live in the modules [SingleUser] and
    [MultiUser].

    JavaScript strings are modelled as [string]: a sequence of code units in
    the range 0..255 (Latin-1).  Node decodes request headers this way;
    message bodies are restricted to that range.  Numbers are integers.
    Console output is not modelled. *)

From Stdlib Require Import String Ascii List ZArith Lia Bool Arith.
From Stdlib Require Import Init.Byte.
Import ListNotations.

Set Warnings "-register-all".
Local Open Scope string_scope.
Local Open Scope Z_scope.

(** ** Node's [crypto] and [Buffer] *)

Module Crypto.
Local Open Scope list_scope.

(** 32-bit words are integers in [0, 2^32) with the wrap-around explicit. *)
Definition wrap32 (x : Z) : Z := x mod 2 ^ 32.
Definition add32 (x y : Z) : Z := wrap32 (x + y).
Definition rotr (n x : Z) : Z :=
  Z.lor (Z.shiftr x n) (wrap32 (Z.shiftl x (32 - n))).
Definition shr (n x : Z) : Z := Z.shiftr x n.
Definition not32 (x : Z) : Z := Z.lxor x (2 ^ 32 - 1).

Definition Ch (x y z : Z) : Z := Z.lxor (Z.land x y) (Z.land (not32 x) z).
Definition Maj (x y z : Z) : Z :=
  Z.lxor (Z.lxor (Z.land x y) (Z.land x z)) (Z.land y z).
Definition bsig0 (x : Z) : Z := Z.lxor (Z.lxor (rotr 2 x) (rotr 13 x)) (rotr 22 x).
Definition bsig1 (x : Z) : Z := Z.lxor (Z.lxor (rotr 6 x) (rotr 11 x)) (rotr 25 x).
Definition ssig0 (x : Z) : Z := Z.lxor (Z.lxor (rotr 7 x) (rotr 18 x)) (shr 3 x).
Definition ssig1 (x : Z) : Z := Z.lxor (Z.lxor (rotr 17 x) (rotr 19 x)) (shr 10 x).

(** The constants of FIPS 180-4 are derived rather than tabulated: the
    round constants are the first 32 bits of the fractional parts of the cube
    roots of the first 64 primes, the initial hash value those of the square
    roots of the first 8. *)
Definition is_prime (n : nat) : bool :=
  (1 <? n)%nat && forallb (fun d => negb (n mod d =? 0)%nat) (seq 2 (n - 2)).

Definition primes_below (n : nat) : list Z :=
  map Z.of_nat (filter is_prime (seq 2 (n - 2))).

Fixpoint cube_root_bits (i : nat) (n r : Z) : Z :=
  match i with
  | O => r
  | S i' =>
      let r' := r + 2 ^ Z.of_nat i' in
      cube_root_bits i' n (if r' * r' * r' <=? n then r' else r)
  end.

Definition fractional_cube_root (p : Z) : Z :=
  wrap32 (cube_root_bits 40 (p * 2 ^ 96) 0).

Definition fractional_square_root (p : Z) : Z :=
  wrap32 (Z.sqrt (p * 2 ^ 64)).

Definition round_constants : list Z :=
  Eval vm_compute in map fractional_cube_root (primes_below 312).

(** The eight working variables, also the chaining value. *)
Record hstate := HState
  { ha : Z; hb : Z; hc : Z; hd : Z; he : Z; hf : Z; hg : Z; hh : Z }.

Definition initial_hash : hstate :=
  Eval vm_compute in
    let r := fractional_square_root in
    HState (r 2) (r 3) (r 5) (r 7) (r 11) (r 13) (r 17) (r 19).

Definition byteZ (b : byte) : Z := Z.of_N (Byte.to_N b).

Definition Zbyte (z : Z) : byte :=
  match Byte.of_N (Z.to_N (z mod 256)) with
  | Some b => b
  | None => x00
  end.

(** Padding: a single 1 bit, zeros up to 56 mod 64, the bit length on 64 bits. *)
Definition be_bytes (width : nat) (z : Z) : list byte :=
  map (fun i => Zbyte (Z.shiftr z (8 * Z.of_nat i))) (rev (seq 0 width)).

Definition pad (msg : list byte) : list byte :=
  let len := Z.of_nat (length msg) in
  let zeros := Z.to_nat ((55 - len) mod 64) in
  msg ++ [x80] ++ repeat x00 zeros ++ be_bytes 8 (8 * len).

Fixpoint be_word (bs : list byte) (acc : Z) : Z :=
  match bs with
  | [] => acc
  | b :: bs' => be_word bs' (256 * acc + byteZ b)
  end.

Fixpoint words_of (n : nat) (bs : list byte) : list Z :=
  match n with
  | O => []
  | S n' => be_word (firstn 4 bs) 0 :: words_of n' (skipn 4 bs)
  end.

(** The message schedule, kept newest first while it is extended. *)
Fixpoint extend (n : nat) (rev_w : list Z) : list Z :=
  match n with
  | O => rev_w
  | S n' =>
      let w k := nth k rev_w 0 in
      extend n' (add32 (add32 (add32 (ssig1 (w 1%nat)) (w 6%nat))
                              (ssig0 (w 14%nat))) (w 15%nat) :: rev_w)
  end.

Definition schedule (block : list byte) : list Z :=
  rev (extend 48 (rev (words_of 16 block))).

Definition round (s : hstate) (kw : Z * Z) : hstate :=
  let '(k, w) := kw in
  let t1 := add32 (add32 (add32 (add32 (hh s) (bsig1 (he s)))
                                (Ch (he s) (hf s) (hg s))) k) w in
  let t2 := add32 (bsig0 (ha s)) (Maj (ha s) (hb s) (hc s)) in
  HState (add32 t1 t2) (ha s) (hb s) (hc s) (add32 (hd s) t1) (he s) (hf s) (hg s).

Definition compress (h : hstate) (block : list byte) : hstate :=
  let s := fold_left round (combine round_constants (schedule block)) h in
  HState (add32 (ha h) (ha s)) (add32 (hb h) (hb s))
         (add32 (hc h) (hc s)) (add32 (hd h) (hd s))
         (add32 (he h) (he s)) (add32 (hf h) (hf s))
         (add32 (hg h) (hg s)) (add32 (hh h) (hh s)).

Fixpoint blocks (n : nat) (h : hstate) (bs : list byte) : hstate :=
  match n with
  | O => h
  | S n' => blocks n' (compress h (firstn 64 bs)) (skipn 64 bs)
  end.

Definition digest_bytes (h : hstate) : list byte :=
  be_bytes 4 (ha h) ++ be_bytes 4 (hb h) ++ be_bytes 4 (hc h) ++
  be_bytes 4 (hd h) ++ be_bytes 4 (he h) ++ be_bytes 4 (hf h) ++
  be_bytes 4 (hg h) ++ be_bytes 4 (hh h).

Definition sha256 (msg : list byte) : list byte :=
  let p := pad msg in
  digest_bytes (blocks (length p / 64) initial_hash p).

(** [crypto.createHmac('sha256', key).update(msg).digest()] *)
Definition xor_pad (c : Z) (key : list byte) : list byte :=
  map (fun b => Zbyte (Z.lxor (byteZ b) c)) key.

Definition hmac_sha256 (key msg : list byte) : list byte :=
  let k0 := if (64 <? length key)%nat then sha256 key else key in
  let k := k0 ++ repeat x00 (64 - length k0) in
  sha256 (xor_pad 0x5c k ++ sha256 (xor_pad 0x36 k ++ msg)).

(** [.digest('hex')]: two lower-case digits per byte. *)
Definition hex_digit (z : Z) : ascii :=
  if z <? 10 then ascii_of_nat (Z.to_nat (48 + z))
  else ascii_of_nat (Z.to_nat (87 + z)).

Fixpoint hex (bs : list byte) : string :=
  match bs with
  | [] => EmptyString
  | b :: bs' =>
      String (hex_digit (byteZ b / 16))
        (String (hex_digit (byteZ b mod 16)) (hex bs'))
  end.

(** [Buffer.from(s)]: the UTF-8 encoding of a string; a code unit below 128 is
    one byte, one in 128..255 is two. *)
Fixpoint Buffer_from (s : string) : list byte :=
  match s with
  | EmptyString => []
  | String c s' =>
      let n := Z.of_nat (nat_of_ascii c) in
      if n <? 128 then Zbyte n :: Buffer_from s'
      else Zbyte (192 + n / 64) :: Zbyte (128 + n mod 64) :: Buffer_from s'
  end.

(** [crypto.timingSafeEqual(a, b)]: a RangeError when the byte lengths differ,
    otherwise whether the contents agree (every byte is visited). *)
Fixpoint bytes_diff (a b : list byte) : Z :=
  match a, b with
  | x :: a', y :: b' => Z.lor (Z.lxor (byteZ x) (byteZ y)) (bytes_diff a' b')
  | _, _ => 0
  end.

Definition timingSafeEqual (a b : list byte) : option bool :=
  if (length a =? length b)%nat then Some (bytes_diff a b =? 0) else None.

Definition hmac_sha256_hex (key msg : string) : string :=
  hex (hmac_sha256 (Buffer_from key) (Buffer_from msg)).

End Crypto.


(** ** The JavaScript values and built-ins the server relies on *)

Module JS.

(** A JSON value; numbers are restricted to integers. *)
Inductive json :=
| JNull
| JBool (b : bool)
| JNum (n : Z)
| JStr (s : string)
| JArr (items : list json)
| JObj (fields : list (string * json)).

(** A JavaScript value of the handlers: [None] is [undefined]. *)
Definition value := option json.

Definition dquote : ascii := "034"%char.
Definition backslash : ascii := "092"%char.

Definition truthy (v : value) : bool :=
  match v with
  | None | Some JNull | Some (JBool false) | Some (JNum 0)
  | Some (JStr EmptyString) => false
  | Some _ => true
  end.

Fixpoint assoc {A} (k : string) (l : list (string * A)) : option A :=
  match l with
  | [] => None
  | (k', v) :: l' => if String.eqb k k' then Some v else assoc k l'
  end.

(** [v?.k] for the property names the handlers read: none of them is a
    property of a primitive, an array or a prototype. *)
Definition get (v : value) (k : string) : value :=
  match v with
  | Some (JObj fields) => assoc k fields
  | _ => None
  end.

(** [v === 'lit'] *)
Definition is_str (v : value) (lit : string) : bool :=
  match v with
  | Some (JStr s) => String.eqb s lit
  | _ => false
  end.

Fixpoint uint_digits (fuel : nat) (n : Z) (acc : string) : string :=
  match fuel with
  | O => acc
  | S f =>
      let acc' := String (ascii_of_nat (Z.to_nat (48 + n mod 10))) acc in
      if n <? 10 then acc' else uint_digits f (n / 10) acc'
  end.

(** Decimal rendering of an integer (as [String(n)] for |n| < 10^21). *)
Definition decimal (n : Z) : string :=
  if n <? 0 then String "-" (uint_digits (Z.to_nat (Z.log2 (- n)) + 1) (- n) EmptyString)
  else uint_digits (Z.to_nat (Z.log2 n) + 1) n EmptyString.

Fixpoint join (sep : string) (l : list string) : string :=
  match l with
  | [] => EmptyString
  | [x] => x
  | x :: l' => x ++ sep ++ join sep l'
  end.

(** [String(v)], as in a template literal or a [+] with a string.  An
    object is rendered as [Object.prototype.toString] does; an object that
    carries a [toString] property of its own, for which the conversion
    throws, is outside the model. *)
Fixpoint to_string (v : json) : string :=
  match v with
  | JNull => "null"
  | JBool true => "true"
  | JBool false => "false"
  | JNum n => decimal n
  | JStr s => s
  | JArr items =>
      join "," (map (fun x => match x with JNull => EmptyString | _ => to_string x end) items)
  | JObj _ => "[object Object]"
  end.

Definition String_ (v : value) : string :=
  match v with
  | None => "undefined"
  | Some j => to_string j
  end.

(** *** [JSON.stringify] *)

Definition hex4 (n : Z) : string :=
  String (Crypto.hex_digit (n / 4096 mod 16))
    (String (Crypto.hex_digit (n / 256 mod 16))
       (String (Crypto.hex_digit (n / 16 mod 16))
          (String (Crypto.hex_digit (n mod 16)) EmptyString))).

Definition escape_char (c : ascii) : string :=
  let n := Z.of_nat (nat_of_ascii c) in
  if Ascii.eqb c dquote then String backslash (String dquote EmptyString)
  else if Ascii.eqb c backslash then String backslash (String backslash EmptyString)
  else if n =? 8 then String backslash "b"
  else if n =? 9 then String backslash "t"
  else if n =? 10 then String backslash "n"
  else if n =? 12 then String backslash "f"
  else if n =? 13 then String backslash "r"
  else if n <? 32 then String backslash ("u" ++ hex4 n)
  else String c EmptyString.

Fixpoint escape (s : string) : string :=
  match s with
  | EmptyString => EmptyString
  | String c s' => escape_char c ++ escape s'
  end.

Definition quote (s : string) : string :=
  String dquote (escape s ++ String dquote EmptyString).

Fixpoint stringify (v : json) : string :=
  match v with
  | JNull => "null"
  | JBool true => "true"
  | JBool false => "false"
  | JNum n => decimal n
  | JStr s => quote s
  | JArr items => "[" ++ join "," (map stringify items) ++ "]"
  | JObj fields =>
      "{" ++ join "," (map (fun kv => quote (fst kv) ++ ":" ++ stringify (snd kv)) fields) ++ "}"
  end.

(** *** [JSON.parse]

    For texts of ASCII characters whose numbers are integers; [None] is a
    SyntaxError or a text outside that range.  An object keeps one property
    per key (the last value, at the place of the first occurrence) and lists
    array-index keys first, in ascending order, as [JSON.stringify] and
    property enumeration see it. *)

Definition json_ws (c : ascii) : bool :=
  let n := Z.of_nat (nat_of_ascii c) in
  (n =? 32) || (n =? 9) || (n =? 10) || (n =? 13).

Fixpoint skip_ws (s : string) : string :=
  match s with
  | String c s' => if json_ws c then skip_ws s' else s
  | EmptyString => EmptyString
  end.

Definition is_digit (c : ascii) : bool :=
  let n := Z.of_nat (nat_of_ascii c) in (48 <=? n) && (n <=? 57).

Definition hex_value (c : ascii) : option Z :=
  let n := Z.of_nat (nat_of_ascii c) in
  if (48 <=? n) && (n <=? 57) then Some (n - 48)
  else if (97 <=? n) && (n <=? 102) then Some (n - 87)
  else if (65 <=? n) && (n <=? 70) then Some (n - 55)
  else None.

Definition unit_of (n : Z) : option ascii :=
  if n <? 256 then Some (ascii_of_nat (Z.to_nat n)) else None.

Definition simple_escape (e : ascii) : option ascii :=
  if Ascii.eqb e dquote then Some dquote
  else if Ascii.eqb e backslash then Some backslash
  else if Ascii.eqb e "/" then Some "/"%char
  else if Ascii.eqb e "b" then Some "008"%char
  else if Ascii.eqb e "f" then Some "012"%char
  else if Ascii.eqb e "n" then Some "010"%char
  else if Ascii.eqb e "r" then Some "013"%char
  else if Ascii.eqb e "t" then Some "009"%char
  else None.

Fixpoint rev_string (s acc : string) : string :=
  match s with
  | EmptyString => acc
  | String c s' => rev_string s' (String c acc)
  end.

(** The characters of a string literal after its opening quote. *)
Fixpoint parse_chars (s : string) (rev_acc : string) : option (string * string) :=
  match s with
  | EmptyString => None
  | String c t =>
      if Ascii.eqb c dquote then Some (rev_string rev_acc EmptyString, t)
      else if Ascii.eqb c backslash then
        match t with
        | String "u" (String h1 (String h2 (String h3 (String h4 t')))) =>
            match hex_value h1, hex_value h2, hex_value h3, hex_value h4 with
            | Some a, Some b, Some c', Some d =>
                match unit_of (4096 * a + 256 * b + 16 * c' + d) with
                | Some u => parse_chars t' (String u rev_acc)
                | None => None
                end
            | _, _, _, _ => None
            end
        | String e t' =>
            match simple_escape e with
            | Some u => parse_chars t' (String u rev_acc)
            | None => None
            end
        | EmptyString => None
        end
      else if (Z.of_nat (nat_of_ascii c) <? 32) || (127 <? Z.of_nat (nat_of_ascii c))
      then None
      else parse_chars t (String c rev_acc)
  end.

Fixpoint take_digits (s : string) (acc : Z) : Z * string :=
  match s with
  | String c t =>
      if is_digit c then take_digits t (10 * acc + (Z.of_nat (nat_of_ascii c) - 48))
      else (acc, s)
  | EmptyString => (acc, EmptyString)
  end.

Definition parse_number (s : string) : option (json * string) :=
  let '(neg, s1) := match s with String "-" t => (true, t) | _ => (false, s) end in
  match s1 with
  | String c t =>
      if is_digit c then
        let '(n, r) := if Ascii.eqb c "0" then (0, t) else take_digits s1 0 in
        let v := JNum (if neg then - n else n) in
        match r with
        | String d _ =>
            if Ascii.eqb d "." || Ascii.eqb d "e" || Ascii.eqb d "E" then None
            else Some (v, r)
        | EmptyString => Some (v, r)
        end
      else None
  | EmptyString => None
  end.

Fixpoint strip_prefix (p s : string) : option string :=
  match p, s with
  | EmptyString, _ => Some s
  | String a p', String b s' => if Ascii.eqb a b then strip_prefix p' s' else None
  | String _ _, EmptyString => None
  end.

(** Creating or overwriting a property. *)
Fixpoint set_field (k : string) (v : json) (fields : list (string * json))
  : list (string * json) :=
  match fields with
  | [] => [(k, v)]
  | (k', v') :: fs =>
      if String.eqb k k' then (k, v) :: fs else (k', v') :: set_field k v fs
  end.

(** An array index: a canonical numeric string below 2^32 - 1. *)
Definition index_of_key (k : string) : option Z :=
  match k with
  | String c t =>
      if is_digit c && (negb (Ascii.eqb c "0") || String.eqb t EmptyString) then
        match take_digits k 0 with
        | (n, EmptyString) => if n <? 2 ^ 32 - 1 then Some n else None
        | _ => None
        end
      else None
  | EmptyString => None
  end.

Fixpoint insert_by_index (n : Z) (kv : string * json) (l : list (Z * (string * json)))
  : list (Z * (string * json)) :=
  match l with
  | [] => [(n, kv)]
  | (m, kv') :: l' =>
      if n <? m then (n, kv) :: l else (m, kv') :: insert_by_index n kv l'
  end.

Definition own_properties (fields : list (string * json)) : list (string * json) :=
  let indexed :=
    fold_left (fun acc kv => match index_of_key (fst kv) with
                             | Some n => insert_by_index n kv acc
                             | None => acc
                             end) fields [] in
  (map snd indexed ++
   filter (fun kv => match index_of_key (fst kv) with Some _ => false | None => true end)
          fields)%list.

Fixpoint parse_value (fuel : nat) (s : string) : option (json * string) :=
  match fuel with
  | O => None
  | S f =>
      match skip_ws s with
      | String c t =>
          if Ascii.eqb c "{" then
            match skip_ws t with
            | String "}" t' => Some (JObj [], t')
            | _ => parse_members f t []
            end
          else if Ascii.eqb c "[" then
            match skip_ws t with
            | String "]" t' => Some (JArr [], t')
            | _ => parse_elements f t []
            end
          else if Ascii.eqb c dquote then
            match parse_chars t EmptyString with
            | Some (str, r) => Some (JStr str, r)
            | None => None
            end
          else if Ascii.eqb c "t" then
            option_map (fun r => (JBool true, r)) (strip_prefix "rue" t)
          else if Ascii.eqb c "f" then
            option_map (fun r => (JBool false, r)) (strip_prefix "alse" t)
          else if Ascii.eqb c "n" then
            option_map (fun r => (JNull, r)) (strip_prefix "ull" t)
          else parse_number (String c t)
      | EmptyString => None
      end
  end
with parse_elements (fuel : nat) (s : string) (rev_acc : list json)
  : option (json * string) :=
  match fuel with
  | O => None
  | S f =>
      match parse_value f s with
      | Some (v, r) =>
          match skip_ws r with
          | String "," r' => parse_elements f r' (v :: rev_acc)
          | String "]" r' => Some (JArr (rev (v :: rev_acc)), r')
          | _ => None
          end
      | None => None
      end
  end
with parse_members (fuel : nat) (s : string) (acc : list (string * json))
  : option (json * string) :=
  match fuel with
  | O => None
  | S f =>
      match skip_ws s with
      | String c t =>
          if Ascii.eqb c dquote then
            match parse_chars t EmptyString with
            | Some (key, r) =>
                match skip_ws r with
                | String ":" r1 =>
                    match parse_value f r1 with
                    | Some (v, r2) =>
                        match skip_ws r2 with
                        | String "," r3 => parse_members f r3 (set_field key v acc)
                        | String "}" r3 =>
                            Some (JObj (own_properties (set_field key v acc)), r3)
                        | _ => None
                        end
                    | None => None
                    end
                | _ => None
                end
            | None => None
            end
          else None
      | EmptyString => None
      end
  end.

Definition JSON_parse (text : string) : option json :=
  match parse_value (S (String.length text)) text with
  | Some (v, r) => match skip_ws r with EmptyString => Some v | _ => None end
  | None => None
  end.

(** *** Character classes *)

Definition code (c : ascii) : Z := Z.of_nat (nat_of_ascii c).

(** LineTerminator, within Latin-1: LF and CR. *)
Definition is_line_terminator (c : ascii) : bool :=
  (code c =? 10) || (code c =? 13).

(** WhiteSpace and LineTerminator, within Latin-1: what [\s] matches and
    what [trim] and [parseInt] strip. *)
Definition is_space (c : ascii) : bool :=
  let n := code c in
  ((9 <=? n) && (n <=? 13)) || (n =? 32) || (n =? 160).

Fixpoint trimStart (s : string) : string :=
  match s with
  | String c s' => if is_space c then trimStart s' else s
  | EmptyString => EmptyString
  end.

Definition trimEnd (s : string) : string :=
  rev_string (trimStart (rev_string s EmptyString)) EmptyString.

Definition trim (s : string) : string := trimEnd (trimStart s).

(** [s.replace(/c/g, '')] for a single literal character. *)
Fixpoint remove_all (c : ascii) (s : string) : string :=
  match s with
  | EmptyString => EmptyString
  | String c' s' => if Ascii.eqb c' c then remove_all c s' else String c' (remove_all c s')
  end.

(** *** [parseInt(v)] with no radix; [None] is NaN.  The integer is exact:
    rounding to a double is monotone, so comparisons against an integer
    below 2^53 are unaffected. *)

Definition digit_value (c : ascii) : option Z :=
  let n := code c in
  if (48 <=? n) && (n <=? 57) then Some (n - 48)
  else if (97 <=? n) && (n <=? 122) then Some (n - 87)
  else if (65 <=? n) && (n <=? 90) then Some (n - 55)
  else None.

Fixpoint digits_value (radix : Z) (s : string) (acc : option Z) : option Z :=
  match s with
  | EmptyString => acc
  | String c s' =>
      match digit_value c with
      | Some d =>
          if d <? radix
          then digits_value radix s'
                 (Some (radix * match acc with Some a => a | None => 0 end + d))
          else acc
      | None => acc
      end
  end.

Definition unsigned_int (s : string) : option Z :=
  match s with
  | String "0" (String "x" s') | String "0" (String "X" s') => digits_value 16 s' None
  | _ => digits_value 10 s None
  end.

Definition parseInt (v : value) : option Z :=
  match trimStart (String_ v) with
  | String "-" s' => option_map Z.opp (unsigned_int s')
  | String "+" s' => unsigned_int s'
  | s' => unsigned_int s'
  end.

(** *** [Number(v)], for values that denote integers

    [None] is NaN.  A string converts when, once trimmed, it is empty, a
    decimal integer with an optional sign, or a hexadecimal integer; strings
    that spell other numbers are outside the model, as such numbers are. *)

Fixpoint all_digits (radix : Z) (s : string) (acc : Z) : option Z :=
  match s with
  | EmptyString => Some acc
  | String c s' =>
      match digit_value c with
      | Some d => if d <? radix then all_digits radix s' (radix * acc + d) else None
      | None => None
      end
  end.

Definition integer_literal (s : string) : option Z :=
  match s with
  | EmptyString => Some 0
  | String "0" (String "x" (String c s')) | String "0" (String "X" (String c s')) =>
      all_digits 16 (String c s') 0
  | String "-" (String c s') => option_map Z.opp (all_digits 10 (String c s') 0)
  | String "+" (String c s') => all_digits 10 (String c s') 0
  | String "-" EmptyString | String "+" EmptyString => None
  | _ => all_digits 10 s 0
  end.

Definition to_number (v : value) : option Z :=
  match v with
  | None => None
  | Some JNull => Some 0
  | Some (JBool b) => Some (if b then 1 else 0)
  | Some (JNum n) => Some n
  | Some j => integer_literal (trim (to_string j))
  end.

End JS.


(** ** Regular expressions: a backtracking matcher

    Only the constructs of the two patterns in [parseSenderName] are modelled.
    The matcher follows the order of ECMAScript's backtracking semantics; a
    pattern holds at most one capture group. *)

Module RegExp.

Inductive regex :=
| Lit (c : ascii)          (* a literal character *)
| Dot                      (* .   any character but a line terminator *)
| Space                    (* \s *)
| Bol                      (* ^ *)
| Eol                      (* $ *)
| Cat (r1 r2 : regex)
| Star (r : regex)         (* r*  greedy *)
| Plus (r : regex)         (* r+  greedy *)
| LazyPlus (r : regex)     (* r+? *)
| Group (r : regex).       (* ( r ) *)

(** Where the matcher stands: characters consumed, input left, the capture. *)
Record mstate := MState { pos : nat; rest : string; cap : option string }.

Definition cont := mstate -> option mstate.

Definition eat (p : ascii -> bool) (st : mstate) (k : cont) : option mstate :=
  match rest st with
  | String c t => if p c then k (MState (S (pos st)) t (cap st)) else None
  | EmptyString => None
  end.

Definition orelse (a : option mstate) (b : unit -> option mstate) : option mstate :=
  match a with
  | Some m => Some m
  | None => b tt
  end.

Section Loops.
Variable step : mstate -> cont -> option mstate.

(** One more iteration only if the previous one consumed input. *)
Definition again (loop : mstate -> cont -> option mstate)
           (st : mstate) (k : cont) : option mstate :=
  step st (fun st1 => if (pos st <? pos st1)%nat then loop st1 k else None).

Fixpoint greedy (fuel : nat) (st : mstate) (k : cont) : option mstate :=
  match fuel with
  | O => k st
  | S f => orelse (again (greedy f) st k) (fun _ => k st)
  end.

Fixpoint lazy (fuel : nat) (st : mstate) (k : cont) : option mstate :=
  match fuel with
  | O => k st
  | S f => orelse (k st) (fun _ => again (lazy f) st k)
  end.
End Loops.

Fixpoint run (r : regex) (subject : string) (st : mstate) (k : cont)
  : option mstate :=
  match r with
  | Lit c => eat (Ascii.eqb c) st k
  | Dot => eat (fun c => negb (JS.is_line_terminator c)) st k
  | Space => eat JS.is_space st k
  | Bol => if (pos st =? 0)%nat then k st else None
  | Eol => match rest st with EmptyString => k st | _ => None end
  | Cat r1 r2 => run r1 subject st (fun st1 => run r2 subject st1 k)
  | Star r1 => greedy (run r1 subject) (S (String.length (rest st))) st k
  | Plus r1 =>
      run r1 subject st
        (fun st1 => greedy (run r1 subject) (S (String.length (rest st1))) st1 k)
  | LazyPlus r1 =>
      run r1 subject st
        (fun st1 => lazy (run r1 subject) (S (String.length (rest st1))) st1 k)
  | Group r1 =>
      run r1 subject st
        (fun st1 =>
           k (MState (pos st1) (rest st1)
                     (Some (substring (pos st) (pos st1 - pos st) subject))))
  end.

(** The first start index at which the pattern matches. *)
Fixpoint exec_from (r : regex) (subject : string) (i : nat) (s : string)
  : option mstate :=
  orelse (run r subject (MState i s None) Some)
         (fun _ => match s with
                   | String _ t => exec_from r subject (S i) t
                   | EmptyString => None
                   end).

(** [subject.match(r)] for a pattern without the g flag: [None] is [null],
    otherwise the value of [match[1]]. *)
Definition match_ (r : regex) (subject : string) : option (option string) :=
  option_map cap (exec_from r subject 0 subject).

End RegExp.

(** ** Helper functions shared by both servers *)

Import JS RegExp.

(** [/^(.+?)\s*<.+>$/] *)
Definition name_before_address : regex :=
  Cat Bol (Cat (Group (LazyPlus Dot))
    (Cat (Star Space) (Cat (Lit "<") (Cat (Plus Dot) (Cat (Lit ">") Eol))))).

(** [/<(.+)>/] *)
Definition address_in_brackets : regex :=
  Cat (Lit "<") (Cat (Group (Plus Dot)) (Lit ">")).

(** [parseSenderName(fromHeader)]; the header is a string ([getHeader] yields
    [''] when it is absent).  In both patterns the group takes part in every
    match, so [match[1]] is a string. *)
Definition parseSenderName (fromHeader : string) : string :=
  match fromHeader with
  | EmptyString => "Unknown Sender"
  | _ =>
      match match_ name_before_address fromHeader with
      | Some (Some g) => trim (remove_all dquote g)
      | _ =>
          match match_ address_in_brackets fromHeader with
          | Some (Some g) => g
          | _ => fromHeader
          end
      end
  end.

Definition ada_header : string :=
  String dquote ("Ada Lovelace" ++ String dquote " <ada@x.com>").

(** ** The world outside the process

    The Supabase tables are state; providers (Gmail, Slack) and a few library
    calls are oracles: any function is a possible behaviour.  A call through
    the Supabase client never throws: a failure comes back as [{ error }]. *)

(** A table row, as the object that was inserted. *)
Definition row := list (string * json).

(** A request sent through the Supabase client. *)
Inductive call :=
| Select (table : string) (filters : list (string * string))
| Insert (table : string) (r : row).

Inductive outcome (A : Type) :=
| Ret (a : A)
| Throw (e : string).
Arguments Ret {A} a.
Arguments Throw {A} e.

Record GmailMessage := {
  payload_headers : list (string * string);   (* message.payload?.headers || [] *)
  labelIds : list string                      (* message.labelIds || [] *)
}.

Record World := {
  pending_actions : list row;
  unique_index : bool;       (* the migration's unique index on (message_id, platform) is in place *)
  user_gmail_tokens : list row;
  user_slack_tokens : list row;
  faults : list bool;        (* whether each of the next storage requests fails *)
  calls : list call;         (* storage requests sent so far, newest first *)
  now : Z;                   (* Date.now(), milliseconds *)
  now_iso : string;          (* new Date().toISOString() *)
  SLACK_SIGNING_SECRET : option string;
  SLACK_BOT_TOKEN : option string;
  (* JSON.parse(Buffer.from(data, 'base64').toString()) *)
  decode_notification : json -> outcome json;
  (* users.messages.list: the ids in response.data.messages || [] *)
  gmail_messages_list : value -> outcome (list string);
  (* users.messages.get: message.data *)
  gmail_messages_get : value -> string -> outcome GmailMessage;
  (* fetch(users.info) followed by .json() *)
  slack_users_info : value -> value -> outcome json
}.

Definition with_store (w : World) (rows : list row) (fs : list bool) (cs : list call)
  : World :=
  {| pending_actions := rows; unique_index := unique_index w;
     user_gmail_tokens := user_gmail_tokens w;
     user_slack_tokens := user_slack_tokens w;
     faults := fs; calls := cs; now := now w; now_iso := now_iso w;
     SLACK_SIGNING_SECRET := SLACK_SIGNING_SECRET w;
     SLACK_BOT_TOKEN := SLACK_BOT_TOKEN w;
     decode_notification := decode_notification w;
     gmail_messages_list := gmail_messages_list w;
     gmail_messages_get := gmail_messages_get w;
     slack_users_info := slack_users_info w |}.

(** *** Computations: state passing with exceptions *)

Definition M (A : Type) : Type := World -> outcome A * World.

Definition ret {A} (a : A) : M A := fun w => (Ret a, w).
Definition throw {A} (e : string) : M A := fun w => (Throw e, w).
Definition bind {A B} (m : M A) (k : A -> M B) : M B :=
  fun w => match m w with
           | (Ret a, w') => k a w'
           | (Throw e, w') => (Throw e, w')
           end.
Definition try_catch {A} (m : M A) (handler : string -> M A) : M A :=
  fun w => match m w with
           | (Ret a, w') => (Ret a, w')
           | (Throw e, w') => handler e w'
           end.
Definition ask {A} (f : World -> A) : M A := fun w => (Ret (f w), w).
Definition lift {A} (f : World -> outcome A) : M A := fun w => (f w, w).

Declare Scope js_scope.
Delimit Scope js_scope with js.
Notation "x <- m ;; k" := (bind m (fun x => k))
  (at level 61, m at next level, right associativity) : js_scope.
Notation "m ;;; k" := (bind m (fun _ => k))
  (at level 61, right associativity) : js_scope.
Local Open Scope js_scope.

(** *** The Supabase client *)

(** The text a column holds for an inserted value; [None] is NULL. *)
Definition column_text (v : value) : option string :=
  match v with
  | None | Some JNull => None
  | Some (JStr s) => Some s
  | Some j => Some (stringify j)
  end.

Definition column (r : row) (name : string) : option string :=
  column_text (assoc name r).

(** [.eq(name, text)]: NULL equals nothing. *)
Definition eq_filter (name text : string) (r : row) : bool :=
  match column r name with
  | Some t => String.eqb t text
  | None => false
  end.

Definition matching (filters : list (string * string)) (rows : list row) : list row :=
  filter (fun r => forallb (fun f => eq_filter (fst f) (snd f) r) filters) rows.

(** The object passed to [insert]: properties whose value is [undefined] are
    dropped when the request body is serialised. *)
Fixpoint object (props : list (string * value)) : row :=
  match props with
  | [] => []
  | (k, Some v) :: ps => (k, v) :: object ps
  | (_, None) :: ps => object ps
  end.

(** The outcome of the next storage request. *)
Definition next_fault (w : World) : bool * list bool :=
  match faults w with
  | [] => (false, [])
  | f :: fs => (f, fs)
  end.

(** [from('pending_actions').select('id').eq(..).eq(..).limit(n)]: [None] is
    [{ data: null, error }]. *)
Definition select_pending (filters : list (string * string)) (limit : nat)
  : M (option (list row)) :=
  fun w =>
    let '(f, fs) := next_fault w in
    let w' := with_store w (pending_actions w) fs (Select "pending_actions" filters :: calls w) in
    if f then (Ret None, w')
    else (Ret (Some (firstn limit (matching filters (pending_actions w)))), w').

(** The unique index of the migration: on [(message_id, platform)] where
    [message_id] is not null. *)
Definition violates_unique (r : row) (rows : list row) : bool :=
  match column r "message_id", column r "platform" with
  | Some m, Some p => existsb (fun r' => eq_filter "message_id" m r' && eq_filter "platform" p r') rows
  | _, _ => false
  end.

(** [from('pending_actions').insert([r]).select()]: [None] is [{ error }]. *)
Definition insert_pending (r : row) : M (option (list row)) :=
  fun w =>
    let '(f, fs) := next_fault w in
    let cs := Insert "pending_actions" r :: calls w in
    if f || (unique_index w && violates_unique r (pending_actions w))
    then (Ret None, with_store w (pending_actions w) fs cs)
    else (Ret (Some [r]), with_store w (pending_actions w ++ [r])%list fs cs).

(** [from(table).select(..).eq(name, v).single()]: the row when exactly one
    matches; [None] is [{ data: null, error }]. *)
Definition select_single (table : string) (rows : World -> list row)
           (name : string) (v : value) : M (option row) :=
  fun w =>
    let '(f, fs) := next_fault w in
    let w' := with_store w (pending_actions w) fs (Select table [(name, String_ v)] :: calls w) in
    if f then (Ret None, w')
    else match matching [(name, String_ v)] (rows w) with
         | [r] => (Ret (Some r), w')
         | _ => (Ret None, w')
         end.

(** A column of a row that came back from a select: NULL reads as [null]. *)
Definition field (r : row) (name : string) : value :=
  match assoc name r with
  | Some v => Some v
  | None => Some JNull
  end.

(** ** Functions shared by both servers *)

Definition createGmailLink (messageId : string) : string :=
  "https://mail.google.com/mail/u/0/#inbox/" ++ messageId.

Definition to_lower (c : ascii) : ascii :=
  let n := code c in
  if ((65 <=? n) && (n <=? 90)) || ((192 <=? n) && (n <=? 222) && negb (n =? 215))
  then ascii_of_nat (Z.to_nat (n + 32)) else c.

Fixpoint toLowerCase (s : string) : string :=
  match s with
  | EmptyString => EmptyString
  | String c s' => String (to_lower c) (toLowerCase s')
  end.

(** The object [extractEmailHeaders] returns. *)
Module Email.
Record EmailHeaders := {
  from : string; subject : string; date : string; messageId : string
}.
End Email.
Import Email.

(** [headers.find(h => h.name.toLowerCase() === name.toLowerCase())?.value || ''] *)
Definition getHeader (headers : list (string * string)) (name : string) : string :=
  match find (fun h => String.eqb (toLowerCase (fst h)) (toLowerCase name)) headers with
  | Some h => snd h
  | None => EmptyString
  end.

Definition extractEmailHeaders (message : GmailMessage) : EmailHeaders :=
  let headers := payload_headers message in
  {| from := getHeader headers "From";
     subject := getHeader headers "Subject";
     date := getHeader headers "Date";
     messageId := getHeader headers "Message-ID" |}.

(** [a || b] on strings. *)
Definition or_else (a b : string) : string :=
  match a with EmptyString => b | _ => a end.

Record SlackRequest := {
  x_slack_request_timestamp : option string;   (* req.headers[..]: undefined when absent *)
  x_slack_signature : option string;
  body : json                                  (* req.body, as express.json() left it *)
}.

(** [express.json()]: an empty body is [{}]; otherwise the first character
    that is not white space must open an object or an array, and the text
    must parse.  [None] is the middleware's 400: the handler does not run. *)
Definition express_json (raw : string) : option json :=
  match raw with
  | EmptyString => Some (JObj [])
  | _ =>
      match skip_ws raw with
      | String c _ =>
          if Ascii.eqb c "{" || Ascii.eqb c "[" then JSON_parse raw else None
      | EmptyString => None
      end
  end.

(** The string Slack signs, and the header it sends. *)
Definition sigBasestring (timestamp : option string) (text : string) : string :=
  "v0:" ++ String_ (option_map JStr timestamp) ++ ":" ++ text.

Definition slack_signature (secret : string) (timestamp : option string) (text : string)
  : string :=
  "v0=" ++ Crypto.hmac_sha256_hex secret (sigBasestring timestamp text).

Definition fiveMinutesAgo (w : World) : Z := now w / 1000 - 60 * 5.

(** [a < b] on numbers, NaN on the left comparing false. *)
Definition lt_number (a : option Z) (b : Z) : bool :=
  match a with
  | Some x => x <? b
  | None => false
  end.

Definition verifySlackSignature (req : SlackRequest) : M bool :=
  fun w =>
    match SLACK_SIGNING_SECRET w with
    | None | Some EmptyString => (Ret true, w)
    | Some slackSigningSecret =>
        let timestamp := x_slack_request_timestamp req in
        let signature := x_slack_signature req in
        if lt_number (parseInt (option_map JStr timestamp)) (fiveMinutesAgo w)
        then (Ret false, w)
        else
          let mySignature :=
            slack_signature slackSigningSecret timestamp (stringify (body req)) in
          match signature with
          | None => (Throw "TypeError", w)          (* Buffer.from(undefined) *)
          | Some sig =>
              match Crypto.timingSafeEqual (Crypto.Buffer_from mySignature)
                                           (Crypto.Buffer_from sig) with
              | Some b => (Ret b, w)
              | None => (Throw "RangeError", w)
              end
          end
    end.

(** What a handler leaves behind: the response it wrote.  A handler that ends
    in [Throw] wrote none. *)
Inductive payload :=
| Text (s : string)
| Json (j : json).

Record response := Response { status : Z; sent : payload }.

(** [a > b] on numbers, NaN on the left comparing false. *)
Definition gt_number (a : option Z) (b : Z) : bool :=
  match a with
  | Some x => b <? x
  | None => false
  end.

(** [text.length > 100 ? text.substring(0, 100) + '...' : text].  Only a
    string has [substring]: an array of more than 100 items, or an object
    whose [length] exceeds 100, ends in a TypeError, as does [null].  The
    [length] of an object is read through [to_number], as an integer. *)
Definition summarize (text : json) : outcome json :=
  match text with
  | JStr s =>
      if (100 <? String.length s)%nat then Ret (JStr (substring 0 100 s ++ "..."))
      else Ret text
  | JArr items =>
      if (100 <? List.length items)%nat then Throw "TypeError" else Ret text
  | JObj fields =>
      if gt_number (to_number (assoc "length" fields)) 100 then Throw "TypeError"
      else Ret text
  | JNull => Throw "TypeError"
  | _ => Ret text
  end.

(** [a || b] on values. *)
Definition value_or (a b : value) : value := if truthy a then a else b.

(** [event?.type === 'message' && event?.channel_type === 'im'] *)
Definition is_direct_message (event : value) : bool :=
  is_str (get event "type") "message" && is_str (get event "channel_type") "im".

(** [event.bot_id || event.subtype] *)
Definition bot_or_edit (event : value) : bool :=
  truthy (get event "bot_id") || truthy (get event "subtype").

Inductive save_result :=
| Skipped (reason : string)          (* { skipped: true, reason } *)
| Saved (data : list row).           (* { data, skipped: false } *)

(** ** The multi-user server *)

Module MultiUser.

Definition EXCLUDED_LABELS : list string :=
  [ "CATEGORY_PROMOTIONS"; "CATEGORY_SOCIAL"; "CATEGORY_UPDATES";
    "CATEGORY_FORUMS"; "SPAM"; "TRASH" ].

(** [labelIds.includes(label)] *)
Definition includes (labelIds : list string) (label : string) : bool :=
  existsb (String.eqb label) labelIds.

(** The loop of [shouldIncludeEmail]: whether it returns [false] from inside. *)
Fixpoint excluded_by (excluded labelIds : list string) : bool :=
  match excluded with
  | [] => false
  | excludedLabel :: rest =>
      if includes labelIds excludedLabel then true else excluded_by rest labelIds
  end.

Definition shouldIncludeEmail (senderEmail : string) (labelIds : list string) : bool :=
  if excluded_by EXCLUDED_LABELS labelIds then false
  else includes labelIds "INBOX".

Definition createSlackLink (teamId channelId messageTs : value) : string :=
  "https://slack.com/app_redirect?team=" ++ String_ teamId ++ "&channel=" ++
  String_ channelId ++ "&message_ts=" ++ String_ messageTs.

Definition isDuplicate (messageLink platform : string) : M bool :=
  match messageLink with
  | EmptyString => ret false
  | _ =>
      r <- select_pending [("message_link", messageLink); ("platform_tag", platform)] 1 ;;
      match r with
      | None => ret false                          (* error: not a duplicate *)
      | Some data => ret (0 <? List.length data)%nat
      end
  end.

(** The argument of [saveToSupabase]. *)
Record Message := {
  sender : value; summary : value; url : string; platform : string;
  messageId : string; user_id : value
}.

Definition new_row (m : Message) : row :=
  let task_text := String_ (sender m) ++ ": " ++ String_ (summary m) in
  object [ ("task_text", Some (JStr task_text));
           ("platform_tag", Some (JStr (platform m)));
           ("sender_name", sender m);
           ("message_link", Some (JStr (url m)));
           ("user_id", user_id m) ].

Definition saveToSupabase (m : Message) : M save_result :=
  dup <- isDuplicate (url m) (platform m) ;;
  if dup : bool then ret (Skipped "duplicate")
  else
    r <- insert_pending (new_row m) ;;
    match r with
    | None => throw "insert error"
    | Some data => ret (Saved data)
    end.

(** The body of the loop over the listed messages of [POST /gmail/webhook]. *)
Fixpoint process_messages (user_id refresh_token : value) (ids : list string)
         (processed : nat) : M nat :=
  match ids with
  | [] => ret processed
  | id :: rest =>
      message <- lift (fun w => gmail_messages_get w refresh_token id) ;;
      let headers := extractEmailHeaders message in
      let senderName := parseSenderName (from headers) in
      if negb (shouldIncludeEmail (from headers) (labelIds message))
      then process_messages user_id refresh_token rest processed
      else
        result <- saveToSupabase
                    {| sender := Some (JStr senderName);
                       summary := Some (JStr (or_else (subject headers) "(No Subject)"));
                       url := createGmailLink id;
                       platform := "gmail";
                       messageId := or_else (Email.messageId headers) id;
                       user_id := user_id |} ;;
        process_messages user_id refresh_token rest
          (match result with Skipped _ => processed | Saved _ => S processed end)
  end.

(** [POST /gmail/webhook] *)
Definition gmail_webhook (body : json) : M response :=
  try_catch
    (let data := get (get (Some body) "message") "data" in
     match data with
     | Some d =>
         if negb (truthy data) then ret (Response 200 (Text "No data"))
         else
           decoded <- lift (fun w => decode_notification w d) ;;
           match decoded with
           | JNull => throw "TypeError"            (* destructuring null *)
           | _ =>
               let emailAddress := get (Some decoded) "emailAddress" in
               tokenRecord <- select_single "user_gmail_tokens" user_gmail_tokens
                                "email_address" emailAddress ;;
               match tokenRecord with
               | None => ret (Response 200 (Text "OK"))
               | Some t =>
                   let user_id := field t "user_id" in
                   let refresh_token := field t "refresh_token" in
                   messages <- lift (fun w => gmail_messages_list w refresh_token) ;;
                   process_messages user_id refresh_token messages 0 ;;;
                   ret (Response 200 (Text "OK"))
               end
           end
     | None => ret (Response 200 (Text "No data"))
     end)
    (fun _ => ret (Response 200 (Text "Error logged"))).

(** The sender name of a Slack message: the profile when the lookup
    succeeds, the raw user id otherwise. *)
Definition lookup_sender (bot_token slackUserId : value) : M value :=
  try_catch
    (userData <- lift (fun w => slack_users_info w bot_token slackUserId) ;;
     if truthy (get (Some userData) "ok")
     then
       let user := get (Some userData) "user" in
       ret (value_or (get user "real_name") (value_or (get user "name") slackUserId))
     else ret slackUserId)
    (fun _ => ret slackUserId).

(** The [try] block of [POST /slack/webhook]; [Some r] is an early
    [return res...]. *)
Definition process_dm (body : json) (event : value) : M (option response) :=
  let teamId := get (Some body) "team_id" in
  let channelId := get event "channel" in
  let messageTs := get event "ts" in
  let slackUserId := get event "user" in
  let text := value_or (get event "text") (Some (JStr "(No message text)")) in
  tokenRecord <- select_single "user_slack_tokens" user_slack_tokens "team_id" teamId ;;
  match tokenRecord with
  | None => ret (Some (Response 200 (Text "OK")))
  | Some t =>
      let user_id := field t "user_id" in
      let bot_token := field t "bot_token" in
      senderName <- lookup_sender bot_token slackUserId ;;
      summary <- lift (fun _ => match text with
                                | Some j => summarize j
                                | None => Throw "TypeError"
                                end) ;;
      saveToSupabase
        {| sender := senderName;
           summary := Some summary;
           url := createSlackLink teamId channelId messageTs;
           platform := "slack";
           messageId := String_ teamId ++ "-" ++ String_ channelId ++ "-" ++ String_ messageTs;
           user_id := user_id |} ;;;
      ret None
  end.

(** [POST /slack/webhook] *)
Definition slack_webhook (req : SlackRequest) : M response :=
  if is_str (get (Some (body req)) "type") "url_verification"
  then ret (Response 200 (Json (JObj (object [("challenge", get (Some (body req)) "challenge")]))))
  else
    ok <- verifySlackSignature req ;;
    if negb ok then ret (Response 401 (Text "Invalid signature"))
    else
      let event := get (Some (body req)) "event" in
      if is_direct_message event then
        if bot_or_edit event then ret (Response 200 (Text "OK"))
        else
          early <- try_catch (process_dm (body req) event) (fun _ => ret None) ;;
          match early with
          | Some r => ret r
          | None => ret (Response 200 (Text "OK"))
          end
      else ret (Response 200 (Text "OK")).

End MultiUser.

(** ** The single-user server ([server.js]) *)

Module SingleUser.

Definition isDuplicate (messageId platform : string) : M bool :=
  r <- select_pending [("message_id", messageId); ("platform", platform)] 1 ;;
  match r with
  | None => ret false              (* allow the insert on error *)
  | Some data => ret (0 <? List.length data)%nat
  end.

Record Message := {
  sender : value; summary : value; url : string; platform : string;
  messageId : string
}.

Definition new_row (m : Message) (created_at : string) : row :=
  object [ ("sender", sender m);
           ("summary", summary m);
           ("url", Some (JStr (url m)));
           ("platform", Some (JStr (platform m)));
           ("message_id", Some (JStr (messageId m)));
           ("created_at", Some (JStr created_at)) ].

Definition saveToSupabase (m : Message) : M save_result :=
  dup <- isDuplicate (messageId m) (platform m) ;;
  if dup : bool then ret (Skipped "duplicate")
  else
    created_at <- ask now_iso ;;
    r <- insert_pending (new_row m created_at) ;;
    match r with
    | None => throw "insert error"
    | Some data => ret (Saved data)
    end.

(** [messageTs.replace('.', '')] runs first: only a string has [replace]. *)
Definition createSlackLink (teamId channelId messageTs : value) : outcome string :=
  match messageTs with
  | Some (JStr _) =>
      Ret ("https://slack.com/app_redirect?team=" ++ String_ teamId ++ "&channel=" ++
           String_ channelId ++ "&message_ts=" ++ String_ messageTs)
  | _ => Throw "TypeError"
  end.

Definition lookup_sender (userId : value) : M value :=
  token <- ask SLACK_BOT_TOKEN ;;
  match token with
  | None | Some EmptyString => ret userId
  | Some bot_token =>
      try_catch
        (userData <- lift (fun w => slack_users_info w (Some (JStr bot_token)) userId) ;;
         if truthy (get (Some userData) "ok")
         then
           let user := get (Some userData) "user" in
           ret (value_or (get user "real_name") (value_or (get user "name") userId))
         else ret userId)
        (fun _ => ret userId)
  end.

Definition process_dm (body : json) (event : value) : M unit :=
  let teamId := get (Some body) "team_id" in
  let channelId := get event "channel" in
  let messageTs := get event "ts" in
  let userId := get event "user" in
  let text := value_or (get event "text") (Some (JStr "(No message text)")) in
  senderName <- lookup_sender userId ;;
  summary <- lift (fun _ => match text with
                            | Some j => summarize j
                            | None => Throw "TypeError"
                            end) ;;
  link <- lift (fun _ => createSlackLink teamId channelId messageTs) ;;
  saveToSupabase
    {| sender := senderName;
       summary := Some summary;
       url := link;
       platform := "slack";
       messageId := String_ teamId ++ "-" ++ String_ channelId ++ "-" ++ String_ messageTs |} ;;;
  ret tt.

(** [POST /slack/webhook] *)
Definition slack_webhook (req : SlackRequest) : M response :=
  if is_str (get (Some (body req)) "type") "url_verification"
  then ret (Response 200 (Json (JObj (object [("challenge", get (Some (body req)) "challenge")]))))
  else
    ok <- verifySlackSignature req ;;
    if negb ok then ret (Response 401 (Text "Invalid signature"))
    else
      let event := get (Some (body req)) "event" in
      if is_direct_message event then
        if bot_or_edit event then ret (Response 200 (Text "OK"))
        else
          try_catch (process_dm (body req) event) (fun _ => ret tt) ;;;
          ret (Response 200 (Text "OK"))
      else ret (Response 200 (Text "OK")).

End SingleUser.

(** ** The application: middleware, then the handler *)

Record RawSlackRequest := {
  raw_timestamp : option string;
  raw_signature : option string;
  raw_body : string
}.

(** What the client observes. *)
Inductive observed :=
| Replied (r : response)
| BadRequest                 (* express.json() refused the body *)
| Unhandled (e : string).    (* the handler threw: it wrote no response *)

Definition post_slack_webhook (handler : SlackRequest -> M response)
           (raw : RawSlackRequest) (w : World) : observed * World :=
  match express_json (raw_body raw) with
  | None => (BadRequest, w)
  | Some b =>
      match handler {| x_slack_request_timestamp := raw_timestamp raw;
                       x_slack_signature := raw_signature raw;
                       body := b |} w with
      | (Ret r, w') => (Replied r, w')
      | (Throw e, w') => (Unhandled e, w')
      end
  end.

(** ** Buffers as text

    [buffer.toString('base64')], [Buffer.from(text, 'base64')] and
    [buffer.toString()], as the OAuth routes use them for the [state]
    parameter. *)

Module Base64.
Import Crypto.
Local Open Scope list_scope.

Definition alphabet : string :=
  "ABCDEFGHIJKLMNOPQRSTUVWXYZabcdefghijklmnopqrstuvwxyz0123456789+/".

Definition digit (n : Z) : ascii :=
  match String.get (Z.to_nat n) alphabet with
  | Some c => c
  | None => "="%char
  end.

(** [buffer.toString('base64')]: three bytes make four digits, and the last
    group is padded with [=]. *)
Fixpoint encode (bs : list byte) : string :=
  match bs with
  | [] => EmptyString
  | a :: [] =>
      String (digit (byteZ a / 4))
        (String (digit (byteZ a mod 4 * 16)) "==")
  | a :: b :: [] =>
      String (digit (byteZ a / 4))
        (String (digit (byteZ a mod 4 * 16 + byteZ b / 16))
           (String (digit (byteZ b mod 16 * 4)) "="))
  | a :: b :: c :: rest =>
      String (digit (byteZ a / 4))
        (String (digit (byteZ a mod 4 * 16 + byteZ b / 16))
           (String (digit (byteZ b mod 16 * 4 + byteZ c / 64))
              (String (digit (byteZ c mod 64)) (encode rest))))
  end.

(** The value of a digit, in the standard and in the URL-safe alphabet. *)
Definition unbase64 (c : ascii) : option Z :=
  let n := Z.of_nat (nat_of_ascii c) in
  if (65 <=? n) && (n <=? 90) then Some (n - 65)
  else if (97 <=? n) && (n <=? 122) then Some (n - 71)
  else if (48 <=? n) && (n <=? 57) then Some (n + 4)
  else if (n =? 43) || (n =? 45) then Some 62
  else if (n =? 47) || (n =? 95) then Some 63
  else None.

(** The digits before the first [=]; a character of neither alphabet is
    skipped. *)
Fixpoint sextets (s : string) : list Z :=
  match s with
  | EmptyString => []
  | String c t =>
      if Ascii.eqb c "=" then []
      else match unbase64 c with
           | Some v => v :: sextets t
           | None => sextets t
           end
  end.

(** Four digits make three bytes; a last group of three makes two, of two
    makes one, and a single left-over digit is dropped. *)
Fixpoint bytes_of (l : list Z) : list byte :=
  match l with
  | a :: b :: c :: d :: rest =>
      Zbyte (a * 4 + b / 16) :: Zbyte (b mod 16 * 16 + c / 4) ::
      Zbyte (c mod 4 * 64 + d) :: bytes_of rest
  | a :: b :: c :: [] =>
      [Zbyte (a * 4 + b / 16); Zbyte (b mod 16 * 16 + c / 4)]
  | a :: b :: [] => [Zbyte (a * 4 + b / 16)]
  | _ => []
  end.

(** [Buffer.from(text, 'base64')] *)
Definition decode (s : string) : list byte := bytes_of (sextets s).

End Base64.

(** [buffer.toString()]: UTF-8 decoding into code units.  [None] when the
    text would hold a character above U+00FF, or U+FFFD for a malformed
    sequence: the strings of the model hold neither. *)
Fixpoint Buffer_toString (bs : list byte) : option string :=
  match bs with
  | [] => Some EmptyString
  | b :: rest =>
      let n := Crypto.byteZ b in
      if n <? 128
      then option_map (String (ascii_of_nat (Z.to_nat n))) (Buffer_toString rest)
      else
        match rest with
        | b2 :: rest' =>
            let m := Crypto.byteZ b2 in
            if (194 <=? n) && (n <=? 195) && (128 <=? m) && (m <=? 191)
            then option_map
                   (String (ascii_of_nat (Z.to_nat ((n - 192) * 64 + (m - 128)))))
                   (Buffer_toString rest')
            else None
        | [] => None
        end
  end.

(** [JSON.parse(Buffer.from(text, 'base64').toString())] for a query
    parameter: a string, or absent ([Buffer.from(undefined)] is a
    TypeError).  A text outside the range of [JSON_parse] is reported as the
    SyntaxError. *)
Definition parse_base64 (text : option string) : outcome json :=
  match text with
  | None => Throw "TypeError"
  | Some s =>
      match Buffer_toString (Base64.decode s) with
      | Some t =>
          match JSON_parse t with
          | Some j => Ret j
          | None => Throw "SyntaxError"
          end
      | None => Throw "SyntaxError"
      end
  end.


(** [Buffer.from(JSON.stringify({ user_id })).toString('base64')] *)
Definition oauth_state (user_id : string) : string :=
  Base64.encode (Crypto.Buffer_from (stringify (JObj [("user_id", JStr user_id)]))).

(** *** [new URLSearchParams(object).toString()] *)

Definition upper_hex (n : Z) : ascii :=
  if n <? 10 then ascii_of_nat (Z.to_nat (48 + n)) else ascii_of_nat (Z.to_nat (55 + n)).

(** Letters, digits and [* - . _] stand for themselves. *)
Definition form_safe (n : Z) : bool :=
  ((48 <=? n) && (n <=? 57)) || ((65 <=? n) && (n <=? 90)) ||
  ((97 <=? n) && (n <=? 122)) ||
  (n =? 42) || (n =? 45) || (n =? 46) || (n =? 95).

Fixpoint form_bytes (bs : list byte) : string :=
  match bs with
  | [] => EmptyString
  | b :: rest =>
      let n := Crypto.byteZ b in
      if form_safe n then String (ascii_of_nat (Z.to_nat n)) (form_bytes rest)
      else if n =? 32 then String "+" (form_bytes rest)
      else String "%" (String (upper_hex (n / 16))
                         (String (upper_hex (n mod 16)) (form_bytes rest)))
  end.

Definition form_urlencode (s : string) : string := form_bytes (Crypto.Buffer_from s).

Definition URLSearchParams (params : list (string * string)) : string :=
  join "&" (map (fun p => form_urlencode (fst p) ++ "=" ++ form_urlencode (snd p)) params).

(** ** The routes beside the two webhooks *)

(** What the process is deployed with, and the providers its OAuth, sync
    and watch routes call: any function is a possible behaviour. *)
Record Deployment := {
  PORT : string;                          (* process.env.PORT || 3000 *)
  SLACK_CLIENT_ID : option string;
  SLACK_REDIRECT_URI : option string;
  (* oauth2Client.generateAuthUrl({ .., state }) *)
  generateAuthUrl : string -> string;
  (* oauth2Client.getToken(code): tokens.refresh_token *)
  getToken : option string -> outcome value;
  (* users.getProfile of a client for the refresh token: profile.data.emailAddress *)
  getProfile : value -> outcome value;
  (* fetch(oauth.v2.access) followed by .json() *)
  oauth_v2_access : option string -> outcome json;
  (* users.messages.list with maxResults: the ids in response.data.messages || [] *)
  messages_list_upto : value -> value -> outcome (list string);
  (* users.watch: response.data *)
  users_watch : value -> outcome json;
  (* users.history.list of the server's own account: for each item of
     history.data.history || [], the ids in messagesAdded || [] *)
  history_list : value -> outcome (list (list string));
  (* users.messages.get of the server's own account: message.data *)
  own_messages_get : string -> outcome GmailMessage
}.

(** What these routes write. *)
Inductive reply :=
| Plain (st : Z) (text : string)              (* res.status(st).send(text) *)
| Page (st : Z) (heading detail : string)     (* res.status(st).send(html): the heading
                                                 and the line built from a value *)
| Redirect (location : string)                (* res.redirect(location) *)
| Body (st : Z) (j : json).                   (* res.status(st).json(j) *)

Definition reply_status (r : reply) : Z :=
  match r with
  | Plain st _ | Page st _ _ | Body st _ => st
  | Redirect _ => 302
  end.

(** *** Upserts on the token tables *)

Definition with_tokens (w : World) (gmail slack : list row) (fs : list bool) : World :=
  {| pending_actions := pending_actions w; unique_index := unique_index w;
     user_gmail_tokens := gmail;
     user_slack_tokens := slack;
     faults := fs; calls := calls w; now := now w; now_iso := now_iso w;
     SLACK_SIGNING_SECRET := SLACK_SIGNING_SECRET w;
     SLACK_BOT_TOKEN := SLACK_BOT_TOKEN w;
     decode_notification := decode_notification w;
     gmail_messages_list := gmail_messages_list w;
     gmail_messages_get := gmail_messages_get w;
     slack_users_info := slack_users_info w |}.

(** The stored row [old] holds, in every column of [onConflict], the value
    the new row holds there; NULL equals nothing. *)
Definition conflicts (onConflict : list string) (r old : row) : bool :=
  forallb (fun c => match column r c, column old c with
                    | Some a, Some b => String.eqb a b
                    | _, _ => false
                    end) onConflict.

(** The stored row after the update: the columns of the new row, then the
    columns it does not mention. *)
Definition merge (r old : row) : row :=
  (r ++ filter (fun kv => negb (existsb (String.eqb (fst kv)) (map fst r))) old)%list.

(** [upsert(r, { onConflict })] on a table whose unique constraint is on the
    columns of [onConflict]: the conflicting row is updated, and without one
    the new row is added. *)
Fixpoint upsert_rows (onConflict : list string) (r : row) (rows : list row) : list row :=
  match rows with
  | [] => [r]
  | old :: rest =>
      if conflicts onConflict r old then merge r old :: rest
      else old :: upsert_rows onConflict r rest
  end.

(** The two upserts of the server; the result is whether [{ error }] is set.
    [calls] keeps the requests on [pending_actions] and the lookups, not
    these. *)
Definition upsert_gmail_token (r : row) : M bool :=
  fun w =>
    let '(f, fs) := next_fault w in
    if f then (Ret true, with_tokens w (user_gmail_tokens w) (user_slack_tokens w) fs)
    else (Ret false,
          with_tokens w (upsert_rows ["email_address"] r (user_gmail_tokens w))
                      (user_slack_tokens w) fs).

Definition upsert_slack_token (r : row) : M bool :=
  fun w =>
    let '(f, fs) := next_fault w in
    if f then (Ret true, with_tokens w (user_gmail_tokens w) (user_slack_tokens w) fs)
    else (Ret false,
          with_tokens w (user_gmail_tokens w)
                      (upsert_rows ["user_id"; "team_id"] r (user_slack_tokens w)) fs).

Module MultiUserRoutes.
Import MultiUser.

(** [GET /auth/google?user_id=..] *)
Definition auth_google (d : Deployment) (user_id : option string) : reply :=
  match user_id with
  | None | Some EmptyString =>
      Plain 400 "Missing user_id parameter. Connect Gmail from the extension."
  | Some u => Redirect (generateAuthUrl d (oauth_state u))
  end.

(** [process.env.SLACK_REDIRECT_URI || `http://localhost:${PORT}/auth/slack/callback`] *)
Definition redirectUri (d : Deployment) : string :=
  match SLACK_REDIRECT_URI d with
  | None | Some EmptyString => "http://localhost:" ++ PORT d ++ "/auth/slack/callback"
  | Some uri => uri
  end.

Definition slackAuthUrl (d : Deployment) (state : string) : string :=
  "https://slack.com/oauth/v2/authorize?" ++
  URLSearchParams [ ("client_id", String_ (option_map JStr (SLACK_CLIENT_ID d)));
                    ("scope", "channels:read,im:history,im:read,users:read");
                    ("redirect_uri", redirectUri d);
                    ("state", state) ].

(** [GET /auth/slack?user_id=..] *)
Definition auth_slack (d : Deployment) (user_id : option string) : reply :=
  match user_id with
  | None | Some EmptyString =>
      Plain 400 "Missing user_id parameter. Connect Slack from the extension."
  | Some u => Redirect (slackAuthUrl d (oauth_state u))
  end.

(** [GET /auth/slack/test?user_id=..] *)
Definition auth_slack_test (d : Deployment) (user_id : option string) : reply :=
  let u := match user_id with
           | None | Some EmptyString => "test-user-id"
           | Some u => u
           end in
  let state := oauth_state u in
  Body 200 (JObj (object
    [ ("url", Some (JStr (slackAuthUrl d state)));
      ("client_id", option_map JStr (SLACK_CLIENT_ID d));
      ("redirect_uri", Some (JStr (redirectUri d)));
      ("scopes", Some (JStr "channels:read,im:history,im:read,users:read"));
      ("state", Some (JStr state)) ])).

(** [GET /auth/google/callback?code=..&state=..] *)
Definition auth_google_callback (d : Deployment) (code state : option string) : M reply :=
  try_catch
    (decoded <- lift (fun _ => parse_base64 state) ;;
     match decoded with
     | JNull => throw "TypeError"               (* destructuring null *)
     | _ =>
         let user_id := get (Some decoded) "user_id" in
         refresh_token <- lift (fun _ => getToken d code) ;;
         emailAddress <- lift (fun _ => getProfile d refresh_token) ;;
         failed <- upsert_gmail_token
                     (object [ ("user_id", user_id);
                               ("email_address", emailAddress);
                               ("refresh_token", refresh_token) ]) ;;
         if failed : bool then throw "upsert error"
         else ret (Page 200 "Gmail Connected!" ("Connected: " ++ String_ emailAddress))
     end)
    (fun message => ret (Page 500 "Connection Failed" message)).

(** [new Error(data.error).message] *)
Definition error_message (data : json) : string :=
  match get (Some data) "error" with
  | None => EmptyString
  | Some e => to_string e
  end.

(** [GET /auth/slack/callback?code=..&state=..] *)
Definition auth_slack_callback (d : Deployment) (code state : option string) : M reply :=
  try_catch
    (decoded <- lift (fun _ => parse_base64 state) ;;
     match decoded with
     | JNull => throw "TypeError"               (* destructuring null *)
     | _ =>
         let user_id := get (Some decoded) "user_id" in
         data <- lift (fun _ => oauth_v2_access d code) ;;
         match data with
         | JNull => throw "TypeError"           (* null.ok *)
         | _ =>
             if negb (truthy (get (Some data) "ok")) then throw (error_message data)
             else
               match get (Some data) "team" with
               | None | Some JNull => throw "TypeError"      (* data.team.id *)
               | Some team =>
                   failed <- upsert_slack_token
                               (object [ ("user_id", user_id);
                                         ("team_id", get (Some team) "id");
                                         ("team_name", get (Some team) "name");
                                         ("bot_token", get (Some data) "access_token") ]) ;;
                   if failed : bool then throw "upsert error"
                   else ret (Page 200 "Slack Connected!"
                                  ("Workspace: " ++ String_ (get (Some team) "name")))
               end
         end
     end)
    (fun message => ret (Page 500 "Connection Failed" message)).

(** One entry of [results]: [{ sender, subject, ...result }]. *)
Definition sync_item (senderName subject : string) (result : save_result) : json :=
  JObj ([("sender", JStr senderName); ("subject", JStr subject)] ++
        match result with
        | Skipped reason => [("skipped", JBool true); ("reason", JStr reason)]
        | Saved data => [("data", JArr (map JObj data)); ("skipped", JBool false)]
        end)%list.

(** The loop over the listed messages of [POST /gmail/sync]. *)
Fixpoint sync_messages (user_id refresh_token : value) (ids : list string)
         (results : list json) (filtered : nat) : M (list json * nat) :=
  match ids with
  | [] => ret (results, filtered)
  | id :: rest =>
      message <- lift (fun w => gmail_messages_get w refresh_token id) ;;
      let headers := extractEmailHeaders message in
      let senderName := parseSenderName (from headers) in
      if negb (shouldIncludeEmail (from headers) (labelIds message))
      then sync_messages user_id refresh_token rest results (S filtered)
      else
        result <- saveToSupabase
                    {| sender := Some (JStr senderName);
                       summary := Some (JStr (or_else (subject headers) "(No Subject)"));
                       url := createGmailLink id;
                       platform := "gmail";
                       messageId := or_else (Email.messageId headers) id;
                       user_id := user_id |} ;;
        sync_messages user_id refresh_token rest
          (results ++ [sync_item senderName (subject headers) result])%list filtered
  end.

(** The body of the 200 response of [POST /gmail/sync]. *)
Definition sync_report (results : list json) (filtered : nat) : json :=
  let processed := Z.of_nat (List.length results) in
  JObj [ ("success", JBool true);
         ("processed", JNum processed);
         ("filtered", JNum (Z.of_nat filtered));
         ("message", JStr ("Added " ++ decimal processed ++ " emails, filtered out " ++
                           decimal (Z.of_nat filtered) ++ " promotional/social"));
         ("results", JArr results) ].

(** [POST /gmail/sync] *)
Definition gmail_sync (d : Deployment) (body : json) : M reply :=
  try_catch
    (let user_id := get (Some body) "user_id" in
     let maxResults := match get (Some body) "maxResults" with
                       | None => Some (JNum 10)
                       | given => given
                       end in
     if negb (truthy user_id) then ret (Body 400 (JObj [("error", JStr "Missing user_id")]))
     else
       tokenRecord <- select_single "user_gmail_tokens" user_gmail_tokens
                        "user_id" user_id ;;
       match tokenRecord with
       | None => ret (Body 404 (JObj [("error", JStr "Gmail not connected for this user")]))
       | Some t =>
           let refresh_token := field t "refresh_token" in
           messages <- lift (fun _ => messages_list_upto d refresh_token maxResults) ;;
           done <- sync_messages user_id refresh_token messages [] 0 ;;
           ret (Body 200 (sync_report (fst done) (snd done)))
       end)
    (fun message => ret (Body 500 (JObj [("error", JStr message)]))).

(** [POST /gmail/watch] *)
Definition gmail_watch (d : Deployment) (body : json) : M reply :=
  try_catch
    (let user_id := get (Some body) "user_id" in
     if negb (truthy user_id) then ret (Body 400 (JObj [("error", JStr "Missing user_id")]))
     else
       tokenRecord <- select_single "user_gmail_tokens" user_gmail_tokens
                        "user_id" user_id ;;
       match tokenRecord with
       | None => ret (Body 404 (JObj [("error", JStr "Gmail not connected for this user")]))
       | Some t =>
           data <- lift (fun _ => users_watch d (field t "refresh_token")) ;;
           match data with
           | JNull => throw "TypeError"         (* null.historyId *)
           | _ =>
               ret (Body 200 (JObj (object
                      [ ("success", Some (JBool true));
                        ("message", Some (JStr "Gmail watch activated"));
                        ("historyId", get (Some data) "historyId");
                        ("expiration", get (Some data) "expiration") ])))
           end
       end)
    (fun message => ret (Body 500 (JObj [("error", JStr message)]))).

End MultiUserRoutes.

Module SingleUserRoutes.
Import SingleUser.

(** The inner loop of [POST /gmail/webhook]: the messages one history item
    added. *)
Fixpoint process_added (d : Deployment) (ids : list string) : M unit :=
  match ids with
  | [] => ret tt
  | messageId :: rest =>
      message <- lift (fun _ => own_messages_get d messageId) ;;
      if negb (MultiUser.includes (labelIds message) "UNREAD")
      then process_added d rest
      else
        let headers := extractEmailHeaders message in
        let senderName := parseSenderName (from headers) in
        saveToSupabase
          {| sender := Some (JStr senderName);
             summary := Some (JStr (or_else (subject headers) "(No Subject)"));
             url := createGmailLink messageId;
             platform := "gmail";
             messageId := or_else (Email.messageId headers) messageId |} ;;;
        process_added d rest
  end.

(** The outer loop: the items of the history. *)
Fixpoint process_history (d : Deployment) (items : list (list string)) : M unit :=
  match items with
  | [] => ret tt
  | added :: rest => process_added d added ;;; process_history d rest
  end.

(** [POST /gmail/webhook] *)
Definition gmail_webhook (d : Deployment) (body : json) : M response :=
  try_catch
    (let data := get (get (Some body) "message") "data" in
     match data with
     | Some dt =>
         if negb (truthy data) then ret (Response 200 (Text "No data"))
         else
           decoded <- lift (fun w => decode_notification w dt) ;;
           match decoded with
           | JNull => throw "TypeError"            (* destructuring null *)
           | _ =>
               history <- lift (fun _ => history_list d (get (Some decoded) "historyId")) ;;
               process_history d history ;;;
               ret (Response 200 (Text "OK"))
           end
     | None => ret (Response 200 (Text "No data"))
     end)
    (fun _ => ret (Response 200 (Text "Error logged"))).

End SingleUserRoutes.

(** ** Sample data for the concrete instances *)

Module Sample.

Definition offline {A} : outcome A := Throw "network error".

(** A deployment with empty tables, no provider reachable. *)
Definition world (secret : option string) (clock : Z) : World :=
  {| pending_actions := []; unique_index := true;
     user_gmail_tokens := []; user_slack_tokens := [];
     faults := []; calls := [];
     now := clock; now_iso := "2023-11-14T22:13:20.000Z";
     SLACK_SIGNING_SECRET := secret; SLACK_BOT_TOKEN := None;
     decode_notification := fun _ => offline;
     gmail_messages_list := fun _ => offline;
     gmail_messages_get := fun _ _ => offline;
     slack_users_info := fun _ _ => offline |}.

Definition secret : string := "8f742231b10e8888abcd99yyyzzz85a5".

(** 2023-11-14T22:13:20Z *)
Definition clock : Z := 1700000000000.

Definition promo_message : GmailMessage :=
  {| payload_headers := [("From", "Deals <deals@shop.example>"); ("Subject", "50% off")];
     labelIds := ["INBOX"; "CATEGORY_PROMOTIONS"] |}.

Definition q3_message : GmailMessage :=
  {| payload_headers := [("From", "Bob <bob@co.com>"); ("Subject", "Q3 report");
                         ("Message-ID", "<abc@mail>")];
     labelIds := ["INBOX"] |}.

(** One connected Gmail account whose inbox lists the given messages. *)
Definition gmail_world (inbox : list (string * GmailMessage)) : World :=
  {| pending_actions := []; unique_index := true;
     user_gmail_tokens :=
       [[("user_id", JStr "u-1"); ("email_address", JStr "ada@x.com");
         ("refresh_token", JStr "rt-1")]];
     user_slack_tokens := [];
     faults := []; calls := [];
     now := clock; now_iso := "2023-11-14T22:13:20.000Z";
     SLACK_SIGNING_SECRET := None; SLACK_BOT_TOKEN := None;
     decode_notification := fun _ => Ret (JObj [("emailAddress", JStr "ada@x.com");
                                                ("historyId", JNum 42)]);
     gmail_messages_list := fun _ => Ret (map fst inbox);
     gmail_messages_get := fun _ id => match assoc id inbox with
                                       | Some m => Ret m
                                       | None => offline
                                       end;
     slack_users_info := fun _ _ => offline |}.

(** One connected Slack workspace; the profile lookup answers with the
    given outcome. *)
Definition slack_world (profile : outcome json) (fs : list bool) : World :=
  {| pending_actions := []; unique_index := true;
     user_gmail_tokens := [];
     user_slack_tokens :=
       [[("user_id", JStr "u-1"); ("team_id", JStr "T1"); ("team_name", JStr "Acme");
         ("bot_token", JStr "xoxb-1")]];
     faults := fs; calls := [];
     now := clock; now_iso := "2023-11-14T22:13:20.000Z";
     SLACK_SIGNING_SECRET := None; SLACK_BOT_TOKEN := None;
     decode_notification := fun _ => offline;
     gmail_messages_list := fun _ => offline;
     gmail_messages_get := fun _ _ => offline;
     slack_users_info := fun _ _ => profile |}.

Definition ada_profile : json :=
  JObj [("ok", JBool true); ("user", JObj [("name", JStr "ada"); ("real_name", JStr "Ada L.")])].

Definition notification : json :=
  JObj [("message", JObj [("data", JStr "eyJlbWFpbEFkZHJlc3MiOiJhZGFAeC5jb20iLCJoaXN0b3J5SWQiOjQyfQ==")])].

(** A direct message, as Slack's Events API delivers it. *)
Definition dm_event (extra : list (string * json)) : json :=
  JObj [("type", JStr "event_callback"); ("team_id", JStr "T1");
        ("event", JObj ([("type", JStr "message"); ("channel_type", JStr "im");
                         ("channel", JStr "D1"); ("user", JStr "U1");
                         ("text", JStr "hello"); ("ts", JStr "1700000000.000100")]
                        ++ extra)%list)].

Definition challenge_body : json :=
  JObj [("token", JStr "Jhj5dZrVaK7ZwHHjRyZWjbDl"); ("challenge", JStr "3eZbrw1aBm2rZgRNFdxV2595E9CY3gmdALWMmHkvFXO7tYXAYM8P");
        ("type", JStr "url_verification")].

End Sample.

(** ** Vocabulary of the statements *)

Definition configured (w : World) (secret : string) : Prop :=
  SLACK_SIGNING_SECRET w = Some secret /\ secret <> EmptyString.

Definition not_handshake (req : SlackRequest) : Prop :=
  is_str (get (Some (body req)) "type") "url_verification" = false.

(** Every character is below 128. *)
Fixpoint ascii7 (s : string) : bool :=
  match s with
  | EmptyString => true
  | String c s' => (Z.of_nat (nat_of_ascii c) <? 128) && ascii7 s'
  end.

(** The freshness test of [verifySlackSignature] sends the request away. *)
Definition stale (req : SlackRequest) (w : World) : bool :=
  lt_number (parseInt (option_map JStr (x_slack_request_timestamp req))) (fiveMinutesAgo w).

(** The event of a request's body. *)
Definition event_of (req : SlackRequest) : value := get (Some (body req)) "event".


(** ** Sample requests *)

Definition unsigned_handshake : SlackRequest :=
  {| x_slack_request_timestamp := None; x_slack_signature := None;
     body := Sample.challenge_body |}.

Definition missigned_handshake : SlackRequest :=
  {| x_slack_request_timestamp := Some "1700000000";
     x_slack_signature := Some "v0=not-a-signature";
     body := Sample.challenge_body |}.

(** A direct message sent twenty minutes ago, with the signature Slack computed. *)
Definition replayed_request : SlackRequest :=
  {| x_slack_request_timestamp := Some "1699998800";
     x_slack_signature :=
       Some (slack_signature Sample.secret (Some "1699998800")
                             (stringify (Sample.dm_event [])));
     body := Sample.dm_event [] |}.

(** A direct message with a stale timestamp and no signature header. *)
Definition stale_unsigned_request : SlackRequest :=
  {| x_slack_request_timestamp := Some "0";
     x_slack_signature := None;
     body := Sample.dm_event [] |}.

(** Fresh requests whose signature header is missing, or too short. *)
Definition fresh_unsigned_request : SlackRequest :=
  {| x_slack_request_timestamp := Some "1700000000";
     x_slack_signature := None;
     body := Sample.dm_event [] |}.

Definition fresh_short_signature_request : SlackRequest :=
  {| x_slack_request_timestamp := Some "1700000000";
     x_slack_signature := Some "v0=deadbeef";
     body := Sample.dm_event [] |}.

(** A direct message posted by a bot, correctly signed. *)
Definition bot_request : SlackRequest :=
  {| x_slack_request_timestamp := Some "1700000000";
     x_slack_signature :=
       Some (slack_signature Sample.secret (Some "1700000000")
                             (stringify (Sample.dm_event [("bot_id", JStr "B1")])));
     body := Sample.dm_event [("bot_id", JStr "B1")] |}.

(** A direct message posted by a bot that reaches a deployment with a
    signing secret without a signature header, and one with a timestamp
    older than five minutes. *)
Definition unsigned_bot_request : SlackRequest :=
  {| x_slack_request_timestamp := Some "1700000000";
     x_slack_signature := None;
     body := Sample.dm_event [("bot_id", JStr "B1")] |}.

Definition stale_bot_request : SlackRequest :=
  {| x_slack_request_timestamp := Some "1699998800";
     x_slack_signature := x_slack_signature bot_request;
     body := Sample.dm_event [("bot_id", JStr "B1")] |}.


(** ** What the patterns of [parseSenderName] accept *)

Fixpoint lacks (c : ascii) (s : string) : bool :=
  match s with
  | EmptyString => true
  | String c' s' => negb (Ascii.eqb c' c) && lacks c s'
  end.

Fixpoint one_line (s : string) : bool :=
  match s with
  | EmptyString => true
  | String c s' => negb (is_line_terminator c) && one_line s'
  end.

Fixpoint all_space (s : string) : bool :=
  match s with
  | EmptyString => true
  | String c s' => is_space c && all_space s'
  end.

(** [.*>$]: characters of one line, then the closing bracket at the end. *)
Fixpoint dots_then_gt (r : string) : bool :=
  match r with
  | EmptyString => false
  | String c EmptyString => Ascii.eqb ">" c
  | String c t => negb (is_line_terminator c) && dots_then_gt t
  end.

(** [<.+>$] *)
Definition address_tail (r : string) : bool :=
  match r with
  | String "<" (String c t) => negb (is_line_terminator c) && dots_then_gt t
  | _ => false
  end.

(** How many more characters the lazy group takes before [\s*<.+>$]
    matches the rest. *)
Fixpoint find_split (r : string) : option nat :=
  if address_tail (trimStart r) then Some O
  else match r with
       | String c t => if is_line_terminator c then None else option_map S (find_split t)
       | EmptyString => None
       end.

(** The pieces of [/^(.+?)\s*<.+>$/] after the group, and the state of a
    matcher that has consumed all of its input. *)
Definition tail_gt : regex := Cat (Lit ">") Eol.
Definition tail_address : regex := Cat (Lit "<") (Cat (Plus Dot) tail_gt).
Definition tail_spaces : regex := Cat (Star Space) tail_address.

Definition at_end (p : nat) (r : string) (c : option string) : mstate :=
  MState (p + String.length r) EmptyString c.

(** A quoted display name followed by an address in angle brackets. *)
Definition quoted_header (name ws addr : string) : string :=
  String dquote (name ++ String dquote (ws ++ String "<" (addr ++ ">"))).

(** ** Vocabulary for the table of pending actions *)

(** The next storage request goes through. *)
Definition lookup_succeeds (w : World) : Prop := fst (next_fault w) = false.

(** Some stored row carries this key and platform in these columns. *)
Definition recorded (key_col platform_col key platform : string) (w : World) : bool :=
  existsb (fun r => eq_filter key_col key r && eq_filter platform_col platform r)
          (pending_actions w).

(** No key and platform are shared by two stored rows. *)
Definition at_most_one (key_col platform_col : string) (w : World) : Prop :=
  forall key platform,
    (List.length (matching [(key_col, key); (platform_col, platform)]
                           (pending_actions w)) <= 1)%nat.

(** In a history of storage requests (newest first), every insert into
    [pending_actions] comes directly after a select on the same table that
    filters on the key and platform of the inserted row. *)
Fixpoint gated (key_col platform_col : string) (cs : list call) : Prop :=
  match cs with
  | Insert table r :: earlier =>
      match earlier with
      | Select table' [(c1, key); (c2, platform)] :: _ =>
          table = "pending_actions" /\ table' = "pending_actions" /\
          c1 = key_col /\ c2 = platform_col /\
          column r key_col = Some key /\ column r platform_col = Some platform
      | _ => False
      end /\ gated key_col platform_col earlier
  | Select _ _ :: earlier => gated key_col platform_col earlier
  | [] => True
  end.

(** A computation that keeps a property of the world. *)
Definition preserves {A} (I : World -> Prop) (m : M A) : Prop :=
  forall w, I w -> I (snd (m w)).

(** Two Gmail messages that carry the same Message-ID header. *)
Definition twin_inbox : list (string * GmailMessage) :=
  [("18c0a1", Sample.q3_message); ("18c0b2", Sample.q3_message)].

Definition q3_event (id : string) : MultiUser.Message :=
  {| MultiUser.sender := Some (JStr "Bob");
     MultiUser.summary := Some (JStr "Q3 report");
     MultiUser.url := createGmailLink id;
     MultiUser.platform := "gmail";
     MultiUser.messageId := "<abc@mail>";
     MultiUser.user_id := Some (JStr "u-1") |}.

Definition q3_event_single : SingleUser.Message :=
  {| SingleUser.sender := Some (JStr "Bob");
     SingleUser.summary := Some (JStr "Q3 report");
     SingleUser.url := createGmailLink "18c0a1";
     SingleUser.platform := "gmail";
     SingleUser.messageId := "<abc@mail>" |}.

(** The storage fails on the given upcoming requests. *)
Definition with_faults (w : World) (fs : list bool) : World :=
  with_store w (pending_actions w) fs (calls w).

(** A deployment without the unique index. *)
Definition without_index (w : World) : World :=
  {| pending_actions := pending_actions w; unique_index := false;
     user_gmail_tokens := user_gmail_tokens w;
     user_slack_tokens := user_slack_tokens w;
     faults := faults w; calls := calls w; now := now w; now_iso := now_iso w;
     SLACK_SIGNING_SECRET := SLACK_SIGNING_SECRET w;
     SLACK_BOT_TOKEN := SLACK_BOT_TOKEN w;
     decode_notification := decode_notification w;
     gmail_messages_list := gmail_messages_list w;
     gmail_messages_get := gmail_messages_get w;
     slack_users_info := slack_users_info w |}.

(** The world after the Q3 report was delivered once to the multi-user
    server, and after it was delivered once to the single-user server. *)
Definition once_delivered : World :=
  snd (MultiUser.saveToSupabase (q3_event "18c0a1") (Sample.gmail_world [])).

Definition once_delivered_single : World :=
  snd (SingleUser.saveToSupabase q3_event_single (Sample.gmail_world [])).

(** In the history of storage requests every insert follows its duplicate
    check, by key columns. *)
Definition gate_respected (key_col platform_col : string) (w : World) : Prop :=
  gated key_col platform_col (calls w).

(** ** Raw request bodies *)

(** The members of an event callback, as Slack serialises them. *)
Definition callback_members : string :=
  quote "type" ++ ":" ++ quote "event_callback" ++ "," ++
  quote "team_id" ++ ":" ++ quote "T1" ++ "," ++
  quote "event" ++ ":{" ++ quote "type" ++ ":" ++ quote "reaction_added" ++ "}".

(** The body Slack signed, and the same members with white space added. *)
Definition raw_signed : string := "{" ++ callback_members ++ "}".
Definition raw_altered : string := "{ " ++ callback_members ++ " }".

(** A direct message whose text holds a URL; Slack escapes the slashes. *)
Definition raw_escaped : string :=
  "{" ++ quote "type" ++ ":" ++ quote "event_callback" ++ "," ++
  quote "team_id" ++ ":" ++ quote "T1" ++ "," ++
  quote "event" ++ ":{" ++ quote "type" ++ ":" ++ quote "message" ++ "," ++
  quote "channel_type" ++ ":" ++ quote "im" ++ "," ++
  quote "text" ++ ":" ++
  String dquote ("see https:" ++ String backslash ("/" ++ String backslash ("/example.com" ++
  String dquote "}}"))).

(** A request delivered with the signature of another body. *)
Definition resigned_request (signed delivered : string) : RawSlackRequest :=
  {| raw_timestamp := Some "1700000000";
     raw_signature := Some (slack_signature Sample.secret (Some "1700000000") signed);
     raw_body := delivered |}.

(** The storage answers every request, and no key is stored twice. *)
Definition quiet_unique (key_col platform_col : string) (w : World) : Prop :=
  faults w = [] /\ at_most_one key_col platform_col w.

(** Webhook calls reaching the multi-user server one after the other: each
    handler has written its response before the next request arrives.
    Requests that overlap are not of this form; see [overlap] below. *)
Inductive delivery :=
| GmailPush (b : json)
| SlackEvent (req : SlackRequest).

Definition deliver (w : World) (d : delivery) : World :=
  match d with
  | GmailPush b => snd (MultiUser.gmail_webhook b w)
  | SlackEvent req => snd (MultiUser.slack_webhook req w)
  end.

Definition deliver_all (ds : list delivery) (w : World) : World :=
  fold_left deliver ds w.

(** Slack events reaching the single-user server one after the other, each
    handled to its end before the next arrives. *)
Definition deliver_all_single (reqs : list SlackRequest) (w : World) : World :=
  fold_left (fun w req => snd (SingleUser.slack_webhook req w)) reqs w.

(** Two pushes for the inbox holding the twin messages, then a bot message. *)
Definition busy_morning : list delivery :=
  [GmailPush Sample.notification; GmailPush Sample.notification; SlackEvent bot_request].

(** An unsigned direct message, for deployments without a signing secret. *)
Definition plain_dm : SlackRequest :=
  {| x_slack_request_timestamp := None; x_slack_signature := None;
     body := Sample.dm_event [] |}.

(** ** Overlapping calls of [saveToSupabase]

    The multi-user [saveToSupabase] awaits twice: the duplicate lookup, then
    the insert.  While it waits, the handlers of other requests run.  A call
    in progress is about to send its lookup, about to send its insert, or
    has returned. *)
Inductive saving :=
| Checking (m : MultiUser.Message)
| Inserting (m : MultiUser.Message)
| Returned (r : outcome save_result).

(** The call receives the answer of its next storage request and runs up to
    the following [await]. *)
Definition advance (s : saving) (w : World) : saving * World :=
  match s with
  | Checking m =>
      match MultiUser.isDuplicate (MultiUser.url m) (MultiUser.platform m) w with
      | (Ret true, w') => (Returned (Ret (Skipped "duplicate")), w')
      | (Ret false, w') => (Inserting m, w')
      | (Throw e, w') => (Returned (Throw e), w')
      end
  | Inserting m =>
      match insert_pending (MultiUser.new_row m) w with
      | (Ret (Some data), w') => (Returned (Ret (Saved data)), w')
      | (Ret None, w') => (Returned (Throw "insert error"), w')
      | (Throw e, w') => (Returned (Throw e), w')
      end
  | Returned _ => (s, w)
  end.

Fixpoint put (i : nat) (s : saving) (ss : list saving) : list saving :=
  match ss, i with
  | [], _ => []
  | _ :: rest, O => s :: rest
  | s0 :: rest, S j => s0 :: put j s rest
  end.

(** Calls in progress, advanced in the order of a schedule: each entry names
    the call whose storage request is answered next. *)
Fixpoint overlap (schedule : list nat) (ss : list saving) (w : World)
  : list saving * World :=
  match schedule with
  | [] => (ss, w)
  | i :: rest =>
      match nth_error ss i with
      | Some s => let '(s', w') := advance s w in overlap rest (put i s' ss) w'
      | None => overlap rest ss w
      end
  end.

(** ** Vocabulary for the helper functions and the other routes *)

(** A display name, optional white space and an address in angle brackets. *)
Definition display_header (name ws addr : string) : string :=
  name ++ ws ++ String "<" (addr ++ ">").

(** The decoded [state] of an OAuth flow started for a user. *)
Definition state_of (user_id : string) : json := JObj [("user_id", JStr user_id)].

(** A direct message dated far in the future, with the signature Slack
    would compute for it. *)
Definition postdated_request : SlackRequest :=
  {| x_slack_request_timestamp := Some "4102444800";
     x_slack_signature :=
       Some (slack_signature Sample.secret (Some "4102444800")
                             (stringify (Sample.dm_event [])));
     body := Sample.dm_event [] |}.

(** The sender name the Slack handlers settle on, given the answer of
    [users.info]: the profile when the lookup succeeds, the raw user id
    otherwise. *)
Definition profile_name (answer : outcome json) (slackUserId : value) : value :=
  match answer with
  | Ret userData =>
      if truthy (get (Some userData) "ok")
      then value_or (get (get (Some userData) "user") "real_name")
                    (value_or (get (get (Some userData) "user") "name") slackUserId)
      else slackUserId
  | Throw _ => slackUserId
  end.

(** [event.text || '(No message text)'] *)
Definition dm_text (event : value) : json :=
  match value_or (get event "text") (Some (JStr "(No message text)")) with
  | Some text => text
  | None => JNull
  end.

(** The workspace a Slack request comes from, as the lookup filters on it. *)
Definition team_of (req : SlackRequest) : string :=
  String_ (get (Some (body req)) "team_id").

(** What the multi-user handler passes to [saveToSupabase] for a direct
    message of a workspace whose credential row is [t]. *)
Definition dm_message (req : SlackRequest) (t : row) (w : World) (summary : json)
  : MultiUser.Message :=
  let teamId := get (Some (body req)) "team_id" in
  let channelId := get (event_of req) "channel" in
  let messageTs := get (event_of req) "ts" in
  let slackUserId := get (event_of req) "user" in
  {| MultiUser.sender :=
       profile_name (slack_users_info w (field t "bot_token") slackUserId) slackUserId;
     MultiUser.summary := Some summary;
     MultiUser.url := MultiUser.createSlackLink teamId channelId messageTs;
     MultiUser.platform := "slack";
     MultiUser.messageId :=
       String_ teamId ++ "-" ++ String_ channelId ++ "-" ++ String_ messageTs;
     MultiUser.user_id := field t "user_id" |}.

(** No two rows hold the same value in a column. *)
Definition one_per (col : string) (rows : list row) : Prop :=
  forall v, (List.length (matching [(col, v)] rows) <= 1)%nat.

(** *** Sample deployments *)

(** Providers that answer every request: Google with one refresh token and
    mailbox, Slack with one workspace. *)
Definition acme : Deployment :=
  {| PORT := "3000";
     SLACK_CLIENT_ID := Some "1234.5678";
     SLACK_REDIRECT_URI := None;
     generateAuthUrl := fun state => "https://accounts.google.com/o/oauth2/v2/auth?state=" ++ state;
     getToken := fun _ => Ret (Some (JStr "rt-2"));
     getProfile := fun _ => Ret (Some (JStr "ada@x.com"));
     oauth_v2_access := fun _ =>
       Ret (JObj [("ok", JBool true); ("access_token", JStr "xoxb-2");
                  ("team", JObj [("id", JStr "T1"); ("name", JStr "Acme")])]);
     messages_list_upto := fun _ _ => Ret ["18c0a1"; "18c0b2"];
     users_watch := fun _ => Ret (JObj [("historyId", JStr "42"); ("expiration", JStr "1700600000000")]);
     history_list := fun _ => Ret [["18c0a1"; "18c0b2"]];
     own_messages_get := fun id => if String.eqb id "18c0a1" then Ret Sample.q3_message
                                   else Ret Sample.promo_message |}.

(** The world after two users have connected the same Slack workspace. *)
Definition shared_workspace : World :=
  snd (MultiUserRoutes.auth_slack_callback acme (Some "code-2") (Some (oauth_state "u-2"))
         (snd (MultiUserRoutes.auth_slack_callback acme (Some "code-1")
                 (Some (oauth_state "u-1")) (Sample.world None Sample.clock)))).

(** ** Vocabulary for batches of Gmail messages *)

(** What [shouldIncludeEmail] says of a fetched message. *)
Definition kept (message : GmailMessage) : bool :=
  MultiUser.shouldIncludeEmail (from (extractEmailHeaders message)) (labelIds message).

(** What the Gmail handlers of the multi-user server pass to
    [saveToSupabase] for a listed message. *)
Definition email_message (user_id : value) (id : string) (message : GmailMessage)
  : MultiUser.Message :=
  let headers := extractEmailHeaders message in
  {| MultiUser.sender := Some (JStr (parseSenderName (from headers)));
     MultiUser.summary := Some (JStr (or_else (subject headers) "(No Subject)"));
     MultiUser.url := createGmailLink id;
     MultiUser.platform := "gmail";
     MultiUser.messageId := or_else (Email.messageId headers) id;
     MultiUser.user_id := user_id |}.

(** Some row holds this link for this platform. *)
Definition linked (link platform : string) (rows : list row) : bool :=
  existsb (fun r => eq_filter "message_link" link r && eq_filter "platform_tag" platform r)
          rows.

(** The table after one listed message, and after a batch, when the storage
    answers: a message that passes the filter and whose link is not stored
    yet adds its row. *)
Definition ingest_one (user_id : value) (rows : list row) (im : string * GmailMessage)
  : list row :=
  if kept (snd im) && negb (linked (createGmailLink (fst im)) "gmail" rows)
  then (rows ++ [MultiUser.new_row (email_message user_id (fst im) (snd im))])%list
  else rows.

Definition ingest (user_id : value) (rows : list row) (batch : list (string * GmailMessage))
  : list row :=
  fold_left (ingest_one user_id) batch rows.

(** A push notification that resolves: its data decodes, exactly one
    credential row [t] holds the address, and Gmail lists and returns the
    messages of [batch] for the token of that row. *)
Definition push_resolves (body : json) (w : World) (t : row)
           (batch : list (string * GmailMessage)) : Prop :=
  exists data decoded,
    get (get (Some body) "message") "data" = Some data /\
    truthy (Some data) = true /\
    decode_notification w data = Ret decoded /\
    decoded <> JNull /\
    matching [("email_address", String_ (get (Some decoded) "emailAddress"))]
             (user_gmail_tokens w) = [t] /\
    gmail_messages_list w (field t "refresh_token") = Ret (map fst batch) /\
    Forall (fun im => gmail_messages_get w (field t "refresh_token") (fst im) = Ret (snd im))
           batch.

(** A sync request that resolves: exactly one credential row [t] holds the
    user, and Gmail lists and returns the messages of [batch]. *)
Definition sync_resolves (d : Deployment) (body : json) (w : World) (t : row)
           (batch : list (string * GmailMessage)) : Prop :=
  truthy (get (Some body) "user_id") = true /\
  matching [("user_id", String_ (get (Some body) "user_id"))] (user_gmail_tokens w) = [t] /\
  messages_list_upto d (field t "refresh_token")
    (match get (Some body) "maxResults" with None => Some (JNum 10) | given => given end) =
    Ret (map fst batch) /\
  Forall (fun im => gmail_messages_get w (field t "refresh_token") (fst im) = Ret (snd im))
         batch.

(** How many messages of a batch the filter sends away. *)
Definition filtered_out (batch : list (string * GmailMessage)) : nat :=
  List.length (filter (fun im => negb (kept (snd im))) batch).

(** A sync request for the sample user. *)
Definition sync_request : json := JObj [("user_id", JStr "u-1")].

(** The entries of a sync report that stand for a stored row:
    [skipped: false]. *)
Definition added (items : list json) : nat :=
  List.length (filter (fun item => match get (Some item) "skipped" with
                                   | Some (JBool false) => true
                                   | _ => false
                                   end) items).

(** One mailbox connected for the sample user, listing the Q3 report and a
    promotion; and the same user with a second mailbox connected. *)
Definition ada_inbox : list (string * GmailMessage) :=
  [("18c0a1", Sample.q3_message); ("18c0b2", Sample.promo_message)].


(** The value is a string. *)
Definition textual (v : value) : Prop := exists s, v = Some (JStr s).

(** The identifiers of a direct message are strings, as Slack sends them:
    the workspace, the channel, the timestamp and the author.  On strings
    the conversions of the template literals are the identity. *)
Definition textual_ids (req : SlackRequest) : Prop :=
  textual (get (Some (body req)) "team_id") /\
  textual (get (event_of req) "channel") /\
  textual (get (event_of req) "ts") /\
  textual (get (event_of req) "user").

(** ** Vocabulary for the single-user server *)

(** The unique index is in place and no key is stored twice. *)
Definition indexed_unique (w : World) : Prop :=
  unique_index w = true /\ at_most_one "message_id" "platform" w.

(** Webhook calls reaching the single-user server one after the other, each
    handled to its end before the next arrives. *)
Inductive own_delivery :=
| OwnGmailPush (b : json)
| OwnSlackEvent (req : SlackRequest).

Definition deliver_own (d : Deployment) (w : World) (x : own_delivery) : World :=
  match x with
  | OwnGmailPush b => snd (SingleUserRoutes.gmail_webhook d b w)
  | OwnSlackEvent req => snd (SingleUser.slack_webhook req w)
  end.

Definition deliver_all_own (d : Deployment) (xs : list own_delivery) (w : World) : World :=
  fold_left (deliver_own d) xs w.

(** The storage fails on every duplicate check of a push for two messages
    that carry the same Message-ID, and answers the inserts. *)
Definition twins : Deployment :=
  {| PORT := PORT acme; SLACK_CLIENT_ID := SLACK_CLIENT_ID acme;
     SLACK_REDIRECT_URI := SLACK_REDIRECT_URI acme;
     generateAuthUrl := generateAuthUrl acme;
     getToken := getToken acme; getProfile := getProfile acme;
     oauth_v2_access := oauth_v2_access acme;
     messages_list_upto := messages_list_upto acme;
     users_watch := users_watch acme;
     history_list := history_list acme;
     own_messages_get := fun _ => Ret {| payload_headers := payload_headers Sample.q3_message;
                                         labelIds := ["INBOX"; "UNREAD"] |} |}.

Definition blind_checks : World :=
  with_faults (Sample.gmail_world []) [true; false; true; false].

(** The sender name the single-user handler settles on: the raw user id
    without a bot token, the outcome of the profile lookup with one. *)
Definition own_profile_name (w : World) (userId : value) : value :=
  match SLACK_BOT_TOKEN w with
  | None | Some EmptyString => userId
  | Some bot_token => profile_name (slack_users_info w (Some (JStr bot_token)) userId) userId
  end.

(** What the single-user handler passes to [saveToSupabase] for a direct
    message. *)
Definition own_dm_message (req : SlackRequest) (w : World) (summary : json)
  : SingleUser.Message :=
  let teamId := get (Some (body req)) "team_id" in
  let channelId := get (event_of req) "channel" in
  let messageTs := get (event_of req) "ts" in
  {| SingleUser.sender := own_profile_name w (get (event_of req) "user");
     SingleUser.summary := Some summary;
     SingleUser.url := MultiUser.createSlackLink teamId channelId messageTs;
     SingleUser.platform := "slack";
     SingleUser.messageId :=
       String_ teamId ++ "-" ++ String_ channelId ++ "-" ++ String_ messageTs |}.

(** The answer of [oauth.v2.access] for a workspace. *)
Definition access_granted (team_id team_name token : string) : json :=
  JObj [("ok", JBool true); ("access_token", JStr token);
        ("team", JObj [("id", JStr team_id); ("name", JStr team_name)])].

(** ** Requests to the multi-user server *)

(** The requests that reach the routes of the multi-user server which touch
    the storage, served one after the other: each handler has written its
    response before the next request arrives. *)
Inductive request :=
| Push (b : json)                                (* POST /gmail/webhook *)
| Event (req : SlackRequest)                     (* POST /slack/webhook *)
| Sync (b : json)                                (* POST /gmail/sync *)
| Watch (b : json)                               (* POST /gmail/watch *)
| GoogleCallback (code state : option string)    (* GET /auth/google/callback *)
| SlackCallback (code state : option string).    (* GET /auth/slack/callback *)

Definition serve (d : Deployment) (w : World) (r : request) : World :=
  match r with
  | Push b => snd (MultiUser.gmail_webhook b w)
  | Event req => snd (MultiUser.slack_webhook req w)
  | Sync b => snd (MultiUserRoutes.gmail_sync d b w)
  | Watch b => snd (MultiUserRoutes.gmail_watch d b w)
  | GoogleCallback code state => snd (MultiUserRoutes.auth_google_callback d code state w)
  | SlackCallback code state => snd (MultiUserRoutes.auth_slack_callback d code state w)
  end.

Definition serve_all (d : Deployment) (rs : list request) (w : World) : World :=
  fold_left (serve d) rs w.

(** A morning of the sample deployment: a user connects a mailbox and syncs
    it twice, a push arrives, a second user connects a workspace and
    receives a direct message. *)
Definition busy_routes : list request :=
  [ GoogleCallback (Some "4/0Ab") (Some (oauth_state "u-1"));
    Sync sync_request; Sync sync_request; Push Sample.notification;
    SlackCallback (Some "code-2") (Some (oauth_state "u-2"));
    Event plain_dm ].

(** The inbox of the sample account lists the Q3 report first; the storage
    answers the two lookups and then refuses the insert. *)
Definition refused_insert : World :=
  with_faults (Sample.gmail_world [("18c0a1", Sample.q3_message);
                                   ("18c0d4", Sample.q3_message)])
              [false; false; true].

(** ** Batches of the single-user server *)

Definition unread (message : GmailMessage) : bool :=
  MultiUser.includes (labelIds message) "UNREAD".

(** What the Gmail webhook of the single-user server passes to
    [saveToSupabase] for an added message. *)
Definition own_email_message (id : string) (message : GmailMessage) : SingleUser.Message :=
  let headers := extractEmailHeaders message in
  {| SingleUser.sender := Some (JStr (parseSenderName (from headers)));
     SingleUser.summary := Some (JStr (or_else (subject headers) "(No Subject)"));
     SingleUser.url := createGmailLink id;
     SingleUser.platform := "gmail";
     SingleUser.messageId := or_else (Email.messageId headers) id |}.

(** Some row holds this message id for this platform. *)
Definition keyed (key platform : string) (rows : list row) : bool :=
  existsb (fun r => eq_filter "message_id" key r && eq_filter "platform" platform r) rows.

(** The table after one added message, and after the messages of a
    history, when the storage answers: an unread message whose key (its
    Message-ID header, or its Gmail id without one) is not stored yet adds
    its row. *)
Definition own_ingest_one (created_at : string) (rows : list row)
           (im : string * GmailMessage) : list row :=
  if unread (snd im) &&
     negb (keyed (SingleUser.messageId (own_email_message (fst im) (snd im))) "gmail" rows)
  then (rows ++ [SingleUser.new_row (own_email_message (fst im) (snd im)) created_at])%list
  else rows.

Definition own_ingest (created_at : string) (rows : list row)
           (batch : list (string * GmailMessage)) : list row :=
  fold_left (own_ingest_one created_at) batch rows.

(** A push to the single-user server that resolves: its data decodes, and
    Gmail returns the history [items] and each message added in it. *)
Definition own_push_resolves (d : Deployment) (body : json) (w : World)
           (items : list (list (string * GmailMessage))) : Prop :=
  exists data decoded,
    get (get (Some body) "message") "data" = Some data /\
    truthy (Some data) = true /\
    decode_notification w data = Ret decoded /\
    decoded <> JNull /\
    history_list d (get (Some decoded) "historyId") = Ret (map (map fst) items) /\
    Forall (fun im => own_messages_get d (fst im) = Ret (snd im)) (concat items).

(** An unread copy of the Q3 report, and a history that adds it twice under
    two Gmail ids, then an unread promotion. *)
Definition q3_unread : GmailMessage :=
  {| payload_headers := payload_headers Sample.q3_message; labelIds := ["INBOX"; "UNREAD"] |}.

Definition promo_unread : GmailMessage :=
  {| payload_headers := payload_headers Sample.promo_message;
     labelIds := ["INBOX"; "CATEGORY_PROMOTIONS"; "UNREAD"] |}.

Definition unread_history : list (list (string * GmailMessage)) :=
  [[("18c0a1", q3_unread); ("18c0b2", q3_unread)]; [("18c0e5", promo_unread)]].

Definition unread_account : Deployment :=
  {| PORT := PORT acme; SLACK_CLIENT_ID := SLACK_CLIENT_ID acme;
     SLACK_REDIRECT_URI := SLACK_REDIRECT_URI acme;
     generateAuthUrl := generateAuthUrl acme;
     getToken := getToken acme; getProfile := getProfile acme;
     oauth_v2_access := oauth_v2_access acme;
     messages_list_upto := messages_list_upto acme;
     users_watch := users_watch acme;
     history_list := fun _ => Ret (map (map fst) unread_history);
     own_messages_get := fun id => if String.eqb id "18c0e5" then Ret promo_unread
                                   else Ret q3_unread |}.

(** A channel message, signed or not. *)
Definition channel_message : SlackRequest :=
  {| x_slack_request_timestamp := None; x_slack_signature := None;
     body := JObj [("type", JStr "event_callback"); ("team_id", JStr "T1");
                   ("event", JObj [("type", JStr "message"); ("channel_type", JStr "channel");
                                   ("channel", JStr "C1"); ("user", JStr "U1");
                                   ("text", JStr "hello all");
                                   ("ts", JStr "1700000000.000200")])] |}.



(** ** Checks of the built-ins against published values *)

Example round_constants_ends :
  List.length Crypto.round_constants = 64%nat /\
  hd 0 Crypto.round_constants = 0x428a2f98 /\
  last Crypto.round_constants 0 = 0xc67178f2 /\
  Crypto.ha Crypto.initial_hash = 0x6a09e667 /\
  Crypto.hh Crypto.initial_hash = 0x5be0cd19.
Proof. vm_compute. repeat split. Qed.

Example sha256_abc :
Crypto.hex (Crypto.sha256 (Crypto.Buffer_from "abc")) =
"ba7816bf8f01cfea414140de5dae2223b00361a396177a9cb410ff61f20015ad".
Proof. vm_compute. reflexivity. Qed.

Example sha256_two_blocks :
Crypto.hex (Crypto.sha256 (Crypto.Buffer_from
   "abcdbcdecdefdefgefghfghighijhijkijkljklmklmnlmnomnopnopq")) =
"248d6a61d20638b8e5c026930c3e6039a33ce45964ff2167f6ecedd419db06c1".
Proof. vm_compute. reflexivity. Qed.

Example hmac_rfc4231_case2 :
Crypto.hmac_sha256_hex "Jefe" "what do ya want for nothing?" =
"5bdcc146bf60754e6a042426089575c75a003f089d2739839dec58b964ec3843".
Proof. vm_compute. reflexivity. Qed.

Example hmac_rfc4231_case6 :
  Crypto.hex (Crypto.hmac_sha256 (repeat xaa 131)
                (Crypto.Buffer_from "Test Using Larger Than Block-Size Key - Hash Key First")) =
  "60e431591ee0b67f0d8a26aacbf5b77f8e0bc6213728c5140546040f0ee37f54".
Proof. vm_compute. reflexivity. Qed.

Example Buffer_from_latin1 :
  Crypto.Buffer_from (String "233" "a") = [xc3; xa9; x61] /\
  Crypto.timingSafeEqual [x61; x62] [x61; x62] = Some true /\
  Crypto.timingSafeEqual [x61; x62] [x61; x63] = Some false /\
  Crypto.timingSafeEqual [x61; x62] [x61] = None.
Proof. vm_compute. repeat split. Qed.

Example stringify_sample :
JS.stringify (JS.JObj [("type", JS.JStr "event_callback"); ("n", JS.JNum (-120));
                       ("l", JS.JArr [JS.JNull; JS.JBool true])]) =
"{" ++ JS.quote "type" ++ ":" ++ JS.quote "event_callback" ++ "," ++ JS.quote "n" ++
":-120," ++ JS.quote "l" ++ ":[null,true]}".
Proof. vm_compute. reflexivity. Qed.

Example parseInt_samples :
JS.parseInt (Some (JS.JStr " 1700000000abc")) = Some 1700000000 /\
JS.parseInt (Some (JS.JStr "-12")) = Some (-12) /\
JS.parseInt (Some (JS.JStr "0x1f")) = Some 31 /\
JS.parseInt (Some (JS.JStr "abc")) = None /\
JS.parseInt None = None /\
JS.decimal 1700000000 = "1700000000" /\ JS.decimal 0 = "0" /\ JS.decimal (-7) = "-7".
Proof. vm_compute. repeat split. Qed.

Example parseSenderName_samples :
parseSenderName ada_header = "Ada Lovelace" /\
parseSenderName "ada@x.com" = "ada@x.com" /\
parseSenderName "Bob <bob@co.com>" = "Bob" /\
parseSenderName "John Doe <john@example.com>" = "John Doe" /\
parseSenderName "<ada@x.com>" = "ada@x.com" /\
parseSenderName "a <b> c <d> e" = "b> c <d" /\
parseSenderName "" = "Unknown Sender".
Proof. vm_compute. repeat split. Qed.

Example JSON_parse_samples :
  JSON_parse ("{ " ++ quote "b" ++ " : [1, -20, true,null] ," ++ quote "2" ++ ":" ++
              quote "x" ++ "," ++ quote "b" ++ ":{}, " ++ quote "0" ++ " : 0 }") =
    Some (JObj [("0", JNum 0); ("2", JStr "x"); ("b", JObj [])]) /\
  JSON_parse (quote "a" ++ " x") = None /\
  JSON_parse ("[" ++ String dquote (String backslash "/") ++
              String backslash "u0041" ++ String dquote "]") = Some (JArr [JStr "/A"]) /\
  JSON_parse "[1.5]" = None /\ JSON_parse "[01]" = None /\ JSON_parse "[1,]" = None.
Proof. vm_compute. repeat split. Qed.

Example to_number_samples :
  to_number (Some (JStr " 42 ")) = Some 42 /\ to_number (Some (JStr "")) = Some 0 /\
  to_number (Some (JStr "-7")) = Some (-7) /\ to_number (Some (JStr "0x1F")) = Some 31 /\
  to_number (Some (JStr "12px")) = None /\ to_number (Some (JArr [JNum 5])) = Some 5 /\
  to_number (Some (JArr [JNum 1; JNum 2])) = None /\ to_number (Some (JObj [])) = None /\
  to_number None = None /\ to_number (Some (JArr [])) = Some 0.
Proof. vm_compute. repeat split. Qed.

(** ** Facts about the digest and the signature string *)

Lemma be_bytes_length (width : nat) (z : Z) :
  List.length (Crypto.be_bytes width z) = width.
Proof.
  unfold Crypto.be_bytes.
  rewrite length_map, length_rev, length_seq. reflexivity.
Qed.

Lemma sha256_length (msg : list byte) : List.length (Crypto.sha256 msg) = 32%nat.
Proof.
  unfold Crypto.sha256, Crypto.digest_bytes.
  repeat rewrite length_app. repeat rewrite be_bytes_length. reflexivity.
Qed.

Lemma hmac_sha256_length (key msg : list byte) :
  List.length (Crypto.hmac_sha256 key msg) = 32%nat.
Proof. unfold Crypto.hmac_sha256. apply sha256_length. Qed.

Lemma hex_length (bs : list byte) :
  String.length (Crypto.hex bs) = (2 * List.length bs)%nat.
Proof.
  induction bs as [|b bs IH]; simpl; [reflexivity|].
  rewrite IH. lia.
Qed.

Lemma Buffer_from_ascii7 (s : string) :
  ascii7 s = true -> List.length (Crypto.Buffer_from s) = String.length s.
Proof.
  induction s as [|c s IH]; simpl; intros H; [reflexivity|].
  apply andb_true_iff in H. destruct H as [Hc Hs].
  rewrite Hc. simpl. rewrite IH by assumption. reflexivity.
Qed.

Lemma Buffer_from_length_ge (s : string) :
  (String.length s <= List.length (Crypto.Buffer_from s))%nat.
Proof.
  induction s as [|c s IH]; simpl; [lia|].
  destruct (Z.of_nat (nat_of_ascii c) <? 128); simpl; lia.
Qed.

Lemma ascii7_app (a b : string) :
  ascii7 (a ++ b) = ascii7 a && ascii7 b.
Proof.
  induction a as [|c a IH]; simpl; [reflexivity|].
  rewrite IH, andb_assoc. reflexivity.
Qed.

Lemma byteZ_range (b : byte) : 0 <= Crypto.byteZ b < 256.
Proof.
  unfold Crypto.byteZ. pose proof (Byte.to_N_bounded b) as H.
  lia.
Qed.

Lemma hex_digit_ascii7 (z : Z) :
  0 <= z < 16 -> (Z.of_nat (nat_of_ascii (Crypto.hex_digit z)) <? 128) = true.
Proof.
  intros Hz. unfold Crypto.hex_digit.
  destruct (z <? 10) eqn:E; rewrite nat_ascii_embedding by lia;
    apply Z.ltb_lt; lia.
Qed.

Lemma hex_ascii7 (bs : list byte) : ascii7 (Crypto.hex bs) = true.
Proof.
  induction bs as [|b bs IH]; simpl; [reflexivity|].
  pose proof (byteZ_range b) as Hb.
  rewrite !hex_digit_ascii7, IH; [reflexivity| |].
  - apply Z.mod_pos_bound. lia.
  - split; [apply Z.div_pos; lia | apply Z.div_lt_upper_bound; lia].
Qed.

Lemma length_append (a b : string) :
  String.length (a ++ b) = (String.length a + String.length b)%nat.
Proof. induction a as [|c a IH]; simpl; [reflexivity | rewrite IH; reflexivity]. Qed.

(** The expected header is always 67 bytes: [v0=] and 64 hex digits. *)
Lemma slack_signature_bytes (secret : string) (timestamp : option string) (text : string) :
  List.length (Crypto.Buffer_from (slack_signature secret timestamp text)) = 67%nat.
Proof.
  unfold slack_signature, Crypto.hmac_sha256_hex.
  rewrite Buffer_from_ascii7.
  - rewrite length_append, hex_length, hmac_sha256_length. reflexivity.
  - rewrite ascii7_app, hex_ascii7. reflexivity.
Qed.

Lemma bytes_diff_nonneg (a b : list byte) : 0 <= Crypto.bytes_diff a b.
Proof.
  revert b. induction a as [|x a IH]; intros [|y b]; simpl; try lia.
  apply Z.lor_nonneg. split; [|apply IH].
  apply Z.lxor_nonneg. pose proof (byteZ_range x). pose proof (byteZ_range y). lia.
Qed.

Lemma byteZ_inj (x y : byte) : Crypto.byteZ x = Crypto.byteZ y -> x = y.
Proof.
  unfold Crypto.byteZ. intros H. apply N2Z.inj in H.
  assert (Some x = Some y) as E; [|congruence].
  rewrite <- (Byte.of_to_N x), <- (Byte.of_to_N y), H. reflexivity.
Qed.

(** On buffers of equal length [timingSafeEqual] is equality of contents. *)
Lemma bytes_diff_zero (a b : list byte) :
  List.length a = List.length b -> (Crypto.bytes_diff a b = 0 <-> a = b).
Proof.
  revert b. induction a as [|x a IH]; intros [|y b] Hlen; simpl in *; try discriminate.
  - split; reflexivity.
  - injection Hlen as Hlen. rewrite Z.lor_eq_0_iff, Z.lxor_eq_0_iff, (IH b Hlen).
    split.
    + intros [Hx Ht]. apply byteZ_inj in Hx. congruence.
    + intros E. injection E as -> ->. split; reflexivity.
Qed.

Lemma timingSafeEqual_spec (a b : list byte) :
  Crypto.timingSafeEqual a b =
  if (List.length a =? List.length b)%nat
  then Some (if list_eq_dec Byte.byte_eq_dec a b then true else false)
  else None.
Proof.
  unfold Crypto.timingSafeEqual.
  destruct (List.length a =? List.length b)%nat eqn:E; [|reflexivity].
  apply Nat.eqb_eq in E. f_equal.
  destruct (list_eq_dec Byte.byte_eq_dec a b) as [Heq|Hne].
  - apply Z.eqb_eq. apply bytes_diff_zero; assumption.
  - apply Z.eqb_neq. intros H. apply Hne. apply bytes_diff_zero; assumption.
Qed.

(** ** The label filter *)

Lemma includes_In (labelIds : list string) (label : string) :
  MultiUser.includes labelIds label = true <-> In label labelIds.
Proof.
  unfold MultiUser.includes. rewrite existsb_exists. split.
  - intros [x [Hin Heq]]. apply String.eqb_eq in Heq. subst. assumption.
  - intros Hin. exists label. split; [assumption | apply String.eqb_refl].
Qed.

Lemma excluded_by_In (excluded labelIds : list string) :
  MultiUser.excluded_by excluded labelIds = true <->
  exists l, In l excluded /\ In l labelIds.
Proof.
  induction excluded as [|e rest IH]; simpl.
  - split; [discriminate | intros [l [[] _]]].
  - destruct (MultiUser.includes labelIds e) eqn:E.
    + split; [|reflexivity]. intros _. exists e. split; [left; reflexivity|].
      apply includes_In. assumption.
    + rewrite IH. split.
      * intros [l [H1 H2]]. exists l. split; [right|]; assumption.
      * intros [l [[->|H1] H2]].
        -- apply includes_In in H2. congruence.
        -- exists l. split; assumption.
Qed.

(** The filter keeps a message exactly when it is in the inbox and carries
    none of the excluded labels. *)
Lemma shouldIncludeEmail_iff (senderEmail : string) (labelIds : list string) :
  MultiUser.shouldIncludeEmail senderEmail labelIds = true <->
  In "INBOX" labelIds /\ forall l, In l MultiUser.EXCLUDED_LABELS -> ~ In l labelIds.
Proof.
  unfold MultiUser.shouldIncludeEmail.
  destruct (MultiUser.excluded_by MultiUser.EXCLUDED_LABELS labelIds) eqn:E.
  - apply excluded_by_In in E. destruct E as [l [H1 H2]].
    split; [discriminate|]. intros [_ H]. exfalso. exact (H l H1 H2).
  - rewrite includes_In. split.
    + intros Hin. split; [assumption|]. intros l H1 H2.
      assert (MultiUser.excluded_by MultiUser.EXCLUDED_LABELS labelIds = true) as C
        by (apply excluded_by_In; exists l; split; assumption).
      congruence.
    + intros [Hin _]. assumption.
Qed.

(** A filtered message leaves the loop without a storage request. *)
Lemma process_messages_filtered (user_id token : value) (id : string)
      (rest : list string) (n : nat) (w : World) (message : GmailMessage) :
  gmail_messages_get w token id = Ret message ->
  MultiUser.shouldIncludeEmail (Email.from (extractEmailHeaders message))
                               (labelIds message) = false ->
  MultiUser.process_messages user_id token (id :: rest) n w =
  MultiUser.process_messages user_id token rest n w.
Proof.
  intros Hget Hfilter.
  cbn [MultiUser.process_messages]. unfold bind at 1, lift.
  rewrite Hget. cbv beta iota. rewrite Hfilter. reflexivity.
Qed.

(** C5: the label filter drops a message tagged promotional, social,
    forum-digest, spam or trash, and keeps a message only if it is in the
    inbox; in particular an INBOX message also labelled CATEGORY_PROMOTIONS
    is dropped and produces no record: the webhook's loop passes over it
    without a storage request. *)
Theorem label_filter_policy (senderEmail : string) (labels : list string) :
  (forall l, In l ["CATEGORY_PROMOTIONS"; "CATEGORY_SOCIAL"; "CATEGORY_FORUMS";
                   "SPAM"; "TRASH"] ->
             In l labels ->
             MultiUser.shouldIncludeEmail senderEmail labels = false) /\
  (MultiUser.shouldIncludeEmail senderEmail labels = true -> In "INBOX" labels) /\
  (forall user_id token id n w message,
      gmail_messages_get w token id = Ret message ->
      In "INBOX" (labelIds message) ->
      In "CATEGORY_PROMOTIONS" (labelIds message) ->
      MultiUser.process_messages user_id token [id] n w = (Ret n, w)).
Proof.
  assert (forall s ls l,
             In l ["CATEGORY_PROMOTIONS"; "CATEGORY_SOCIAL"; "CATEGORY_FORUMS";
                   "SPAM"; "TRASH"] ->
             In l ls -> MultiUser.shouldIncludeEmail s ls = false) as Hdrop.
  { intros s ls l Hl Hin.
    destruct (MultiUser.shouldIncludeEmail s ls) eqn:E; [|reflexivity].
    apply shouldIncludeEmail_iff in E. destruct E as [_ E].
    exfalso. apply (E l); [|assumption].
    simpl in Hl. simpl. intuition. }
  split; [|split].
  - apply Hdrop.
  - intros H. apply shouldIncludeEmail_iff in H. tauto.
  - intros user_id token id n w message Hget _ Hpromo.
    rewrite (process_messages_filtered _ _ _ _ _ _ message Hget).
    + reflexivity.
    + apply (Hdrop _ _ "CATEGORY_PROMOTIONS"); [simpl; tauto | exact Hpromo].
Qed.

Lemma label_filter_policy_witness :
  MultiUser.shouldIncludeEmail "deals@shop.example" ["INBOX"; "SPAM"] = false /\
  MultiUser.process_messages (Some (JStr "u-1")) (Some (JStr "rt-1")) ["m1"] 0
    (Sample.gmail_world [("m1", Sample.promo_message)]) =
  (Ret 0%nat, Sample.gmail_world [("m1", Sample.promo_message)]).
Proof.
  split.
  - apply (proj1 (label_filter_policy "deals@shop.example" ["INBOX"; "SPAM"]) "SPAM").
    + simpl. tauto.
    + simpl. tauto.
  - apply (proj2 (proj2 (label_filter_policy "" [])))
      with (message := Sample.promo_message).
    + reflexivity.
    + simpl. tauto.
    + simpl. tauto.
Defined.

(** Through the webhook: a push for an inbox holding one promotional message
    is acknowledged and stores nothing. *)
Example promotions_end_to_end :
  MultiUser.gmail_webhook Sample.notification
    (Sample.gmail_world [("m1", Sample.promo_message)]) =
  (Ret (Response 200 (Text "OK")),
   with_store (Sample.gmail_world [("m1", Sample.promo_message)]) [] []
              [Select "user_gmail_tokens" [("email_address", "ada@x.com")]]).
Proof. vm_compute. reflexivity. Qed.

(** ** Reasoning about computations *)

Lemma bind_Ret_inv {A B} (m : M A) (k : A -> M B) (w w' : World) (b : B) :
  bind m k w = (Ret b, w') ->
  exists a w1, m w = (Ret a, w1) /\ k a w1 = (Ret b, w').
Proof.
  unfold bind. destruct (m w) as [[a|e] w1]; intros H.
  - exists a, w1. split; [reflexivity | assumption].
  - discriminate.
Qed.

Lemma try_catch_total {A} (m : M A) (h : string -> M A) (w : World) (P : A -> Prop) :
  (forall a w', m w = (Ret a, w') -> P a) ->
  (forall e w1, exists a w', h e w1 = (Ret a, w') /\ P a) ->
  exists a w', try_catch m h w = (Ret a, w') /\ P a.
Proof.
  intros Hm Hh. unfold try_catch. destruct (m w) as [[a|e] w1] eqn:E.
  - exists a, w1. split; [reflexivity | apply (Hm a w1); reflexivity].
  - apply Hh.
Qed.

(** ** Signature verification *)

Lemma verifySlackSignature_pure (req : SlackRequest) (w : World) :
  snd (verifySlackSignature req w) = w.
Proof.
  unfold verifySlackSignature.
  destruct (SLACK_SIGNING_SECRET w) as [[|c s]|]; try reflexivity.
  destruct (lt_number _ _); [reflexivity|].
  destruct (x_slack_signature req) as [sig|]; [|reflexivity].
  destruct (Crypto.timingSafeEqual _ _); reflexivity.
Qed.

Lemma verify_configured (req : SlackRequest) (w : World) (secret : string) :
  configured w secret ->
  verifySlackSignature req w =
  if lt_number (parseInt (option_map JStr (x_slack_request_timestamp req))) (fiveMinutesAgo w)
  then (Ret false, w)
  else match x_slack_signature req with
       | None => (Throw "TypeError", w)
       | Some sig =>
           match Crypto.timingSafeEqual
                   (Crypto.Buffer_from
                      (slack_signature secret (x_slack_request_timestamp req)
                                       (stringify (body req))))
                   (Crypto.Buffer_from sig) with
           | Some b => (Ret b, w)
           | None => (Throw "RangeError", w)
           end
       end.
Proof.
  intros [Hs Hne]. unfold verifySlackSignature. rewrite Hs.
  destruct secret; [contradiction | reflexivity].
Qed.

(** What both servers do once the signature check has answered. *)
Lemma slack_webhook_rejects (req : SlackRequest) (w : World) :
  not_handshake req ->
  verifySlackSignature req w = (Ret false, w) ->
  MultiUser.slack_webhook req w = (Ret (Response 401 (Text "Invalid signature")), w) /\
  SingleUser.slack_webhook req w = (Ret (Response 401 (Text "Invalid signature")), w).
Proof.
  intros Hh Hv. unfold MultiUser.slack_webhook, SingleUser.slack_webhook.
  unfold not_handshake in Hh. rewrite Hh. unfold bind. rewrite Hv. split; reflexivity.
Qed.

Lemma slack_webhook_throws (req : SlackRequest) (w : World) (e : string) :
  not_handshake req ->
  verifySlackSignature req w = (Throw e, w) ->
  MultiUser.slack_webhook req w = (Throw e, w) /\
  SingleUser.slack_webhook req w = (Throw e, w).
Proof.
  intros Hh Hv. unfold MultiUser.slack_webhook, SingleUser.slack_webhook.
  unfold not_handshake in Hh. rewrite Hh. unfold bind. rewrite Hv. split; reflexivity.
Qed.

(** C9: a body of type [url_verification] is answered with its challenge,
    status 200, before the signature is looked at: whatever the secret, the
    headers and the state of the world. *)
Theorem url_verification_echo (req : SlackRequest) (w : World) (challenge : json) :
  is_str (get (Some (body req)) "type") "url_verification" = true ->
  get (Some (body req)) "challenge" = Some challenge ->
  MultiUser.slack_webhook req w =
    (Ret (Response 200 (Json (JObj [("challenge", challenge)]))), w) /\
  SingleUser.slack_webhook req w =
    (Ret (Response 200 (Json (JObj [("challenge", challenge)]))), w).
Proof.
  intros Ht Hc. unfold MultiUser.slack_webhook, SingleUser.slack_webhook.
  rewrite Ht, Hc. split; reflexivity.
Qed.

Lemma url_verification_echo_witness :
  configured (Sample.world (Some Sample.secret) Sample.clock) Sample.secret /\
  MultiUser.slack_webhook unsigned_handshake (Sample.world (Some Sample.secret) Sample.clock) =
    (Ret (Response 200 (Json (JObj [("challenge",
       JStr "3eZbrw1aBm2rZgRNFdxV2595E9CY3gmdALWMmHkvFXO7tYXAYM8P")]))),
     Sample.world (Some Sample.secret) Sample.clock) /\
  SingleUser.slack_webhook missigned_handshake (Sample.world (Some Sample.secret) Sample.clock) =
    (Ret (Response 200 (Json (JObj [("challenge",
       JStr "3eZbrw1aBm2rZgRNFdxV2595E9CY3gmdALWMmHkvFXO7tYXAYM8P")]))),
     Sample.world (Some Sample.secret) Sample.clock).
Proof.
  split; [split; [reflexivity | discriminate]|].
  split.
  - apply (url_verification_echo unsigned_handshake); reflexivity.
  - apply (url_verification_echo missigned_handshake); reflexivity.
Defined.

(** C4: with a secret configured, a request whose timestamp lies more than
    five minutes back fails verification and is answered 401, whatever its
    signature header holds. *)
Theorem stale_timestamp_rejected (req : SlackRequest) (w : World) (secret : string) (t : Z) :
  configured w secret ->
  parseInt (option_map JStr (x_slack_request_timestamp req)) = Some t ->
  t < now w / 1000 - 60 * 5 ->
  verifySlackSignature req w = (Ret false, w) /\
  (not_handshake req ->
   MultiUser.slack_webhook req w = (Ret (Response 401 (Text "Invalid signature")), w) /\
   SingleUser.slack_webhook req w = (Ret (Response 401 (Text "Invalid signature")), w)).
Proof.
  intros Hc Ht Hold.
  assert (verifySlackSignature req w = (Ret false, w)) as Hv.
  { rewrite (verify_configured req w secret Hc), Ht. unfold lt_number, fiveMinutesAgo.
    apply Z.ltb_lt in Hold. rewrite Hold. reflexivity. }
  split; [assumption|]. intros Hh. apply slack_webhook_rejects; assumption.
Qed.

Lemma stale_timestamp_rejected_witness :
  verifySlackSignature replayed_request (Sample.world (Some Sample.secret) Sample.clock) =
    (Ret false, Sample.world (Some Sample.secret) Sample.clock) /\
  MultiUser.slack_webhook replayed_request (Sample.world (Some Sample.secret) Sample.clock) =
    (Ret (Response 401 (Text "Invalid signature")),
     Sample.world (Some Sample.secret) Sample.clock).
Proof.
  pose proof (stale_timestamp_rejected replayed_request
                (Sample.world (Some Sample.secret) Sample.clock)
                Sample.secret 1699998800) as H.
  destruct H as [Hv Hw].
  - split; [reflexivity | discriminate].
  - reflexivity.
  - vm_compute. reflexivity.
  - split; [exact Hv|]. apply Hw. reflexivity.
Defined.

(** A correctly signed request passes the comparison. *)
Lemma timingSafeEqual_refl (a : list byte) : Crypto.timingSafeEqual a a = Some true.
Proof.
  rewrite timingSafeEqual_spec, Nat.eqb_refl.
  destruct (list_eq_dec Byte.byte_eq_dec a a); [reflexivity | congruence].
Qed.

Lemma valid_signature_accepted (req : SlackRequest) (w : World) (secret : string) :
  configured w secret ->
  stale req w = false ->
  x_slack_signature req =
    Some (slack_signature secret (x_slack_request_timestamp req) (stringify (body req))) ->
  verifySlackSignature req w = (Ret true, w).
Proof.
  intros Hc Hf Hs. rewrite (verify_configured req w secret Hc).
  unfold stale in Hf. rewrite Hf, Hs, timingSafeEqual_refl. reflexivity.
Qed.

(** C10, amended: with a secret configured and a timestamp that passes the
    freshness test, a request whose signature header is absent, or whose
    byte length is not that of the expected header (67), makes
    verifySlackSignature throw; the handler then ends without a response
    instead of answering 401. *)
Theorem malformed_signature_throws (req : SlackRequest) (w : World) (secret : string) :
  configured w secret ->
  stale req w = false ->
  (x_slack_signature req = None \/
   exists sig, x_slack_signature req = Some sig /\
               List.length (Crypto.Buffer_from sig) <> 67%nat) ->
  exists e,
    verifySlackSignature req w = (Throw e, w) /\
    (not_handshake req ->
     MultiUser.slack_webhook req w = (Throw e, w) /\
     SingleUser.slack_webhook req w = (Throw e, w)).
Proof.
  intros Hc Hf Hsig.
  assert (exists e, verifySlackSignature req w = (Throw e, w)) as [e He].
  { rewrite (verify_configured req w secret Hc). unfold stale in Hf. rewrite Hf.
    destruct Hsig as [-> | [sig [-> Hlen]]].
    - exists "TypeError". reflexivity.
    - unfold Crypto.timingSafeEqual. rewrite slack_signature_bytes.
      destruct (67 =? List.length (Crypto.Buffer_from sig))%nat eqn:E.
      + apply Nat.eqb_eq in E. congruence.
      + exists "RangeError". reflexivity. }
  exists e. split; [assumption|]. intros Hh. apply slack_webhook_throws; assumption.
Qed.

Lemma malformed_signature_throws_witness :
  (exists e,
      verifySlackSignature fresh_unsigned_request
        (Sample.world (Some Sample.secret) Sample.clock) =
      (Throw e, Sample.world (Some Sample.secret) Sample.clock) /\
      (not_handshake fresh_unsigned_request ->
       MultiUser.slack_webhook fresh_unsigned_request
         (Sample.world (Some Sample.secret) Sample.clock) =
       (Throw e, Sample.world (Some Sample.secret) Sample.clock) /\
       SingleUser.slack_webhook fresh_unsigned_request
         (Sample.world (Some Sample.secret) Sample.clock) =
       (Throw e, Sample.world (Some Sample.secret) Sample.clock))) /\
  (exists e,
      verifySlackSignature fresh_short_signature_request
        (Sample.world (Some Sample.secret) Sample.clock) =
      (Throw e, Sample.world (Some Sample.secret) Sample.clock) /\
      (not_handshake fresh_short_signature_request ->
       MultiUser.slack_webhook fresh_short_signature_request
         (Sample.world (Some Sample.secret) Sample.clock) =
       (Throw e, Sample.world (Some Sample.secret) Sample.clock) /\
       SingleUser.slack_webhook fresh_short_signature_request
         (Sample.world (Some Sample.secret) Sample.clock) =
       (Throw e, Sample.world (Some Sample.secret) Sample.clock))).
Proof.
  split.
  - apply (malformed_signature_throws fresh_unsigned_request _ Sample.secret).
    + split; [reflexivity | discriminate].
    + vm_compute. reflexivity.
    + left. reflexivity.
  - apply (malformed_signature_throws fresh_short_signature_request _ Sample.secret).
    + split; [reflexivity | discriminate].
    + vm_compute. reflexivity.
    + right. exists "v0=deadbeef". split; [reflexivity|]. vm_compute. discriminate.
Defined.

(** C10 as stated fails: the signature header is absent, yet the timestamp is
    stale, so verifySlackSignature returns false and the request gets a
    clean 401. *)
Lemma absent_signature_not_always_thrown :
  configured (Sample.world (Some Sample.secret) Sample.clock) Sample.secret /\
  x_slack_signature stale_unsigned_request = None /\
  verifySlackSignature stale_unsigned_request
    (Sample.world (Some Sample.secret) Sample.clock) =
  (Ret false, Sample.world (Some Sample.secret) Sample.clock) /\
  MultiUser.slack_webhook stale_unsigned_request
    (Sample.world (Some Sample.secret) Sample.clock) =
  (Ret (Response 401 (Text "Invalid signature")),
   Sample.world (Some Sample.secret) Sample.clock) /\
  SingleUser.slack_webhook stale_unsigned_request
    (Sample.world (Some Sample.secret) Sample.clock) =
  (Ret (Response 401 (Text "Invalid signature")),
   Sample.world (Some Sample.secret) Sample.clock).
Proof.
  split; [split; [reflexivity | discriminate]|].
  split; [reflexivity|].
  vm_compute. repeat split.
Qed.

(** The replayed request of the C4 instance carries a signature that was
    accepted while its timestamp was fresh. *)
Example replayed_request_was_valid :
  verifySlackSignature replayed_request (Sample.world (Some Sample.secret) 1699998900000) =
  (Ret true, Sample.world (Some Sample.secret) 1699998900000).
Proof.
  apply (valid_signature_accepted _ _ Sample.secret).
  - split; [reflexivity | discriminate].
  - vm_compute. reflexivity.
  - reflexivity.
Qed.

(** ** Webhook outcomes *)

Ltac invert_run :=
  repeat match goal with
    | H : bind _ _ _ = (Ret _, _) |- _ =>
        apply bind_Ret_inv in H; destruct H as (? & ? & ? & H)
    | H : ret _ _ = (Ret _, _) |- _ => unfold ret in H; inversion H; subst; clear H
    | H : throw _ _ = (Ret _, _) |- _ => discriminate H
    | H : (Throw _, _) = (Ret _, _) |- _ => discriminate H
    | H : (if ?b then _ else _) _ = (Ret _, _) |- _ => destruct b eqn:?
    | H : (match ?x with _ => _ end) _ = (Ret _, _) |- _ => destruct x eqn:?
    | H : (match ?x with _ => _ end) = (Ret _, _) |- _ => destruct x eqn:?
    end.





(** C7, amended: a direct-message event with a truthy [bot_id] or [subtype]
    is dropped before any lookup or insert: the world, and with it the
    table of pending actions, is left as it was in every case; and the
    answer is 200 when the signature check has passed (it does whenever no
    signing secret is configured).  The check comes first: a request that
    fails it is answered 401, or not at all when the check throws. *)
Theorem bot_and_edit_events_discarded (req : SlackRequest) (w : World) :
  is_direct_message (event_of req) = true ->
  bot_or_edit (event_of req) = true ->
  (snd (MultiUser.slack_webhook req w) = w /\
   snd (SingleUser.slack_webhook req w) = w) /\
  (verifySlackSignature req w = (Ret true, w) ->
   (exists p, MultiUser.slack_webhook req w = (Ret (Response 200 p), w)) /\
   (exists p, SingleUser.slack_webhook req w = (Ret (Response 200 p), w))).
Proof.
  unfold event_of. intros Hdm Hbot.
  unfold MultiUser.slack_webhook, SingleUser.slack_webhook.
  destruct (is_str (get (Some (body req)) "type") "url_verification").
  { split; [split; reflexivity|]. intros _. split; eexists; reflexivity. }
  unfold bind.
  pose proof (verifySlackSignature_pure req w) as Hpure.
  destruct (verifySlackSignature req w) as [[ok|e] w1] eqn:Hv; simpl in Hpure; subst w1.
  - destruct ok; simpl negb; cbv iota.
    + rewrite Hdm, Hbot. split; [split; reflexivity|].
      intros _. split; eexists; reflexivity.
    + split; [split; reflexivity|]. intros H. discriminate H.
  - split; [split; reflexivity|]. intros H. discriminate H.
Qed.

Lemma bot_and_edit_events_discarded_witness :
  (snd (MultiUser.slack_webhook bot_request (Sample.world (Some Sample.secret) Sample.clock)) =
     Sample.world (Some Sample.secret) Sample.clock /\
   snd (SingleUser.slack_webhook bot_request (Sample.world (Some Sample.secret) Sample.clock)) =
     Sample.world (Some Sample.secret) Sample.clock) /\
  ((exists p, MultiUser.slack_webhook bot_request
                (Sample.world (Some Sample.secret) Sample.clock) =
              (Ret (Response 200 p), Sample.world (Some Sample.secret) Sample.clock)) /\
   (exists p, SingleUser.slack_webhook bot_request
                (Sample.world (Some Sample.secret) Sample.clock) =
              (Ret (Response 200 p), Sample.world (Some Sample.secret) Sample.clock))).
Proof.
  destruct (bot_and_edit_events_discarded bot_request
              (Sample.world (Some Sample.secret) Sample.clock)) as [Hw Hr];
    [reflexivity | reflexivity |].
  split; [exact Hw|]. apply Hr.
  apply (valid_signature_accepted bot_request _ Sample.secret).
  - split; [reflexivity | discriminate].
  - vm_compute. reflexivity.
  - reflexivity.
Defined.

(** C7 as stated fails: the signature check runs before the bot and edit
    markers are looked at, so a bot's direct message is not always
    acknowledged with 200.  With a signing secret configured, such a message
    without a signature header gets no response (the handler throws), and
    one with a timestamp older than five minutes is answered 401, in both
    servers. *)
Lemma unsigned_bot_message_unacknowledged :
  (is_direct_message (event_of unsigned_bot_request) = true /\
   bot_or_edit (event_of unsigned_bot_request) = true /\
   event_of stale_bot_request = event_of unsigned_bot_request) /\
  (MultiUser.slack_webhook unsigned_bot_request (Sample.world (Some Sample.secret) Sample.clock) =
     (Throw "TypeError", Sample.world (Some Sample.secret) Sample.clock) /\
   SingleUser.slack_webhook unsigned_bot_request (Sample.world (Some Sample.secret) Sample.clock) =
     (Throw "TypeError", Sample.world (Some Sample.secret) Sample.clock)) /\
  (MultiUser.slack_webhook stale_bot_request (Sample.world (Some Sample.secret) Sample.clock) =
     (Ret (Response 401 (Text "Invalid signature")),
      Sample.world (Some Sample.secret) Sample.clock) /\
   SingleUser.slack_webhook stale_bot_request (Sample.world (Some Sample.secret) Sample.clock) =
     (Ret (Response 401 (Text "Invalid signature")),
      Sample.world (Some Sample.secret) Sample.clock)).
Proof. vm_compute. repeat split. Qed.

(** The outcomes named in C8, on the Slack webhook of the multi-user server:
    a message is stored; the profile lookup fails and the raw user id is
    used; the workspace is unknown; the insert fails.  Each is answered 200. *)
Example slack_webhook_scenarios :
  (let '(res, w) := MultiUser.slack_webhook plain_dm (Sample.slack_world (Ret Sample.ada_profile) []) in
   res = Ret (Response 200 (Text "OK")) /\
   pending_actions w =
     [[("task_text", JStr "Ada L.: hello"); ("platform_tag", JStr "slack");
       ("sender_name", JStr "Ada L.");
       ("message_link",
        JStr "https://slack.com/app_redirect?team=T1&channel=D1&message_ts=1700000000.000100");
       ("user_id", JStr "u-1")]]) /\
  (let '(res, w) := MultiUser.slack_webhook plain_dm (Sample.slack_world Sample.offline []) in
   res = Ret (Response 200 (Text "OK")) /\
   map (fun r => assoc "sender_name" r) (pending_actions w) = [Some (JStr "U1")]) /\
  (let '(res, w) := MultiUser.slack_webhook plain_dm (Sample.world None Sample.clock) in
   res = Ret (Response 200 (Text "OK")) /\ pending_actions w = []) /\
  (let '(res, w) := MultiUser.slack_webhook plain_dm
                      (Sample.slack_world (Ret Sample.ada_profile) [false; false; true]) in
   res = Ret (Response 200 (Text "OK")) /\ pending_actions w = [] /\
   hd_error (calls w) = Some (Insert "pending_actions"
                                (MultiUser.new_row
                                   {| MultiUser.sender := Some (JStr "Ada L.");
                                      MultiUser.summary := Some (JStr "hello");
                                      MultiUser.url := MultiUser.createSlackLink
                                                         (Some (JStr "T1")) (Some (JStr "D1"))
                                                         (Some (JStr "1700000000.000100"));
                                      MultiUser.platform := "slack";
                                      MultiUser.messageId := "T1-D1-1700000000.000100";
                                      MultiUser.user_id := Some (JStr "u-1") |}))).
Proof. vm_compute. repeat split. Qed.

(** ** The patterns of parseSenderName *)

Section Patterns.
Variable subject : string.

Lemma run_tail_gt (p : nat) (r : string) (c : option string) (k : cont) :
  run tail_gt subject (MState p r c) k =
  match r with
  | String ch EmptyString => if Ascii.eqb ">" ch then k (at_end p r c) else None
  | _ => None
  end.
Proof.
  unfold tail_gt, at_end. cbn [run]. unfold eat. cbn [rest pos cap].
  destruct r as [|ch [|ch' t]]; try reflexivity.
  - destruct (Ascii.eqb ">" ch); [|reflexivity].
    cbn [rest String.length]. rewrite Nat.add_1_r. reflexivity.
  - destruct (Ascii.eqb ">" ch); reflexivity.
Qed.

Lemma dots_then_gt_nonempty (r : string) : dots_then_gt r = true -> r <> EmptyString.
Proof. destruct r; [discriminate | intros _; discriminate]. Qed.

Lemma greedy_dots (fuel : nat) (p : nat) (r : string) (c : option string) (k : cont) :
  (String.length r < fuel)%nat ->
  greedy (run Dot subject) fuel (MState p r c) (fun st => run tail_gt subject st k) =
  if dots_then_gt r then k (at_end p r c) else None.
Proof.
  revert fuel p. induction r as [|ch t IH]; intros fuel p Hfuel.
  - destruct fuel; [cbn in Hfuel; lia|]. reflexivity.
  - destruct fuel; [cbn in Hfuel; lia|].
    cbn [greedy]. unfold again. cbn [run]. unfold eat at 1. cbn [rest pos cap].
    destruct (is_line_terminator ch) eqn:Hlt; cbn [negb orelse].
    + rewrite run_tail_gt. destruct t as [|a t']; cbn [dots_then_gt].
      * destruct (Ascii.eqb ">" ch) eqn:E; [|reflexivity].
        apply Ascii.eqb_eq in E. subst ch. discriminate Hlt.
      * rewrite Hlt. reflexivity.
    + assert ((p <? S p)%nat = true) as -> by (apply Nat.ltb_lt; lia).
      rewrite IH by (cbn in Hfuel; lia).
      assert (at_end (S p) t c = at_end p (String ch t) c) as Hend.
      { unfold at_end. cbn [String.length]. f_equal. lia. }
      rewrite Hend.
      destruct (dots_then_gt t) eqn:Ht.
      * assert (dots_then_gt (String ch t) = true) as ->.
        { cbn [dots_then_gt]. destruct t; [discriminate Ht|]. rewrite Hlt, Ht. reflexivity. }
        destruct (k (at_end p (String ch t) c)) eqn:Hk; cbn [orelse]; [reflexivity|].
        rewrite run_tail_gt. destruct t; [discriminate Ht | reflexivity].
      * cbn [orelse]. rewrite run_tail_gt. cbn [dots_then_gt].
        destruct t; [reflexivity|]. rewrite Ht, andb_false_r. reflexivity.
Qed.

Lemma run_tail_address (p : nat) (r : string) (c : option string) (k : cont) :
  run tail_address subject (MState p r c) k =
  if address_tail r then k (at_end p r c) else None.
Proof.
  unfold tail_address. cbn [run]. unfold eat at 1. cbn [rest pos cap].
  destruct r as [|ch t]; [reflexivity|].
  destruct (Ascii.eqb "<" ch) eqn:E.
  - apply Ascii.eqb_eq in E. subst ch. unfold eat. cbn [rest pos cap].
    destruct t as [|ch t]; [reflexivity|].
    cbn [address_tail]. destruct (is_line_terminator ch); cbn [negb andb]; [reflexivity|].
    rewrite (greedy_dots _ _ _ _ k) by (cbn; lia).
    unfold at_end. cbn [String.length].
    replace (S (S p) + String.length t)%nat with (p + S (S (String.length t)))%nat by lia.
    reflexivity.
  - assert (address_tail (String ch t) = false) as ->; [|reflexivity].
    unfold address_tail.
    destruct ch as [[] [] [] [] [] [] [] []]; try reflexivity. discriminate E.
Qed.

Lemma greedy_spaces (fuel : nat) (p : nat) (r : string) (c : option string) (k : cont) :
  (String.length r < fuel)%nat ->
  greedy (run Space subject) fuel (MState p r c) (fun st => run tail_address subject st k) =
  if address_tail (trimStart r) then k (at_end p r c) else None.
Proof.
  revert fuel p. induction r as [|ch t IH]; intros fuel p Hfuel.
  - destruct fuel; [cbn in Hfuel; lia|]. reflexivity.
  - destruct fuel; [cbn in Hfuel; lia|].
    cbn [greedy]. unfold again. cbn [run]. unfold eat at 1. cbn [rest pos cap trimStart].
    destruct (is_space ch) eqn:Hsp.
    + assert ((p <? S p)%nat = true) as -> by (apply Nat.ltb_lt; lia).
      rewrite IH by (cbn in Hfuel; lia).
      assert (at_end (S p) t c = at_end p (String ch t) c) as Hend.
      { unfold at_end. cbn [String.length]. f_equal. lia. }
      rewrite Hend.
      destruct (address_tail (trimStart t)); cbn [orelse].
      * destruct (k (at_end p (String ch t) c)); cbn [orelse]; [reflexivity|].
        rewrite run_tail_address.
        assert (address_tail (String ch t) = false) as ->; [|reflexivity].
        unfold address_tail.
        destruct ch as [[] [] [] [] [] [] [] []]; try reflexivity. discriminate Hsp.
      * rewrite run_tail_address.
        assert (address_tail (String ch t) = false) as ->; [|reflexivity].
        unfold address_tail.
        destruct ch as [[] [] [] [] [] [] [] []]; try reflexivity. discriminate Hsp.
    + cbn [orelse]. rewrite run_tail_address. reflexivity.
Qed.

Lemma run_tail_spaces (p : nat) (r : string) (c : option string) (k : cont) :
  run tail_spaces subject (MState p r c) k =
  if address_tail (trimStart r) then k (at_end p r c) else None.
Proof.
  unfold tail_spaces. cbn [run rest]. apply greedy_spaces. lia.
Qed.

(** The lazy group: it stops at the first split the rest accepts. *)
Lemma lazy_dots (fuel : nat) (p0 p : nat) (r : string) (c : option string) :
  (String.length r < fuel)%nat ->
  lazy (run Dot subject) fuel (MState p r c)
       (fun st1 => run tail_spaces subject
                     (MState (pos st1) (rest st1)
                             (Some (substring p0 (pos st1 - p0) subject))) Some) =
  option_map (fun j => at_end p r (Some (substring p0 (p + j - p0) subject)))
             (find_split r).
Proof.
  revert fuel p. induction r as [|ch t IH]; intros fuel p Hfuel.
  - destruct fuel; [cbn in Hfuel; lia|]. reflexivity.
  - destruct fuel; [cbn in Hfuel; lia|].
    cbn [lazy]. rewrite run_tail_spaces. cbn [pos rest].
    cbn [find_split].
    destruct (address_tail (trimStart (String ch t))) eqn:Ha.
    + cbn [orelse option_map]. rewrite Nat.add_0_r. reflexivity.
    + cbn [orelse]. unfold again. cbn [run]. unfold eat. cbn [rest pos cap].
      destruct (is_line_terminator ch); cbn [negb]; [reflexivity|].
      assert ((p <? S p)%nat = true) as -> by (apply Nat.ltb_lt; lia).
      rewrite IH by (cbn in Hfuel; lia).
      destruct (find_split t) as [j|]; [|reflexivity].
      cbn [option_map]. unfold at_end. cbn [String.length].
      f_equal. f_equal; [lia|]. f_equal. f_equal. lia.
Qed.

End Patterns.

(** [^] holds at index 0 only: later start indices all fail. *)
Lemma exec_from_anchored (r : regex) (subject : string) (i : nat) (s : string) :
  exec_from (Cat Bol r) subject (S i) s = None.
Proof.
  revert i. induction s as [|ch t IH]; intros i; cbn [exec_from run pos Nat.eqb orelse].
  - reflexivity.
  - apply IH.
Qed.

(** What [match[1]] is for the first pattern. *)
Lemma match_name_before_address (s : string) :
  match_ name_before_address s =
  match s with
  | String ch t =>
      if is_line_terminator ch then None
      else option_map (fun j => Some (substring 0 (S j) s)) (find_split t)
  | EmptyString => None
  end.
Proof.
  unfold match_, name_before_address.
  change (Cat (Star Space) (Cat (Lit "<") (Cat (Plus Dot) (Cat (Lit ">") Eol))))
    with tail_spaces.
  destruct s as [|ch t]; [reflexivity|].
  cbn [exec_from]. rewrite exec_from_anchored.
  cbn [run pos Nat.eqb]. unfold eat at 1. cbn [rest pos cap].
  destruct (is_line_terminator ch); cbn [negb orelse option_map]; [reflexivity|].
  rewrite (lazy_dots (String ch t) _ 0 1 t None) by lia.
  destruct (find_split t) as [j|]; cbn [option_map orelse]; [|reflexivity].
  unfold at_end. cbn [cap]. rewrite Nat.sub_0_r. reflexivity.
Qed.

Lemma address_tail_lacks (r : string) :
  lacks "<" r = true -> address_tail r = false.
Proof.
  destruct r as [|ch t]; [reflexivity|]. cbn [lacks]. intros H.
  apply andb_true_iff in H. destruct H as [H _].
  unfold address_tail.
  destruct ch as [[] [] [] [] [] [] [] []]; try reflexivity. discriminate H.
Qed.

Lemma lacks_trimStart (c : ascii) (r : string) :
  lacks c r = true -> lacks c (trimStart r) = true.
Proof.
  induction r as [|ch t IH]; [reflexivity|]. cbn [lacks trimStart]. intros H.
  destruct (is_space ch); [|exact H].
  apply andb_true_iff in H. apply IH, H.
Qed.

Lemma find_split_lacks (r : string) : lacks "<" r = true -> find_split r = None.
Proof.
  induction r as [|ch t IH]; intros H.
  - reflexivity.
  - cbn [find_split]. rewrite (address_tail_lacks _ (lacks_trimStart _ _ H)).
    cbn [lacks] in H. apply andb_true_iff in H.
    rewrite (IH (proj2 H)). destruct (is_line_terminator ch); reflexivity.
Qed.

Lemma exec_address_lacks (subject : string) (i : nat) (s : string) :
  lacks "<" s = true -> exec_from address_in_brackets subject i s = None.
Proof.
  revert i. induction s as [|ch t IH]; intros i H.
  - reflexivity.
  - cbn [lacks] in H. apply andb_true_iff in H. destruct H as [Hc Ht].
    cbn [exec_from]. unfold address_in_brackets at 1. cbn [run]. unfold eat at 1.
    cbn [rest]. rewrite Ascii.eqb_sym. apply negb_true_iff in Hc. rewrite Hc.
    cbn [orelse]. apply IH, Ht.
Qed.

(** A header without an opening angle bracket comes back unchanged. *)
Lemma parseSenderName_bare (h : string) :
  h <> EmptyString -> lacks "<" h = true -> parseSenderName h = h.
Proof.
  intros Hne Hl. unfold parseSenderName.
  destruct h as [|ch t]; [contradiction|].
  rewrite match_name_before_address.
  cbn [lacks] in Hl. apply andb_true_iff in Hl.
  rewrite (find_split_lacks t (proj2 Hl)).
  assert (match_ address_in_brackets (String ch t) = None) as ->.
  { unfold match_. rewrite exec_address_lacks; [reflexivity|].
    cbn [lacks]. apply andb_true_iff. exact Hl. }
  destruct (is_line_terminator ch); reflexivity.
Qed.

Lemma address_tail_before_quote (u v : string) :
  lacks "<" u = true -> address_tail (trimStart (u ++ String dquote v)) = false.
Proof.
  induction u as [|ch t IH]; intros H.
  - reflexivity.
  - cbn [lacks] in H. apply andb_true_iff in H. destruct H as [Hc Ht].
    cbn [append trimStart]. destruct (is_space ch); [apply IH, Ht|].
    unfold address_tail.
    destruct ch as [[] [] [] [] [] [] [] []]; try reflexivity. discriminate Hc.
Qed.

Lemma find_split_through_name (name v : string) :
  lacks "<" name = true -> one_line name = true ->
  find_split (name ++ String dquote v) =
  option_map (fun j => (String.length name + j)%nat) (find_split (String dquote v)).
Proof.
  induction name as [|ch t IH]; intros Hl Ho.
  - cbn [append String.length]. destruct (find_split (String dquote v)); reflexivity.
  - assert (find_split (String ch t ++ String dquote v) =
            if is_line_terminator ch then None
            else option_map S (find_split (t ++ String dquote v))) as ->.
    { cbn [append]. cbn [find_split].
      change (String ch (t ++ String dquote v)) with (String ch t ++ String dquote v).
      rewrite (address_tail_before_quote _ _ Hl). reflexivity. }
    cbn [lacks] in Hl. cbn [one_line] in Ho.
    apply andb_true_iff in Hl. apply andb_true_iff in Ho.
    destruct Hl as [_ Hl]. destruct Ho as [Hc Ho].
    apply negb_true_iff in Hc. rewrite Hc, (IH Hl Ho).
    destruct (find_split (String dquote v)); reflexivity.
Qed.

Lemma dots_then_gt_line (x : string) :
  one_line x = true -> dots_then_gt (x ++ ">") = true.
Proof.
  induction x as [|ch t IH]; intros H; [reflexivity|].
  cbn [one_line] in H. apply andb_true_iff in H. destruct H as [Hc Ht].
  specialize (IH Ht). cbn [append].
  destruct t as [|ch' t']; cbn [append dots_then_gt] in *; rewrite Hc; exact IH.
Qed.

Lemma trimStart_spaces (ws x : string) :
  all_space ws = true -> trimStart (ws ++ String "<" x) = String "<" x.
Proof.
  induction ws as [|ch t IH]; intros H; [reflexivity|].
  cbn [all_space] in H. apply andb_true_iff in H. destruct H as [Hc Ht].
  cbn [append trimStart]. rewrite Hc. apply IH, Ht.
Qed.

Lemma find_split_at_address (ws addr : string) :
  all_space ws = true -> addr <> EmptyString -> one_line addr = true ->
  find_split (ws ++ String "<" (addr ++ ">")) = Some O.
Proof.
  intros Hws Hne Hline.
  assert (address_tail (trimStart (ws ++ String "<" (addr ++ ">"))) = true) as Ha.
  { rewrite trimStart_spaces by assumption.
    destruct addr as [|ch t]; [contradiction|].
    cbn [one_line] in Hline. apply andb_true_iff in Hline. destruct Hline as [Hc Ht].
    cbn [append address_tail]. rewrite Hc, (dots_then_gt_line t Ht). reflexivity. }
  destruct (ws ++ String "<" (addr ++ ">")); cbn [find_split]; rewrite Ha; reflexivity.
Qed.

Lemma substring_prefix (a b : string) :
  substring 0 (String.length a) (a ++ b) = a.
Proof.
  induction a as [|ch t IH]; cbn [String.length append substring].
  - destruct b; reflexivity.
  - rewrite IH. reflexivity.
Qed.

Lemma remove_all_app (c : ascii) (a b : string) :
  remove_all c (a ++ b) = remove_all c a ++ remove_all c b.
Proof.
  induction a as [|ch t IH]; cbn [append remove_all]; [reflexivity|].
  destruct (Ascii.eqb ch c); cbn [append]; rewrite IH; reflexivity.
Qed.

Lemma append_empty_r (a : string) : a ++ EmptyString = a.
Proof. induction a as [|ch t IH]; cbn [append]; [|rewrite IH]; reflexivity. Qed.

Lemma append_assoc (a b c : string) : (a ++ b) ++ c = a ++ (b ++ c).
Proof. induction a as [|ch t IH]; cbn [append]; [|rewrite IH]; reflexivity. Qed.

(** The quoted form: the group is the quoted name, whose quotes are removed
    and whose ends are trimmed. *)
Lemma parseSenderName_quoted (name ws addr : string) :
  lacks "<" name = true -> one_line name = true ->
  all_space ws = true ->
  addr <> EmptyString -> one_line addr = true ->
  parseSenderName (quoted_header name ws addr) = trim (remove_all dquote name).
Proof.
  intros Hl Ho Hws Hne Hline.
  unfold parseSenderName, quoted_header.
  rewrite match_name_before_address.
  change (is_line_terminator dquote) with false. cbv iota.
  rewrite (find_split_through_name _ _ Hl Ho).
  assert (find_split (String dquote (ws ++ String "<" (addr ++ ">"))) = Some 1%nat) as ->.
  { cbn [find_split trimStart]. change (is_space dquote) with false. cbv iota.
    change (address_tail (String dquote (ws ++ String "<" (addr ++ ">")))) with false.
    change (is_line_terminator dquote) with false. cbv iota.
    rewrite (find_split_at_address _ _ Hws Hne Hline). reflexivity. }
  cbn [option_map].
  assert (String dquote (name ++ String dquote (ws ++ String "<" (addr ++ ">"))) =
          (String dquote (name ++ String dquote EmptyString)) ++
          (ws ++ String "<" (addr ++ ">"))) as ->.
  { cbn [append]. rewrite append_assoc. reflexivity. }
  assert (S (String.length name + 1) =
          String.length (String dquote (name ++ String dquote EmptyString))) as ->.
  { cbn [String.length]. rewrite length_append. reflexivity. }
  rewrite substring_prefix.
  cbn [remove_all]. rewrite Ascii.eqb_refl, remove_all_app.
  cbn [remove_all]. rewrite Ascii.eqb_refl. cbn [remove_all].
  rewrite append_empty_r. reflexivity.
Qed.

(** C6, amended: for a From header made of a quoted display name, optional
    white space and a non-empty address in angle brackets, where the name
    holds no opening angle bracket and neither part a line break, the sender
    is the display name with its quote characters removed and its ends
    trimmed; a non-empty header without an opening angle bracket, such as a
    bare address, is returned as it is. *)
Theorem sender_name_parsing :
  (forall name ws addr,
      lacks "<" name = true -> one_line name = true ->
      all_space ws = true ->
      addr <> EmptyString -> one_line addr = true ->
      parseSenderName (quoted_header name ws addr) = trim (remove_all dquote name)) /\
  (forall h, h <> EmptyString -> lacks "<" h = true -> parseSenderName h = h) /\
  parseSenderName (quoted_header "Ada Lovelace" " " "ada@x.com") = "Ada Lovelace" /\
  parseSenderName "ada@x.com" = "ada@x.com".
Proof.
  split; [exact parseSenderName_quoted|].
  split; [exact parseSenderName_bare|].
  split; vm_compute; reflexivity.
Qed.

Lemma sender_name_parsing_witness :
  parseSenderName (quoted_header " Grace Hopper " "  " "grace@navy.example") =
    "Grace Hopper" /\
  parseSenderName "noreply@service.example" = "noreply@service.example".
Proof.
  split.
  - apply (proj1 sender_name_parsing " Grace Hopper " "  " "grace@navy.example");
      try reflexivity. discriminate.
  - apply (proj1 (proj2 sender_name_parsing)); [discriminate | reflexivity].
Defined.

(** C6 as stated fails on a quoted display name that holds an angle bracket:
    the lazy group stops before it, so the sender is a prefix of the display
    name.  A display name with a line break falls through to the second
    pattern, which yields the address; and white space at the ends of the
    name is trimmed away. *)
Lemma quoted_name_with_bracket_truncated :
  (parseSenderName (quoted_header "Smith, John <Sales>" " " "john@x.com") = "Smith, John" /\
   remove_all dquote "Smith, John <Sales>" = "Smith, John <Sales>") /\
  (parseSenderName (quoted_header ("Ada" ++ String "010" "Lovelace") " " "ada@x.com") =
     "ada@x.com") /\
  (parseSenderName (quoted_header " Ada " " " "ada@x.com") = "Ada" /\
   remove_all dquote " Ada " = " Ada ").
Proof. vm_compute. repeat split. Qed.

(** ** The duplicate check and the table of pending actions *)

Lemma matching_two (kc pc k p : string) (rows : list row) :
  matching [(kc, k); (pc, p)] rows =
  filter (fun r => eq_filter kc k r && eq_filter pc p r) rows.
Proof.
  unfold matching. apply filter_ext. intros r. cbn [forallb fst snd].
  rewrite andb_true_r. reflexivity.
Qed.

Lemma firstn_one_nonempty {A} (l : list A) :
  (0 <? List.length (firstn 1 l))%nat = negb (match l with [] => true | _ => false end).
Proof. destruct l; reflexivity. Qed.

Lemma filter_nonempty {A} (f : A -> bool) (l : list A) :
  negb (match filter f l with [] => true | _ => false end) = existsb f l.
Proof.
  induction l as [|x l IH]; cbn [filter existsb]; [reflexivity|].
  destruct (f x); [reflexivity | exact IH].
Qed.

(** The answer of a select, as the duplicate check reads it. *)
Lemma select_found (kc pc k p : string) (w : World) :
  select_pending [(kc, k); (pc, p)] 1 w =
  (Ret (if fst (next_fault w) then None
        else Some (firstn 1 (matching [(kc, k); (pc, p)] (pending_actions w)))),
   with_store w (pending_actions w) (snd (next_fault w))
              (Select "pending_actions" [(kc, k); (pc, p)] :: calls w)).
Proof.
  unfold select_pending. destruct (next_fault w) as [f fs]. destruct f; reflexivity.
Qed.

Lemma multi_isDuplicate_spec (link platform : string) (w : World) :
  link <> EmptyString ->
  MultiUser.isDuplicate link platform w =
  (Ret (negb (fst (next_fault w)) &&
        recorded "message_link" "platform_tag" link platform w),
   with_store w (pending_actions w) (snd (next_fault w))
              (Select "pending_actions" [("message_link", link); ("platform_tag", platform)]
                 :: calls w)).
Proof.
  intros Hne. unfold MultiUser.isDuplicate. destruct link as [|c l]; [contradiction|].
  unfold bind. rewrite select_found.
  destruct (fst (next_fault w)); cbn [negb andb]; [reflexivity|].
  unfold ret, recorded. rewrite firstn_one_nonempty, matching_two, filter_nonempty.
  reflexivity.
Qed.

Lemma single_isDuplicate_spec (messageId platform : string) (w : World) :
  SingleUser.isDuplicate messageId platform w =
  (Ret (negb (fst (next_fault w)) &&
        recorded "message_id" "platform" messageId platform w),
   with_store w (pending_actions w) (snd (next_fault w))
              (Select "pending_actions" [("message_id", messageId); ("platform", platform)]
                 :: calls w)).
Proof.
  unfold SingleUser.isDuplicate, bind. rewrite select_found.
  destruct (fst (next_fault w)); cbn [negb andb]; [reflexivity|].
  unfold ret, recorded. rewrite firstn_one_nonempty, matching_two, filter_nonempty.
  reflexivity.
Qed.

(** The key columns of the rows the servers insert. *)
Lemma multi_new_row_key (m : MultiUser.Message) :
  column (MultiUser.new_row m) "message_link" = Some (MultiUser.url m) /\
  column (MultiUser.new_row m) "platform_tag" = Some (MultiUser.platform m).
Proof.
  unfold MultiUser.new_row, column. cbn [object].
  destruct (MultiUser.sender m); cbn [object assoc String.eqb Ascii.eqb Bool.eqb];
    destruct (MultiUser.user_id m); split; reflexivity.
Qed.

Lemma single_new_row_key (m : SingleUser.Message) (created_at : string) :
  column (SingleUser.new_row m created_at) "message_id" = Some (SingleUser.messageId m) /\
  column (SingleUser.new_row m created_at) "platform" = Some (SingleUser.platform m).
Proof.
  unfold SingleUser.new_row, column. cbn [object].
  destruct (SingleUser.sender m); destruct (SingleUser.summary m);
    cbn [object assoc String.eqb Ascii.eqb Bool.eqb]; split; reflexivity.
Qed.

Lemma multi_row_never_violates (m : MultiUser.Message) (rows : list row) :
  violates_unique (MultiUser.new_row m) rows = false.
Proof.
  unfold violates_unique, MultiUser.new_row, column. cbn [object].
  destruct (MultiUser.sender m); cbn [object assoc String.eqb Ascii.eqb Bool.eqb];
    destruct (MultiUser.user_id m); reflexivity.
Qed.

(** [saveToSupabase] of the multi-user server, step by step. *)
Lemma multi_save_spec (m : MultiUser.Message) (w : World) :
  MultiUser.url m <> EmptyString ->
  let sel := Select "pending_actions" [("message_link", MultiUser.url m);
                                       ("platform_tag", MultiUser.platform m)] in
  let w1 := with_store w (pending_actions w) (snd (next_fault w)) (sel :: calls w) in
  let r := MultiUser.new_row m in
  let cs := Insert "pending_actions" r :: sel :: calls w in
  MultiUser.saveToSupabase m w =
  if negb (fst (next_fault w)) &&
     recorded "message_link" "platform_tag" (MultiUser.url m) (MultiUser.platform m) w
  then (Ret (Skipped "duplicate"), w1)
  else if fst (next_fault w1)
       then (Throw "insert error",
             with_store w (pending_actions w) (snd (next_fault w1)) cs)
       else (Ret (Saved [r]),
             with_store w (pending_actions w ++ [r])%list (snd (next_fault w1)) cs).
Proof.
  intros Hne sel w1 r cs. unfold MultiUser.saveToSupabase, bind at 1.
  rewrite (multi_isDuplicate_spec _ _ w Hne). fold sel. fold w1.
  destruct (negb (fst (next_fault w)) && recorded _ _ _ _ w); [reflexivity|].
  unfold bind, insert_pending. fold r.
  destruct (next_fault w1) as [f fs] eqn:Hf. cbn [fst snd].
  rewrite (multi_row_never_violates m), andb_false_r, orb_false_r.
  destruct f; reflexivity.
Qed.

(** [saveToSupabase] of the single-user server, step by step. *)
Lemma single_save_spec (m : SingleUser.Message) (w : World) :
  let sel := Select "pending_actions" [("message_id", SingleUser.messageId m);
                                       ("platform", SingleUser.platform m)] in
  let w1 := with_store w (pending_actions w) (snd (next_fault w)) (sel :: calls w) in
  let r := SingleUser.new_row m (now_iso w) in
  let cs := Insert "pending_actions" r :: sel :: calls w in
  SingleUser.saveToSupabase m w =
  if negb (fst (next_fault w)) &&
     recorded "message_id" "platform" (SingleUser.messageId m) (SingleUser.platform m) w
  then (Ret (Skipped "duplicate"), w1)
  else if fst (next_fault w1) ||
          (unique_index w && violates_unique r (pending_actions w))
       then (Throw "insert error",
             with_store w (pending_actions w) (snd (next_fault w1)) cs)
       else (Ret (Saved [r]),
             with_store w (pending_actions w ++ [r])%list (snd (next_fault w1)) cs).
Proof.
  intros sel w1 r cs. unfold SingleUser.saveToSupabase, bind at 1.
  rewrite (single_isDuplicate_spec _ _ w). fold sel. fold w1.
  destruct (negb (fst (next_fault w)) && recorded _ _ _ _ w); [reflexivity|].
  unfold bind, ask, insert_pending. change (now_iso w1) with (now_iso w). fold r.
  destruct (next_fault w1) as [f fs] eqn:Hf. cbn [fst snd].
  change (unique_index w1) with (unique_index w).
  change (pending_actions w1) with (pending_actions w).
  destruct (f || (unique_index w && violates_unique r (pending_actions w))); reflexivity.
Qed.

(** *** Rows with a given key *)

Lemma recorded_matching (kc pc k p : string) (w : World) :
  recorded kc pc k p w = false ->
  matching [(kc, k); (pc, p)] (pending_actions w) = [].
Proof.
  unfold recorded. rewrite matching_two. intros H.
  induction (pending_actions w) as [|r rows IH]; [reflexivity|].
  cbn [existsb filter] in *. apply orb_false_iff in H. destruct H as [Hr Hrows].
  rewrite Hr. apply IH, Hrows.
Qed.

Lemma recorded_snoc (kc pc k p : string) (w w' : World) (r : row) :
  pending_actions w' = (pending_actions w ++ [r])%list ->
  column r kc = Some k -> column r pc = Some p ->
  recorded kc pc k p w' = true.
Proof.
  intros Hrows Hk Hp. unfold recorded. rewrite Hrows, existsb_app.
  cbn [existsb]. unfold eq_filter. rewrite Hk, Hp, !String.eqb_refl.
  rewrite orb_true_r. reflexivity.
Qed.

Lemma at_most_one_snoc (kc pc k p : string) (w w' : World) (r : row) :
  pending_actions w' = (pending_actions w ++ [r])%list ->
  column r kc = Some k -> column r pc = Some p ->
  matching [(kc, k); (pc, p)] (pending_actions w) = [] ->
  at_most_one kc pc w -> at_most_one kc pc w'.
Proof.
  intros Hrows Hk Hp Hnone Hw k' p'. rewrite Hrows.
  specialize (Hw k' p'). rewrite matching_two in *.
  rewrite filter_app, length_app. cbn [filter].
  unfold eq_filter at 3 4. rewrite Hk, Hp.
  destruct (String.eqb k k') eqn:Ek; cbn [andb List.length]; [|lia].
  destruct (String.eqb p p') eqn:Ep; cbn [andb List.length]; [|lia].
  apply String.eqb_eq in Ek, Ep. subst k' p'. rewrite Hnone. cbn. lia.
Qed.

Lemma violates_unique_matching (r : row) (k p : string) (rows : list row) :
  column r "message_id" = Some k -> column r "platform" = Some p ->
  violates_unique r rows = false ->
  matching [("message_id", k); ("platform", p)] rows = [].
Proof.
  intros Hk Hp. unfold violates_unique. rewrite Hk, Hp, matching_two. intros H.
  induction rows as [|x rows IH]; [reflexivity|].
  cbn [existsb filter] in *. apply orb_false_iff in H. destruct H as [Hx Hrows].
  rewrite Hx. apply IH, Hrows.
Qed.

Lemma multi_duplicate_suppression (m : MultiUser.Message) (w : World) :
  MultiUser.url m <> EmptyString -> lookup_succeeds w ->
  (recorded "message_link" "platform_tag" (MultiUser.url m) (MultiUser.platform m) w = true ->
   fst (MultiUser.saveToSupabase m w) = Ret (Skipped "duplicate") /\
   pending_actions (snd (MultiUser.saveToSupabase m w)) = pending_actions w) /\
  (at_most_one "message_link" "platform_tag" w ->
   at_most_one "message_link" "platform_tag" (snd (MultiUser.saveToSupabase m w))) /\
  (forall d, fst (MultiUser.saveToSupabase m w) = Ret (Saved d) ->
             recorded "message_link" "platform_tag" (MultiUser.url m) (MultiUser.platform m)
                      (snd (MultiUser.saveToSupabase m w)) = true).
Proof.
  intros Hne Hok. unfold lookup_succeeds in Hok.
  pose proof (multi_save_spec m w Hne) as Hs. cbv zeta in Hs. rewrite Hs, Hok. clear Hs.
  cbn [negb andb].
  destruct (recorded "message_link" "platform_tag" (MultiUser.url m) (MultiUser.platform m) w)
    eqn:Hrec.
  - split; [intros _; split; reflexivity|].
    split; [intros H; exact H | intros d H; discriminate H].
  - destruct (multi_new_row_key m) as [Hk Hp]. clear Hok.
    destruct (fst (next_fault (with_store _ _ _ _))); cbn [fst snd].
    + split; [intros H; discriminate H|].
      split; [intros H; exact H | intros d H; discriminate H].
    + split; [intros H; discriminate H|].
      split.
      * apply (at_most_one_snoc "message_link" "platform_tag" (MultiUser.url m)
                 (MultiUser.platform m) w _ (MultiUser.new_row m)); try assumption.
        -- reflexivity.
        -- apply recorded_matching, Hrec.
      * intros d _. apply (recorded_snoc "message_link" "platform_tag" (MultiUser.url m)
                 (MultiUser.platform m) w _ (MultiUser.new_row m)); try assumption.
        reflexivity.
Qed.

Lemma single_duplicate_suppression (m : SingleUser.Message) (w : World) :
  lookup_succeeds w ->
  (recorded "message_id" "platform" (SingleUser.messageId m) (SingleUser.platform m) w = true ->
   fst (SingleUser.saveToSupabase m w) = Ret (Skipped "duplicate") /\
   pending_actions (snd (SingleUser.saveToSupabase m w)) = pending_actions w) /\
  (at_most_one "message_id" "platform" w ->
   at_most_one "message_id" "platform" (snd (SingleUser.saveToSupabase m w))) /\
  (forall d, fst (SingleUser.saveToSupabase m w) = Ret (Saved d) ->
             recorded "message_id" "platform" (SingleUser.messageId m) (SingleUser.platform m)
                      (snd (SingleUser.saveToSupabase m w)) = true).
Proof.
  intros Hok. unfold lookup_succeeds in Hok.
  pose proof (single_save_spec m w) as Hs. cbv zeta in Hs. rewrite Hs, Hok. clear Hs.
  cbn [negb andb].
  destruct (recorded "message_id" "platform" (SingleUser.messageId m) (SingleUser.platform m) w)
    eqn:Hrec.
  - split; [intros _; split; reflexivity|].
    split; [intros H; exact H | intros d H; discriminate H].
  - destruct (single_new_row_key m (now_iso w)) as [Hk Hp]. clear Hok.
    destruct (fst (next_fault (with_store _ _ _ _)) || _); cbn [fst snd].
    + split; [intros H; discriminate H|].
      split; [intros H; exact H | intros d H; discriminate H].
    + split; [intros H; discriminate H|].
      split.
      * apply (at_most_one_snoc "message_id" "platform" (SingleUser.messageId m)
                 (SingleUser.platform m) w _ (SingleUser.new_row m (now_iso w)));
          try assumption.
        -- reflexivity.
        -- apply recorded_matching, Hrec.
      * intros d _.
        apply (recorded_snoc "message_id" "platform" (SingleUser.messageId m)
                 (SingleUser.platform m) w _ (SingleUser.new_row m (now_iso w)));
          try assumption.
        reflexivity.
Qed.

(** With the migration's unique index in place the single-user table never
    holds two rows for one message id and platform, even when the lookup
    fails: the insert is refused (and [saveToSupabase] throws). *)
Lemma single_unique_index_backstop (m : SingleUser.Message) (w : World) :
  unique_index w = true ->
  at_most_one "message_id" "platform" w ->
  at_most_one "message_id" "platform" (snd (SingleUser.saveToSupabase m w)).
Proof.
  intros Hidx Hw.
  pose proof (single_save_spec m w) as Hs. cbv zeta in Hs. rewrite Hs, Hidx. clear Hs.
  destruct (negb (fst (next_fault w)) && recorded _ _ _ _ w); [exact Hw|].
  cbn [andb].
  destruct (violates_unique (SingleUser.new_row m (now_iso w)) (pending_actions w)) eqn:Hv.
  - rewrite orb_true_r. exact Hw.
  - rewrite orb_false_r. destruct (fst (next_fault (with_store _ _ _ _))); [exact Hw|].
    destruct (single_new_row_key m (now_iso w)) as [Hk Hp].
    apply (at_most_one_snoc "message_id" "platform" (SingleUser.messageId m)
             (SingleUser.platform m) w _ (SingleUser.new_row m (now_iso w))); try assumption.
    + reflexivity.
    + apply (violates_unique_matching _ _ _ _ Hk Hp Hv).
Qed.

(** *** Properties kept by the handlers *)

Section Invariants.
Variable I : World -> Prop.

Lemma preserves_ret {A} (a : A) : preserves I (ret a).
Proof. intros w H. exact H. Qed.

Lemma preserves_throw {A} (e : string) : preserves I (@throw A e).
Proof. intros w H. exact H. Qed.

Lemma preserves_lift {A} (f : World -> outcome A) : preserves I (lift f).
Proof. intros w H. exact H. Qed.

Lemma preserves_ask {A} (f : World -> A) : preserves I (ask f).
Proof. intros w H. exact H. Qed.

Lemma preserves_bind {A B} (m : M A) (k : A -> M B) :
  preserves I m -> (forall a, preserves I (k a)) -> preserves I (bind m k).
Proof.
  intros Hm Hk w Hw. unfold bind. specialize (Hm w Hw).
  destruct (m w) as [[a|e] w1]; cbn [snd] in *.
  - apply Hk, Hm.
  - exact Hm.
Qed.

Lemma preserves_try_catch {A} (m : M A) (h : string -> M A) :
  preserves I m -> (forall e, preserves I (h e)) -> preserves I (try_catch m h).
Proof.
  intros Hm Hh w Hw. unfold try_catch. specialize (Hm w Hw).
  destruct (m w) as [[a|e] w1]; cbn [snd] in *.
  - exact Hm.
  - apply Hh, Hm.
Qed.

Lemma preserves_verify (req : SlackRequest) : preserves I (verifySlackSignature req).
Proof. intros w Hw. rewrite verifySlackSignature_pure. exact Hw. Qed.

(** A property that a recorded select does not disturb. *)
Hypothesis select_kept :
  forall w table filters,
    I w -> I (with_store w (pending_actions w) (snd (next_fault w))
                         (Select table filters :: calls w)).

Lemma preserves_select_single (table : string) (rows : World -> list row)
      (name : string) (v : value) :
  preserves I (select_single table rows name v).
Proof.
  intros w Hw. unfold select_single.
  pose proof (select_kept w table [(name, String_ v)] Hw) as H.
  destruct (next_fault w) as [f fs]. cbn [snd] in H.
  destruct f; [exact H|].
  destruct (matching _ _) as [|r [|r' l]]; exact H.
Qed.

End Invariants.

Lemma createGmailLink_nonempty (id : string) : createGmailLink id <> EmptyString.
Proof. discriminate. Qed.

Lemma multi_createSlackLink_nonempty (a b c : value) :
  MultiUser.createSlackLink a b c <> EmptyString.
Proof. discriminate. Qed.

(** One step through a handler, for a property with the given lemmas about
    selects and about saveToSupabase. *)
Ltac keep_step select_kept save_kept :=
  first
    [ apply preserves_ret | apply preserves_throw | apply preserves_lift
    | apply preserves_ask | apply preserves_verify
    | apply preserves_select_single; exact select_kept
    | apply save_kept;
        first [apply createGmailLink_nonempty | apply multi_createSlackLink_nonempty]
    | apply save_kept
    | apply preserves_bind; [|intros ?]
    | apply preserves_try_catch; [|intros ?]
    | match goal with
      | |- preserves _ (if ?b then _ else _) => destruct b
      | |- preserves _ (match ?x with _ => _ end) => destruct x
      end ].

(** *** No key is stored twice while the storage answers *)

Lemma quiet_next_fault (w : World) : faults w = [] -> next_fault w = (false, []).
Proof. unfold next_fault. intros ->. reflexivity. Qed.

Lemma quiet_select_kept (kc pc : string) (w : World) (table : string)
      (filters : list (string * string)) :
  quiet_unique kc pc w ->
  quiet_unique kc pc (with_store w (pending_actions w) (snd (next_fault w))
                                 (Select table filters :: calls w)).
Proof.
  intros [Hf Hu]. split; [|exact Hu].
  cbn [with_store faults]. rewrite (quiet_next_fault w Hf). reflexivity.
Qed.

Lemma multi_save_quiet (m : MultiUser.Message) :
  MultiUser.url m <> EmptyString ->
  preserves (quiet_unique "message_link" "platform_tag") (MultiUser.saveToSupabase m).
Proof.
  intros Hne w [Hf Hu]. split.
  - pose proof (multi_save_spec m w Hne) as Hs. cbv zeta in Hs. rewrite Hs. clear Hs.
    rewrite (quiet_next_fault w Hf). cbn [fst snd negb andb].
    destruct (recorded _ _ _ _ w); [reflexivity|].
    cbn [next_fault with_store faults fst snd]. reflexivity.
  - apply multi_duplicate_suppression; try assumption.
    unfold lookup_succeeds. rewrite (quiet_next_fault w Hf). reflexivity.
Qed.

Lemma single_save_quiet (m : SingleUser.Message) :
  preserves (quiet_unique "message_id" "platform") (SingleUser.saveToSupabase m).
Proof.
  intros w [Hf Hu]. split.
  - pose proof (single_save_spec m w) as Hs. cbv zeta in Hs. rewrite Hs. clear Hs.
    rewrite (quiet_next_fault w Hf). cbn [fst snd negb andb].
    destruct (recorded _ _ _ _ w); [reflexivity|].
    cbn [next_fault with_store faults fst snd orb].
    destruct (unique_index w && _); reflexivity.
  - apply single_duplicate_suppression; try assumption.
    unfold lookup_succeeds. rewrite (quiet_next_fault w Hf). reflexivity.
Qed.

Ltac quiet_multi :=
  keep_step (quiet_select_kept "message_link" "platform_tag") multi_save_quiet.
Ltac quiet_single :=
  keep_step (quiet_select_kept "message_id" "platform") single_save_quiet.

Lemma multi_process_messages_quiet (user_id token : value) (ids : list string) (n : nat) :
  preserves (quiet_unique "message_link" "platform_tag")
            (MultiUser.process_messages user_id token ids n).
Proof.
  revert n. induction ids as [|id rest IH]; intros n; cbn [MultiUser.process_messages].
  - quiet_multi.
  - apply preserves_bind; [quiet_multi|]. intros message.
    destruct (negb _); [apply IH|].
    apply preserves_bind; [quiet_multi|]. intros result. apply IH.
Qed.

Lemma multi_gmail_webhook_quiet (b : json) :
  preserves (quiet_unique "message_link" "platform_tag") (MultiUser.gmail_webhook b).
Proof.
  unfold MultiUser.gmail_webhook.
  repeat first [apply multi_process_messages_quiet | quiet_multi].
Qed.

Lemma multi_slack_webhook_quiet (req : SlackRequest) :
  preserves (quiet_unique "message_link" "platform_tag") (MultiUser.slack_webhook req).
Proof.
  unfold MultiUser.slack_webhook, MultiUser.process_dm, MultiUser.lookup_sender.
  repeat quiet_multi.
Qed.

Lemma single_slack_webhook_quiet (req : SlackRequest) :
  preserves (quiet_unique "message_id" "platform") (SingleUser.slack_webhook req).
Proof.
  unfold SingleUser.slack_webhook, SingleUser.process_dm, SingleUser.lookup_sender.
  repeat quiet_single.
Qed.

Lemma deliver_all_quiet (ds : list delivery) (w : World) :
  quiet_unique "message_link" "platform_tag" w ->
  quiet_unique "message_link" "platform_tag" (deliver_all ds w).
Proof.
  unfold deliver_all. revert w. induction ds as [|d ds IH]; intros w Hw; [exact Hw|].
  cbn [fold_left]. apply IH. destruct d as [b|req]; cbn [deliver].
  - apply multi_gmail_webhook_quiet, Hw.
  - apply multi_slack_webhook_quiet, Hw.
Qed.

Lemma deliver_all_single_quiet (reqs : list SlackRequest) (w : World) :
  quiet_unique "message_id" "platform" w ->
  quiet_unique "message_id" "platform" (deliver_all_single reqs w).
Proof.
  unfold deliver_all_single. revert w. induction reqs as [|r reqs IH]; intros w Hw; [exact Hw|].
  cbn [fold_left]. apply IH. apply single_slack_webhook_quiet, Hw.
Qed.

(** The two awaits of [saveToSupabase], taken without anything in between,
    are the call itself. *)
Lemma saveToSupabase_in_two_steps (m : MultiUser.Message) (w : World) :
  overlap [0%nat; 0%nat] [Checking m] w =
  ([Returned (fst (MultiUser.saveToSupabase m w))], snd (MultiUser.saveToSupabase m w)).
Proof.
  unfold MultiUser.saveToSupabase, bind. cbn [overlap nth_error advance put].
  destruct (MultiUser.isDuplicate (MultiUser.url m) (MultiUser.platform m) w)
    as [[[]|e] w1]; cbn [overlap nth_error advance put]; try reflexivity.
  destruct (insert_pending (MultiUser.new_row m) w1) as [[[data|]|e] w2]; reflexivity.
Qed.

(** Two calls for one event whose link is not recorded, which overlap: both
    lookups are answered before either insert.  Both calls store the event,
    although the storage answers every request. *)
Lemma overlapping_saves_both_stored (m : MultiUser.Message) (w : World) :
  MultiUser.url m <> EmptyString ->
  faults w = [] ->
  recorded "message_link" "platform_tag" (MultiUser.url m) (MultiUser.platform m) w = false ->
  fst (overlap [0%nat; 1%nat; 0%nat; 1%nat] [Checking m; Checking m] w) =
    [Returned (Ret (Saved [MultiUser.new_row m]));
     Returned (Ret (Saved [MultiUser.new_row m]))] /\
  pending_actions (snd (overlap [0%nat; 1%nat; 0%nat; 1%nat] [Checking m; Checking m] w)) =
    (pending_actions w ++ [MultiUser.new_row m; MultiUser.new_row m])%list /\
  faults (snd (overlap [0%nat; 1%nat; 0%nat; 1%nat] [Checking m; Checking m] w)) = [].
Proof.
  intros Hne Hq Hnew.
  enough (exists w', overlap [0%nat; 1%nat; 0%nat; 1%nat] [Checking m; Checking m] w =
                     ([Returned (Ret (Saved [MultiUser.new_row m]));
                       Returned (Ret (Saved [MultiUser.new_row m]))], w') /\
                     pending_actions w' =
                     (pending_actions w ++ [MultiUser.new_row m; MultiUser.new_row m])%list /\
                     faults w' = []) as (w' & -> & Hrows & Hf)
      by (split; [reflexivity | split; assumption]).
  cbn [overlap nth_error put advance].
  rewrite (multi_isDuplicate_spec _ _ w Hne), (quiet_next_fault w Hq), Hnew.
  cbn [fst snd negb andb overlap nth_error put advance].
  set (w1 := with_store w (pending_actions w) [] _).
  rewrite (multi_isDuplicate_spec _ _ w1 Hne).
  assert (next_fault w1 = (false, [])) as -> by reflexivity.
  change (recorded "message_link" "platform_tag" (MultiUser.url m) (MultiUser.platform m) w1)
    with (recorded "message_link" "platform_tag" (MultiUser.url m) (MultiUser.platform m) w).
  rewrite Hnew. cbn [fst snd negb andb overlap nth_error put advance].
  set (w2 := with_store w1 (pending_actions w1) [] _).
  unfold insert_pending at 1.
  assert (next_fault w2 = (false, [])) as -> by reflexivity.
  rewrite multi_row_never_violates, andb_false_r. cbn [orb overlap nth_error put advance].
  set (w3 := with_store w2 _ [] _).
  unfold insert_pending at 1.
  assert (next_fault w3 = (false, [])) as -> by reflexivity.
  rewrite multi_row_never_violates, andb_false_r. cbn [orb overlap nth_error put advance].
  eexists. split; [reflexivity|]. split; [|reflexivity].
  subst w3 w2 w1. cbn [pending_actions with_store].
  rewrite <- app_assoc. reflexivity.
Qed.

(** C1, amended: where the duplicate lookup succeeds, an event whose key
    and platform are already recorded is skipped with reason 'duplicate' and
    adds no row, and an event that was just saved is recorded, so its
    re-delivery is skipped; and while the storage answers every request
    without an error, no sequence of webhook deliveries handled one after
    the other, each to its end before the next begins, makes the table hold
    two rows for one key and platform.  The key is the message link in the
    multi-user server and the message id in the single-user server.
    Deliveries that overlap are not covered: they can store one event
    twice. *)
Theorem duplicate_suppression (w : World) :
  (lookup_succeeds w ->
   (forall m : MultiUser.Message,
       MultiUser.url m <> EmptyString ->
       (recorded "message_link" "platform_tag" (MultiUser.url m) (MultiUser.platform m) w = true ->
        fst (MultiUser.saveToSupabase m w) = Ret (Skipped "duplicate") /\
        pending_actions (snd (MultiUser.saveToSupabase m w)) = pending_actions w) /\
       (forall d, fst (MultiUser.saveToSupabase m w) = Ret (Saved d) ->
                  recorded "message_link" "platform_tag" (MultiUser.url m)
                           (MultiUser.platform m)
                           (snd (MultiUser.saveToSupabase m w)) = true)) /\
   (forall m : SingleUser.Message,
       (recorded "message_id" "platform" (SingleUser.messageId m) (SingleUser.platform m) w = true ->
        fst (SingleUser.saveToSupabase m w) = Ret (Skipped "duplicate") /\
        pending_actions (snd (SingleUser.saveToSupabase m w)) = pending_actions w) /\
       (forall d, fst (SingleUser.saveToSupabase m w) = Ret (Saved d) ->
                  recorded "message_id" "platform" (SingleUser.messageId m)
                           (SingleUser.platform m)
                           (snd (SingleUser.saveToSupabase m w)) = true))) /\
  (quiet_unique "message_link" "platform_tag" w ->
   forall ds, quiet_unique "message_link" "platform_tag" (deliver_all ds w)) /\
  (quiet_unique "message_id" "platform" w ->
   forall reqs, quiet_unique "message_id" "platform" (deliver_all_single reqs w)).
Proof.
  split; [|split].
  - intros Hok. split.
    + intros m Hne. destruct (multi_duplicate_suppression m w Hne Hok) as (H1 & _ & H3).
      split; assumption.
    + intros m. destruct (single_duplicate_suppression m w Hok) as (H1 & _ & H3).
      split; assumption.
  - intros Hw ds. apply deliver_all_quiet, Hw.
  - intros Hw reqs. apply deliver_all_single_quiet, Hw.
Qed.

Lemma quiet_unique_empty (kc pc : string) (w : World) :
  faults w = [] -> pending_actions w = [] -> quiet_unique kc pc w.
Proof.
  intros Hf Hrows. split; [exact Hf|]. intros k p. rewrite Hrows. cbn. lia.
Qed.

Lemma duplicate_suppression_witness :
  (fst (MultiUser.saveToSupabase (q3_event "18c0a1") once_delivered) = Ret (Skipped "duplicate") /\
   pending_actions (snd (MultiUser.saveToSupabase (q3_event "18c0a1") once_delivered)) =
   pending_actions once_delivered) /\
  (fst (SingleUser.saveToSupabase q3_event_single once_delivered_single) =
     Ret (Skipped "duplicate") /\
   pending_actions (snd (SingleUser.saveToSupabase q3_event_single once_delivered_single)) =
   pending_actions once_delivered_single) /\
  quiet_unique "message_link" "platform_tag"
               (deliver_all busy_morning (Sample.gmail_world twin_inbox)).
Proof.
  split; [|split].
  - apply (proj1 (proj1 (proj1 (duplicate_suppression once_delivered) eq_refl)
                        (q3_event "18c0a1") (createGmailLink_nonempty "18c0a1"))).
    reflexivity.
  - apply (proj1 (proj2 (proj1 (duplicate_suppression once_delivered_single) eq_refl)
                        q3_event_single)).
    reflexivity.
  - apply (proj1 (proj2 (duplicate_suppression (Sample.gmail_world twin_inbox)))).
    apply quiet_unique_empty; reflexivity.
Defined.

(** The example of the specification, through the webhook: the first
    notification stores one row for the Q3 report, the second stores nothing
    more. *)
Example q3_report_end_to_end :
  let w0 := Sample.gmail_world [("18c0a1", Sample.q3_message)] in
  let w1 := snd (MultiUser.gmail_webhook Sample.notification w0) in
  let w2 := snd (MultiUser.gmail_webhook Sample.notification w1) in
  pending_actions w1 =
    [[("task_text", JStr "Bob: Q3 report"); ("platform_tag", JStr "gmail");
      ("sender_name", JStr "Bob");
      ("message_link", JStr "https://mail.google.com/mail/u/0/#inbox/18c0a1");
      ("user_id", JStr "u-1")]] /\
  pending_actions w2 = pending_actions w1 /\
  fst (MultiUser.gmail_webhook Sample.notification w1) = Ret (Response 200 (Text "OK")).
Proof. vm_compute. repeat split. Qed.

(** C1 as stated fails.  Two Gmail messages with one Message-ID (the dedup
    key) and different Gmail ids are both stored by the multi-user server,
    whose check is on the link; an identical event is stored twice when
    the duplicate lookup fails, in the multi-user server and, without the
    unique index, in the single-user server; and two calls of the
    multi-user [saveToSupabase] for one event that overlap, both lookups
    answered before either insert, both store it, although the storage
    answers every request.  Taken one after the other, the second call is
    skipped. *)
Lemma same_dedup_key_stored_twice :
  (MultiUser.messageId (q3_event "18c0a1") = MultiUser.messageId (q3_event "18c0b2") /\
   MultiUser.platform (q3_event "18c0a1") = MultiUser.platform (q3_event "18c0b2") /\
   fst (MultiUser.saveToSupabase (q3_event "18c0b2") once_delivered) =
     Ret (Saved [MultiUser.new_row (q3_event "18c0b2")]) /\
   List.length (pending_actions
                  (snd (MultiUser.saveToSupabase (q3_event "18c0b2") once_delivered))) = 2%nat /\
   List.length (pending_actions
                  (snd (MultiUser.gmail_webhook Sample.notification
                          (Sample.gmail_world twin_inbox)))) = 2%nat) /\
  (fst (MultiUser.saveToSupabase (q3_event "18c0a1") (with_faults once_delivered [true])) =
     Ret (Saved [MultiUser.new_row (q3_event "18c0a1")]) /\
   List.length (pending_actions
                  (snd (MultiUser.saveToSupabase (q3_event "18c0a1")
                          (with_faults once_delivered [true])))) = 2%nat) /\
  (List.length (pending_actions once_delivered_single) = 1%nat /\
   List.length (pending_actions
                  (snd (SingleUser.saveToSupabase q3_event_single
                          (without_index (with_faults once_delivered_single [true]))))) = 2%nat) /\
  (faults (Sample.gmail_world []) = [] /\
   fst (overlap [0%nat; 1%nat; 0%nat; 1%nat]
          [Checking (q3_event "18c0a1"); Checking (q3_event "18c0a1")]
          (Sample.gmail_world [])) =
     [Returned (Ret (Saved [MultiUser.new_row (q3_event "18c0a1")]));
      Returned (Ret (Saved [MultiUser.new_row (q3_event "18c0a1")]))] /\
   pending_actions
     (snd (overlap [0%nat; 1%nat; 0%nat; 1%nat]
             [Checking (q3_event "18c0a1"); Checking (q3_event "18c0a1")]
             (Sample.gmail_world []))) =
     [MultiUser.new_row (q3_event "18c0a1"); MultiUser.new_row (q3_event "18c0a1")] /\
   fst (overlap [0%nat; 0%nat; 1%nat; 1%nat]
          [Checking (q3_event "18c0a1"); Checking (q3_event "18c0a1")]
          (Sample.gmail_world [])) =
     [Returned (Ret (Saved [MultiUser.new_row (q3_event "18c0a1")]));
      Returned (Ret (Skipped "duplicate"))]).
Proof. vm_compute. repeat split. Qed.

(** *** Every insert follows its duplicate check *)

Lemma gate_select_kept (kc pc : string) (w : World) (table : string)
      (filters : list (string * string)) :
  gate_respected kc pc w ->
  gate_respected kc pc (with_store w (pending_actions w) (snd (next_fault w))
                                   (Select table filters :: calls w)).
Proof. intros H. exact H. Qed.

Lemma multi_save_gated (m : MultiUser.Message) :
  MultiUser.url m <> EmptyString ->
  preserves (gate_respected "message_link" "platform_tag") (MultiUser.saveToSupabase m).
Proof.
  intros Hne w Hw. unfold gate_respected in *.
  pose proof (multi_save_spec m w Hne) as Hs. cbv zeta in Hs. rewrite Hs. clear Hs.
  destruct (multi_new_row_key m) as [Hk Hp].
  destruct (negb _ && _); [exact Hw|].
  destruct (fst (next_fault (with_store _ _ _ _))); cbn [snd with_store calls gated];
    (split; [repeat split; assumption | exact Hw]).
Qed.

Lemma single_save_gated (m : SingleUser.Message) :
  preserves (gate_respected "message_id" "platform") (SingleUser.saveToSupabase m).
Proof.
  intros w Hw. unfold gate_respected in *.
  pose proof (single_save_spec m w) as Hs. cbv zeta in Hs. rewrite Hs. clear Hs.
  destruct (single_new_row_key m (now_iso w)) as [Hk Hp].
  destruct (negb _ && _); [exact Hw|].
  destruct (fst (next_fault (with_store _ _ _ _)) || _); cbn [snd with_store calls gated];
    (split; [repeat split; assumption | exact Hw]).
Qed.

Ltac gate_multi :=
  keep_step (gate_select_kept "message_link" "platform_tag") multi_save_gated.
Ltac gate_single :=
  keep_step (gate_select_kept "message_id" "platform") single_save_gated.

Lemma multi_process_messages_gated (user_id token : value) (ids : list string) (n : nat) :
  preserves (gate_respected "message_link" "platform_tag")
            (MultiUser.process_messages user_id token ids n).
Proof.
  revert n. induction ids as [|id rest IH]; intros n; cbn [MultiUser.process_messages].
  - gate_multi.
  - apply preserves_bind; [gate_multi|]. intros message.
    destruct (negb _); [apply IH|].
    apply preserves_bind; [gate_multi|]. intros result. apply IH.
Qed.

Lemma multi_gmail_webhook_gated (b : json) :
  preserves (gate_respected "message_link" "platform_tag") (MultiUser.gmail_webhook b).
Proof.
  unfold MultiUser.gmail_webhook.
  repeat first [apply multi_process_messages_gated | gate_multi].
Qed.

Lemma multi_slack_webhook_gated (req : SlackRequest) :
  preserves (gate_respected "message_link" "platform_tag") (MultiUser.slack_webhook req).
Proof.
  unfold MultiUser.slack_webhook, MultiUser.process_dm, MultiUser.lookup_sender.
  repeat gate_multi.
Qed.

Lemma single_slack_webhook_gated (req : SlackRequest) :
  preserves (gate_respected "message_id" "platform") (SingleUser.slack_webhook req).
Proof.
  unfold SingleUser.slack_webhook, SingleUser.process_dm, SingleUser.lookup_sender.
  repeat gate_single.
Qed.

(** C2, amended: isDuplicate asks storage for a row of [pending_actions] with
    the given key and platform (the select is recorded in the history and
    its answer is what isDuplicate returns when the lookup goes through); the
    key column is [message_id] in the single-user server and [message_link],
    fed with the message URL, in the multi-user server.  In every webhook
    run, as in every call of saveToSupabase, each insert into
    [pending_actions] directly follows the select on the key and platform
    of the inserted row. *)
Theorem dedup_gate (w : World) :
  (forall key platform,
      calls (snd (SingleUser.isDuplicate key platform w)) =
        Select "pending_actions" [("message_id", key); ("platform", platform)] :: calls w /\
      (lookup_succeeds w ->
       fst (SingleUser.isDuplicate key platform w) =
         Ret (recorded "message_id" "platform" key platform w))) /\
  (forall link platform,
      link <> EmptyString ->
      calls (snd (MultiUser.isDuplicate link platform w)) =
        Select "pending_actions" [("message_link", link); ("platform_tag", platform)]
          :: calls w /\
      (lookup_succeeds w ->
       fst (MultiUser.isDuplicate link platform w) =
         Ret (recorded "message_link" "platform_tag" link platform w))) /\
  (gate_respected "message_link" "platform_tag" w ->
   (forall m, MultiUser.url m <> EmptyString ->
              gate_respected "message_link" "platform_tag"
                             (snd (MultiUser.saveToSupabase m w))) /\
   (forall req, gate_respected "message_link" "platform_tag"
                               (snd (MultiUser.slack_webhook req w))) /\
   (forall b, gate_respected "message_link" "platform_tag"
                             (snd (MultiUser.gmail_webhook b w)))) /\
  (gate_respected "message_id" "platform" w ->
   (forall m, gate_respected "message_id" "platform" (snd (SingleUser.saveToSupabase m w))) /\
   (forall req, gate_respected "message_id" "platform" (snd (SingleUser.slack_webhook req w)))).
Proof.
  split; [|split; [|split]].
  - intros key platform. rewrite single_isDuplicate_spec. cbn [fst snd].
    split; [reflexivity|]. unfold lookup_succeeds. intros ->. reflexivity.
  - intros link platform Hne. rewrite (multi_isDuplicate_spec _ _ _ Hne). cbn [fst snd].
    split; [reflexivity|]. unfold lookup_succeeds. intros ->. reflexivity.
  - intros Hw. split; [|split].
    + intros m Hne. apply (multi_save_gated m Hne), Hw.
    + intros req. apply multi_slack_webhook_gated, Hw.
    + intros b. apply multi_gmail_webhook_gated, Hw.
  - intros Hw. split.
    + intros m. apply single_save_gated, Hw.
    + intros req. apply single_slack_webhook_gated, Hw.
Qed.

Lemma dedup_gate_witness :
  fst (MultiUser.isDuplicate (createGmailLink "18c0a1") "gmail" once_delivered) = Ret true /\
  fst (SingleUser.isDuplicate "<abc@mail>" "gmail" once_delivered_single) = Ret true /\
  gate_respected "message_link" "platform_tag"
    (snd (MultiUser.gmail_webhook Sample.notification (Sample.gmail_world twin_inbox))) /\
  calls (snd (MultiUser.gmail_webhook Sample.notification (Sample.gmail_world twin_inbox))) =
    [ Insert "pending_actions" (MultiUser.new_row (q3_event "18c0b2"));
      Select "pending_actions" [("message_link", createGmailLink "18c0b2");
                                ("platform_tag", "gmail")];
      Insert "pending_actions" (MultiUser.new_row (q3_event "18c0a1"));
      Select "pending_actions" [("message_link", createGmailLink "18c0a1");
                                ("platform_tag", "gmail")];
      Select "user_gmail_tokens" [("email_address", "ada@x.com")] ].
Proof.
  split; [|split; [|split]].
  - apply (proj2 (proj1 (proj2 (dedup_gate once_delivered)) _ "gmail"
                        (createGmailLink_nonempty "18c0a1"))).
    reflexivity.
  - apply (proj2 (proj1 (dedup_gate once_delivered_single) "<abc@mail>" "gmail")).
    reflexivity.
  - apply (proj2 (proj2 (proj1 (proj2 (proj2 (dedup_gate (Sample.gmail_world twin_inbox)))) I))
                 Sample.notification).
  - vm_compute. reflexivity.
Defined.

(** C2 as stated fails for the multi-user server: a pending action was stored
    for the event whose dedup key is the Message-ID, yet isDuplicate asked with
    that key and the platform answers that nothing is there; it answers on
    the link.  The stored row has no [message_id] at all. *)
Lemma gate_not_keyed_on_dedup_key :
  MultiUser.messageId (q3_event "18c0a1") = "<abc@mail>" /\
  pending_actions once_delivered = [MultiUser.new_row (q3_event "18c0a1")] /\
  lookup_succeeds once_delivered /\
  fst (MultiUser.isDuplicate "<abc@mail>" "gmail" once_delivered) = Ret false /\
  fst (MultiUser.isDuplicate (createGmailLink "18c0a1") "gmail" once_delivered) = Ret true /\
  column (MultiUser.new_row (q3_event "18c0a1")) "message_id" = None.
Proof. vm_compute. repeat split. Qed.

(** ** What the signature covers *)

(** The handler never sees the delivered text: two bodies with one parse are
    the same request to it. *)
Lemma verification_sees_parsed_body (handler : SlackRequest -> M response)
      (ts sig : option string) (raw1 raw2 : string) (w : World) :
  express_json raw1 = express_json raw2 ->
  post_slack_webhook handler {| raw_timestamp := ts; raw_signature := sig; raw_body := raw1 |} w =
  post_slack_webhook handler {| raw_timestamp := ts; raw_signature := sig; raw_body := raw2 |} w.
Proof.
  intros H. unfold post_slack_webhook. cbn [raw_body raw_timestamp raw_signature].
  rewrite H. reflexivity.
Qed.

(** A signature header of the right length that differs from the expected
    one, computed over the re-serialised parsed body, is refused. *)
Lemma forged_signature_rejected (req : SlackRequest) (w : World) (secret sig : string) :
  configured w secret ->
  stale req w = false ->
  x_slack_signature req = Some sig ->
  List.length (Crypto.Buffer_from sig) = 67%nat ->
  Crypto.Buffer_from sig <>
    Crypto.Buffer_from (slack_signature secret (x_slack_request_timestamp req)
                                        (stringify (body req))) ->
  verifySlackSignature req w = (Ret false, w).
Proof.
  intros Hc Hf Hs Hlen Hne. rewrite (verify_configured req w secret Hc).
  unfold stale in Hf. rewrite Hf, Hs, timingSafeEqual_spec, slack_signature_bytes, Hlen.
  cbn [Nat.eqb].
  destruct (list_eq_dec _ _ _) as [E|E]; [|reflexivity].
  exfalso. apply Hne. symmetry. exact E.
Qed.

Example express_json_unescapes :
  express_json raw_escaped =
  Some (JObj [("type", JStr "event_callback"); ("team_id", JStr "T1");
              ("event", JObj [("type", JStr "message"); ("channel_type", JStr "im");
                              ("text", JStr "see https://example.com")])]) /\
  express_json raw_altered =
  Some (JObj [("type", JStr "event_callback"); ("team_id", JStr "T1");
              ("event", JObj [("type", JStr "reaction_added")])]) /\
  option_map stringify (express_json raw_altered) = Some raw_signed /\
  option_map stringify (express_json raw_escaped) <> Some raw_escaped.
Proof.
  split; [vm_compute; reflexivity|].
  split; [vm_compute; reflexivity|].
  split; [vm_compute; reflexivity | vm_compute; discriminate].
Qed.

(** C3, on the code: the expected signature is computed over
    JSON.stringify(req.body), not over the delivered body.  A body that
    differs from the signed one only in white space is accepted with the
    signature of the signed one, by either server; and a body in which
    Slack escaped a slash is refused with the signature computed over
    exactly that body. *)
Theorem signature_covers_reserialized_body :
  raw_altered <> raw_signed /\
  express_json raw_altered = express_json raw_signed /\
  post_slack_webhook MultiUser.slack_webhook (resigned_request raw_signed raw_altered)
    (Sample.world (Some Sample.secret) Sample.clock) =
  (Replied (Response 200 (Text "OK")), Sample.world (Some Sample.secret) Sample.clock) /\
  post_slack_webhook SingleUser.slack_webhook (resigned_request raw_signed raw_altered)
    (Sample.world (Some Sample.secret) Sample.clock) =
  (Replied (Response 200 (Text "OK")), Sample.world (Some Sample.secret) Sample.clock) /\
  post_slack_webhook MultiUser.slack_webhook (resigned_request raw_escaped raw_escaped)
    (Sample.world (Some Sample.secret) Sample.clock) =
  (Replied (Response 401 (Text "Invalid signature")),
   Sample.world (Some Sample.secret) Sample.clock).
Proof.
  split; [vm_compute; discriminate|].
  split; [vm_compute; reflexivity|].
  split; [vm_compute; reflexivity|].
  split; vm_compute; reflexivity.
Qed.

(** ** Buffers and text *)

Lemma byteZ_Zbyte (z : Z) : 0 <= z < 256 -> Crypto.byteZ (Crypto.Zbyte z) = z.
Proof.
  intros Hz. unfold Crypto.byteZ, Crypto.Zbyte. rewrite Z.mod_small by lia.
  destruct (Byte.of_N (Z.to_N z)) as [b|] eqn:E.
  - apply Byte.to_of_N in E. rewrite E. lia.
  - apply Byte.of_N_None_iff in E. lia.
Qed.

Lemma Zbyte_byteZ (b : byte) : Crypto.Zbyte (Crypto.byteZ b) = b.
Proof.
  unfold Crypto.Zbyte. rewrite Z.mod_small by apply byteZ_range.
  unfold Crypto.byteZ. rewrite N2Z.id, Byte.of_to_N. reflexivity.
Qed.

Lemma code_range (c : ascii) : 0 <= Z.of_nat (nat_of_ascii c) < 256.
Proof. pose proof (nat_ascii_bounded c). lia. Qed.

Lemma ascii_of_code (c : ascii) : ascii_of_nat (Z.to_nat (Z.of_nat (nat_of_ascii c))) = c.
Proof. rewrite Nat2Z.id. apply ascii_nat_embedding. Qed.

(** Decoding the UTF-8 bytes of a string gives the string back. *)
Lemma Buffer_toString_from (s : string) :
  Buffer_toString (Crypto.Buffer_from s) = Some s.
Proof.
  induction s as [|c s IH]; [reflexivity|].
  cbn [Crypto.Buffer_from]. pose proof (code_range c) as Hc.
  set (n := Z.of_nat (nat_of_ascii c)) in *. cbv zeta.
  destruct (n <? 128) eqn:E.
  - cbn [Buffer_toString]. cbv zeta. rewrite byteZ_Zbyte by lia. rewrite E, IH.
    cbn [option_map]. unfold n. rewrite ascii_of_code. reflexivity.
  - apply Z.ltb_ge in E. cbn [Buffer_toString]. cbv zeta.
    assert (192 + n / 64 = 194 \/ 192 + n / 64 = 195) as Hhi
        by (Z.div_mod_to_equations; lia).
    assert (128 <= 128 + n mod 64 <= 191) as Hlo by (Z.div_mod_to_equations; lia).
    rewrite !byteZ_Zbyte by lia.
    assert ((192 + n / 64 <? 128) = false) as -> by (apply Z.ltb_ge; lia).
    assert ((194 <=? 192 + n / 64) && (192 + n / 64 <=? 195) &&
            (128 <=? 128 + n mod 64) && (128 + n mod 64 <=? 191) = true) as ->.
    { rewrite !andb_true_iff, !Z.leb_le. lia. }
    rewrite IH. cbn [option_map].
    replace ((192 + n / 64 - 192) * 64 + (128 + n mod 64 - 128)) with n
      by (Z.div_mod_to_equations; lia).
    unfold n. rewrite ascii_of_code. reflexivity.
Qed.

Lemma Buffer_from_inj (a b : string) :
  Crypto.Buffer_from a = Crypto.Buffer_from b -> a = b.
Proof.
  intros H. apply (f_equal Buffer_toString) in H.
  rewrite !Buffer_toString_from in H. congruence.
Qed.

(** *** Base64 *)

Lemma unbase64_digit (n : Z) :
  0 <= n < 64 ->
  Base64.unbase64 (Base64.digit n) = Some n /\ Ascii.eqb (Base64.digit n) "=" = false.
Proof.
  intros Hn.
  assert (forallb (fun k => let m := Z.of_nat k in
                            match Base64.unbase64 (Base64.digit m) with
                            | Some v => (v =? m) && negb (Ascii.eqb (Base64.digit m) "=")
                            | None => false
                            end) (seq 0 64) = true) as Hall by (vm_compute; reflexivity).
  rewrite forallb_forall in Hall.
  specialize (Hall (Z.to_nat n)). rewrite Z2Nat.id in Hall by lia.
  assert (In (Z.to_nat n) (seq 0 64)) as Hin by (apply in_seq; lia).
  specialize (Hall Hin). cbv zeta in Hall.
  destruct (Base64.unbase64 (Base64.digit n)) as [v|]; [|discriminate].
  apply andb_true_iff in Hall. destruct Hall as [Hv Hp].
  apply Z.eqb_eq in Hv. apply negb_true_iff in Hp. subst v. split; [reflexivity | exact Hp].
Qed.

Lemma sextets_digit (n : Z) (t : string) :
  0 <= n < 64 -> Base64.sextets (String (Base64.digit n) t) = (n :: Base64.sextets t)%list.
Proof.
  intros Hn. destruct (unbase64_digit n Hn) as [Hv Hp].
  cbn [Base64.sextets]. rewrite Hp, Hv. reflexivity.
Qed.

Lemma list_ind3 {A} (P : list A -> Prop) :
  P [] -> (forall a, P [a]) -> (forall a b, P [a; b]) ->
  (forall a b c l, P l -> P (a :: b :: c :: l)) ->
  forall l, P l.
Proof.
  intros H0 H1 H2 H3 l.
  enough (P l /\ (forall a, P (a :: l)) /\ (forall a b, P (a :: b :: l))) by tauto.
  induction l as [|x l (IH0 & IH1 & IH2)].
  - repeat split; auto.
  - repeat split; auto.
Qed.

(** [Buffer.from(b.toString('base64'), 'base64')] is [b]. *)
Lemma base64_roundtrip (bs : list byte) : Base64.decode (Base64.encode bs) = bs.
Proof.
  unfold Base64.decode. induction bs as [|a|a b|a b c rest IH] using list_ind3.
  - reflexivity.
  - pose proof (byteZ_range a) as Ha. cbn [Base64.encode].
    rewrite !sextets_digit by (Z.div_mod_to_equations; lia).
    change (Base64.sextets "==") with (@nil Z). cbn [Base64.bytes_of].
    replace (Crypto.byteZ a / 4 * 4 + Crypto.byteZ a mod 4 * 16 / 16) with (Crypto.byteZ a)
      by (Z.div_mod_to_equations; lia).
    rewrite Zbyte_byteZ. reflexivity.
  - pose proof (byteZ_range a) as Ha. pose proof (byteZ_range b) as Hb.
    cbn [Base64.encode].
    rewrite !sextets_digit by (Z.div_mod_to_equations; lia).
    change (Base64.sextets "=") with (@nil Z). cbn [Base64.bytes_of].
    replace (Crypto.byteZ a / 4 * 4 + (Crypto.byteZ a mod 4 * 16 + Crypto.byteZ b / 16) / 16)
      with (Crypto.byteZ a) by (Z.div_mod_to_equations; lia).
    replace ((Crypto.byteZ a mod 4 * 16 + Crypto.byteZ b / 16) mod 16 * 16 +
             Crypto.byteZ b mod 16 * 4 / 4)
      with (Crypto.byteZ b) by (Z.div_mod_to_equations; lia).
    rewrite !Zbyte_byteZ. reflexivity.
  - pose proof (byteZ_range a) as Ha. pose proof (byteZ_range b) as Hb.
    pose proof (byteZ_range c) as Hc.
    cbn [Base64.encode].
    rewrite !sextets_digit by (Z.div_mod_to_equations; lia).
    cbn [Base64.bytes_of]. rewrite IH.
    replace (Crypto.byteZ a / 4 * 4 + (Crypto.byteZ a mod 4 * 16 + Crypto.byteZ b / 16) / 16)
      with (Crypto.byteZ a) by (Z.div_mod_to_equations; lia).
    replace ((Crypto.byteZ a mod 4 * 16 + Crypto.byteZ b / 16) mod 16 * 16 +
             (Crypto.byteZ b mod 16 * 4 + Crypto.byteZ c / 64) / 4)
      with (Crypto.byteZ b) by (Z.div_mod_to_equations; lia).
    replace ((Crypto.byteZ b mod 16 * 4 + Crypto.byteZ c / 64) mod 4 * 64 +
             Crypto.byteZ c mod 64)
      with (Crypto.byteZ c) by (Z.div_mod_to_equations; lia).
    rewrite !Zbyte_byteZ. reflexivity.
Qed.

(** *** JSON text of a string *)

Lemma rev_string_twice (s acc acc' : string) :
  rev_string (rev_string s acc) acc' = rev_string acc (s ++ acc').
Proof.
  revert acc. induction s as [|c s IH]; intros acc; cbn [rev_string append]; [reflexivity|].
  rewrite IH. reflexivity.
Qed.

(** Reading back what [JSON.stringify] wrote for one character. *)
Lemma parse_chars_escape_char (c : ascii) (t acc : string) :
  (Z.of_nat (nat_of_ascii c) <? 128) = true ->
  parse_chars (escape_char c ++ t) acc = parse_chars t (String c acc).
Proof.
  intros Hc.
  destruct c as [[] [] [] [] [] [] [] []]; try discriminate Hc; reflexivity.
Qed.

Lemma parse_chars_escape (s t acc : string) :
  ascii7 s = true ->
  parse_chars (escape s ++ String dquote t) acc =
  Some (rev_string (rev_string s acc) EmptyString, t).
Proof.
  revert acc. induction s as [|c s IH]; intros acc Hs.
  - cbn [escape append parse_chars rev_string]. rewrite Ascii.eqb_refl. reflexivity.
  - cbn [ascii7] in Hs. apply andb_true_iff in Hs. destruct Hs as [Hc Hs].
    cbn [escape]. rewrite append_assoc, (parse_chars_escape_char c _ _ Hc).
    rewrite (IH _ Hs). reflexivity.
Qed.

(** Deciding the comparisons of characters that a parsing step exposes. *)
Ltac decide_chars :=
  repeat match goal with
    | |- context [Ascii.eqb ?a ?b] =>
        let v := eval vm_compute in (Ascii.eqb a b) in
        match v with
        | true => change (Ascii.eqb a b) with true
        | false => change (Ascii.eqb a b) with false
        end
    | |- context [json_ws ?a] =>
        let v := eval vm_compute in (json_ws a) in
        match v with
        | true => change (json_ws a) with true
        | false => change (json_ws a) with false
        end
    end; cbv iota.

Lemma parse_value_string (f : nat) (u rest : string) :
  ascii7 u = true ->
  parse_value (S f) (String dquote (escape u ++ String dquote rest)) = Some (JStr u, rest).
Proof.
  intros Hu. cbn [parse_value skip_ws]. decide_chars.
  rewrite (parse_chars_escape u rest _ Hu), rev_string_twice.
  cbn [rev_string]. rewrite append_empty_r. reflexivity.
Qed.

Lemma parse_members_state (f : nat) (u : string) :
  ascii7 u = true ->
  parse_members (S (S f))
    (String dquote ("user_id" ++ String dquote (String ":"
       (String dquote (escape u ++ String dquote "}"))))) [] =
  Some (state_of u, EmptyString).
Proof.
  intros Hu. cbn [parse_members skip_ws]. decide_chars.
  change ("user_id" ++ String dquote ?r) with (escape "user_id" ++ String dquote r).
  rewrite parse_chars_escape by reflexivity.
  change (rev_string (rev_string "user_id" EmptyString) EmptyString) with "user_id".
  cbn [skip_ws]. decide_chars.
  rewrite (parse_value_string f u "}" Hu).
  cbn [skip_ws]. decide_chars. reflexivity.
Qed.

(** The text of [{ user_id }] parses back to the same object. *)
Lemma JSON_parse_state (u : string) :
  ascii7 u = true -> JSON_parse (stringify (state_of u)) = Some (state_of u).
Proof.
  intros Hu.
  assert (stringify (state_of u) =
          String "{" (String dquote ("user_id" ++ String dquote (String ":"
            (String dquote (escape u ++ String dquote "}")))))) as ->.
  { unfold state_of. cbn [stringify map join fst snd]. unfold quote.
    change (escape "user_id") with "user_id".
    cbn [append]. rewrite !append_assoc. reflexivity. }
  unfold JSON_parse. cbn [String.length].
  cbn [parse_value skip_ws]. decide_chars.
  rewrite (parse_members_state _ u Hu). reflexivity.
Qed.

(** The state made for a user id of ASCII characters decodes to that id. *)
Lemma parse_oauth_state (u : string) :
  ascii7 u = true -> parse_base64 (Some (oauth_state u)) = Ret (state_of u).
Proof.
  intros Hu. unfold parse_base64, oauth_state.
  rewrite base64_roundtrip, Buffer_toString_from.
  change (JObj [("user_id", JStr u)]) with (state_of u).
  rewrite (JSON_parse_state u Hu). reflexivity.
Qed.

(** The vectors of RFC 4648, a text with a line break and left-over digit,
    and the data of the sample notification. *)
Example base64_samples :
  Base64.encode (Crypto.Buffer_from "foobar") = "Zm9vYmFy" /\
  Base64.encode (Crypto.Buffer_from "fooba") = "Zm9vYmE=" /\
  Base64.encode (Crypto.Buffer_from "foob") = "Zm9vYg==" /\
  Buffer_toString (Base64.decode ("Zm9v" ++ String "010" "YmFyZ")) = Some "foobar" /\
  parse_base64 (Some "eyJlbWFpbEFkZHJlc3MiOiJhZGFAeC5jb20iLCJoaXN0b3J5SWQiOjQyfQ==") =
    Ret (JObj [("emailAddress", JStr "ada@x.com"); ("historyId", JNum 42)]) /\
  parse_base64 (Some "bm90IGpzb24=") = Throw "SyntaxError" /\
  form_urlencode "a b&c=d/e" = "a+b%26c%3Dd%2Fe".
Proof. vm_compute. repeat split. Qed.

(** ** Sender names, headers and summaries *)

Lemma find_split_eq (r : string) :
  find_split r =
  if address_tail (trimStart r) then Some O
  else match r with
       | String c t => if is_line_terminator c then None else option_map S (find_split t)
       | EmptyString => None
       end.
Proof. destruct r; reflexivity. Qed.

Lemma trimStart_all_space (sp rest : string) :
  all_space sp = true -> trimStart (sp ++ rest) = trimStart rest.
Proof.
  induction sp as [|c sp IH]; cbn [all_space append]; intros H; [reflexivity|].
  apply andb_true_iff in H. destruct H as [Hc Hsp].
  cbn [trimStart]. rewrite Hc. apply IH, Hsp.
Qed.

Lemma trimStart_spaces_empty (sp : string) :
  all_space sp = true -> trimStart sp = EmptyString.
Proof.
  intros H. rewrite <- (append_empty_r sp). rewrite (trimStart_all_space _ _ H). reflexivity.
Qed.

(** Inside a name that holds no bracket, the address cannot start before
    the name has only white space left. *)
Lemma address_tail_name (t rest : string) :
  lacks "<" t = true -> all_space t = false ->
  address_tail (trimStart (t ++ rest)) = false.
Proof.
  induction t as [|c t IH]; cbn [lacks all_space append]; intros Hl Hs; [discriminate|].
  apply andb_true_iff in Hl. destruct Hl as [Hc Hl].
  cbn [trimStart]. destruct (is_space c); cbn [andb] in Hs.
  - apply IH; assumption.
  - unfold address_tail.
    destruct c as [[] [] [] [] [] [] [] []]; try reflexivity. discriminate Hc.
Qed.

(** The lazy group stops where only white space of the name is left. *)
Lemma find_split_name (t rest : string) :
  lacks "<" t = true -> one_line t = true ->
  address_tail (trimStart rest) = true ->
  exists g sp, t = g ++ sp /\ all_space sp = true /\
               find_split (t ++ rest) = Some (String.length g).
Proof.
  intros Hl Ho Hrest. induction t as [|c t IH].
  - exists EmptyString, EmptyString. repeat split.
    cbn [append]. rewrite find_split_eq, Hrest. reflexivity.
  - destruct (all_space (String c t)) eqn:Hsp.
    + exists EmptyString, (String c t). split; [reflexivity | split; [exact Hsp|]].
      rewrite find_split_eq, (trimStart_all_space _ _ Hsp), Hrest. reflexivity.
    + cbn [lacks] in Hl. apply andb_true_iff in Hl.
      cbn [one_line] in Ho. apply andb_true_iff in Ho. destruct Ho as [Hc Ho].
      apply negb_true_iff in Hc.
      destruct (IH (proj2 Hl) Ho) as (g & sp & Ht & Hs & Hf).
      exists (String c g), sp. repeat split.
      * cbn [append]. rewrite <- Ht. reflexivity.
      * exact Hs.
      * rewrite find_split_eq.
        rewrite (address_tail_name (String c t) rest) by
            (try assumption; cbn [lacks]; apply andb_true_iff; exact Hl).
        cbn [append]. rewrite Hc, Hf. reflexivity.
Qed.

Lemma rev_string_app (a b acc : string) :
  rev_string (a ++ b) acc = rev_string b (rev_string a acc).
Proof.
  revert acc. induction a as [|c a IH]; intros acc; cbn [append rev_string]; [reflexivity|].
  apply IH.
Qed.

Lemma rev_string_acc (s acc : string) :
  rev_string s acc = rev_string s EmptyString ++ acc.
Proof.
  revert acc. induction s as [|c s IH]; intros acc; cbn [rev_string]; [reflexivity|].
  rewrite (IH (String c acc)), (IH (String c EmptyString)), append_assoc. reflexivity.
Qed.

Lemma all_space_app (a b : string) :
  all_space (a ++ b) = all_space a && all_space b.
Proof.
  induction a as [|c a IH]; cbn [append all_space]; [reflexivity|].
  rewrite IH, andb_assoc. reflexivity.
Qed.

Lemma all_space_rev (s : string) :
  all_space s = true -> all_space (rev_string s EmptyString) = true.
Proof.
  induction s as [|c s IH]; cbn [all_space rev_string]; intros H; [reflexivity|].
  apply andb_true_iff in H. destruct H as [Hc Hs].
  rewrite rev_string_acc, all_space_app, (IH Hs). cbn [all_space]. rewrite Hc. reflexivity.
Qed.

Lemma trimEnd_spaces (z sp : string) :
  all_space sp = true -> trimEnd (z ++ sp) = trimEnd z.
Proof.
  intros H. unfold trimEnd. rewrite rev_string_app, (rev_string_acc sp).
  rewrite (trimStart_all_space _ _ (all_space_rev sp H)). reflexivity.
Qed.

(** White space after a text does not change what [trim] leaves. *)
Lemma trim_spaces (y sp : string) :
  all_space sp = true -> trim (y ++ sp) = trim y.
Proof.
  intros H. unfold trim. induction y as [|c y IH].
  - cbn [append]. rewrite (trimStart_spaces_empty sp H). reflexivity.
  - cbn [append trimStart]. destruct (is_space c); [exact IH|].
    change (String c (y ++ sp)) with (String c y ++ sp). apply trimEnd_spaces, H.
Qed.

Lemma remove_quote_spaces (sp : string) :
  all_space sp = true -> remove_all dquote sp = sp.
Proof.
  induction sp as [|c sp IH]; cbn [all_space remove_all]; intros H; [reflexivity|].
  apply andb_true_iff in H. destruct H as [Hc Hs].
  destruct (Ascii.eqb c dquote) eqn:E.
  - apply Ascii.eqb_eq in E. subst c. discriminate Hc.
  - rewrite (IH Hs). reflexivity.
Qed.

Lemma address_tail_bracketed (addr : string) :
  addr <> EmptyString -> one_line addr = true ->
  address_tail (String "<" (addr ++ ">")) = true.
Proof.
  intros Hne Hline. destruct addr as [|ch t]; [contradiction|].
  cbn [one_line] in Hline. apply andb_true_iff in Hline. destruct Hline as [Hc Ht].
  cbn [append address_tail]. rewrite Hc, (dots_then_gt_line t Ht). reflexivity.
Qed.

(** X1: for a From header made of a non-empty display name, optional white
    space and a non-empty address in angle brackets, where the name holds no
    opening angle bracket and neither part a line break, [parseSenderName]
    yields the display name with its quote characters removed and its ends
    trimmed, whether or not the name is quoted. *)
Theorem display_name_extracted (name ws addr : string) :
  name <> EmptyString ->
  lacks "<" name = true -> one_line name = true ->
  all_space ws = true ->
  addr <> EmptyString -> one_line addr = true ->
  parseSenderName (display_header name ws addr) = trim (remove_all dquote name).
Proof.
  intros Hname Hl Ho Hws Hne Hline.
  destruct name as [|ch t]; [contradiction|].
  cbn [lacks] in Hl. apply andb_true_iff in Hl. destruct Hl as [_ Hl].
  cbn [one_line] in Ho. apply andb_true_iff in Ho. destruct Ho as [Hc Ho].
  apply negb_true_iff in Hc.
  unfold parseSenderName, display_header. cbn [append].
  rewrite match_name_before_address, Hc.
  destruct (find_split_name t (ws ++ String "<" (addr ++ ">")) Hl Ho) as (g & sp & Ht & Hs & Hf).
  { rewrite (trimStart_spaces _ _ Hws). apply address_tail_bracketed; assumption. }
  rewrite Hf. cbn [option_map].
  assert (String ch (t ++ ws ++ String "<" (addr ++ ">")) =
          String ch g ++ (sp ++ ws ++ String "<" (addr ++ ">"))) as ->.
  { cbn [append]. rewrite Ht, append_assoc. reflexivity. }
  change (S (String.length g)) with (String.length (String ch g)).
  rewrite substring_prefix.
  assert (String ch t = String ch g ++ sp) as -> by (cbn [append]; rewrite Ht; reflexivity).
  rewrite remove_all_app, (remove_quote_spaces sp Hs), (trim_spaces _ _ Hs). reflexivity.
Qed.

Lemma display_name_extracted_witness :
  parseSenderName (display_header "John Doe  " " " "john@example.com") = "John Doe".
Proof.
  apply (display_name_extracted "John Doe  " " " "john@example.com");
    solve [reflexivity | discriminate].
Defined.

(** *** A header that is only a bracketed address *)

Lemma greedy_at_end (step : mstate -> cont -> option mstate) (fuel p : nat)
      (c : option string) (K : cont) :
  (forall k, step (MState p EmptyString c) k = None) ->
  greedy step fuel (MState p EmptyString c) K = K (MState p EmptyString c).
Proof.
  intros Hstep. destruct fuel as [|f]; cbn [greedy]; [reflexivity|].
  unfold again. rewrite Hstep. reflexivity.
Qed.

(** The greedy [.+] runs to the end of the line and gives back the closing
    bracket. *)
Lemma greedy_dots_backtrack (subject : string) (K : cont) (x : string)
      (fuel p : nat) (c : option string) (r : mstate) :
  one_line x = true -> (String.length x < fuel)%nat ->
  (forall p' c', K (MState p' EmptyString c') = None) ->
  K (MState (p + String.length x) ">" c) = Some r ->
  greedy (run Dot subject) fuel (MState p (x ++ ">") c) K = Some r.
Proof.
  revert fuel p. induction x as [|ch x IH]; intros fuel p Hline Hfuel Hend HK.
  - destruct fuel as [|f]; [cbn in Hfuel; lia|].
    cbn [append greedy]. unfold again. cbn [run]. unfold eat at 1. cbn [rest pos cap].
    change (negb (is_line_terminator ">")) with true. cbv iota.
    assert ((p <? S p)%nat = true) as -> by (apply Nat.ltb_lt; lia).
    rewrite greedy_at_end by reflexivity. rewrite Hend. cbn [orelse].
    cbn [String.length] in HK. rewrite Nat.add_0_r in HK. exact HK.
  - destruct fuel as [|f]; [cbn in Hfuel; lia|].
    cbn [one_line] in Hline. apply andb_true_iff in Hline. destruct Hline as [Hc Hline].
    cbn [append greedy]. unfold again. cbn [run]. unfold eat at 1. cbn [rest pos cap].
    rewrite Hc.
    assert ((p <? S p)%nat = true) as -> by (apply Nat.ltb_lt; lia).
    change (fun (st : mstate) (k : cont) =>
              eat (fun c0 : ascii => negb (is_line_terminator c0)) st k)
      with (run Dot subject).
    rewrite (IH f (S p) Hline); [reflexivity | cbn in Hfuel; lia | exact Hend |].
    cbn [String.length] in HK. rewrite <- HK. f_equal. f_equal. lia.
Qed.

(** X2: a From header that is only a non-empty address in angle brackets,
    without a line break or a further opening bracket, yields the address
    itself. *)
Theorem bracketed_address_extracted (addr : string) :
  addr <> EmptyString -> one_line addr = true -> lacks "<" addr = true ->
  parseSenderName (String "<" (addr ++ ">")) = addr.
Proof.
  intros Hne Hline Hl. unfold parseSenderName.
  rewrite match_name_before_address.
  change (is_line_terminator "<") with false. cbv iota.
  rewrite find_split_lacks.
  2:{ clear Hne Hline. induction addr as [|c t IH]; [reflexivity|].
      cbn [lacks] in Hl. apply andb_true_iff in Hl. destruct Hl as [Hc Hl].
      cbn [append lacks]. rewrite Hc. apply IH, Hl. }
  cbn [option_map].
  destruct addr as [|a x]; [contradiction|].
  cbn [one_line] in Hline. apply andb_true_iff in Hline. destruct Hline as [Ha Hx].
  unfold match_. cbn [exec_from append].
  unfold address_in_brackets at 1. cbn [run]. unfold eat at 1. cbn [rest pos cap].
  change (Ascii.eqb "<" "<") with true. cbv iota.
  unfold eat at 1. cbn [rest pos cap]. rewrite Ha.
  cbn [rest pos].
  change (fun (st : mstate) (k : cont) =>
            eat (fun c : ascii => negb (is_line_terminator c)) st k)
    with (run Dot (String "<" (String a (x ++ ">")))).
  erewrite (greedy_dots_backtrack (String "<" (String a (x ++ ">"))) _ x _ 2 None
              (MState (3 + String.length x) EmptyString (Some (String a x)))).
  - reflexivity.
  - exact Hx.
  - rewrite length_append. cbn [String.length]. lia.
  - intros p' c'. reflexivity.
  - cbn [pos rest]. unfold eat. cbn [rest pos cap].
    change (Ascii.eqb ">" ">") with true. cbv iota.
    replace (2 + String.length x - 1)%nat with (String.length (String a x))
      by (cbn [String.length]; lia).
    change (substring 1 (String.length (String a x)) (String "<" (String a (x ++ ">"))))
      with (substring 0 (String.length (String a x)) (String a x ++ ">")).
    rewrite substring_prefix. reflexivity.
Qed.

Lemma bracketed_address_extracted_witness :
  parseSenderName "<noreply@service.example>" = "noreply@service.example".
Proof.
  apply (bracketed_address_extracted "noreply@service.example");
    solve [reflexivity | discriminate].
Defined.

(** *** Header lookup *)

Lemma getHeader_found (pre post : list (string * string)) (n v name : string) :
  toLowerCase n = toLowerCase name ->
  (forall h, In h pre -> toLowerCase (fst h) <> toLowerCase name) ->
  getHeader (pre ++ (n, v) :: post) name = v.
Proof.
  intros Hn Hpre. unfold getHeader.
  induction pre as [|h pre IH]; cbn [app find fst].
  - rewrite Hn, String.eqb_refl. reflexivity.
  - destruct (String.eqb (toLowerCase (fst h)) (toLowerCase name)) eqn:E.
    + apply String.eqb_eq in E. exfalso. apply (Hpre h); [left; reflexivity | exact E].
    + apply IH. intros h' Hin. apply Hpre. right. exact Hin.
Qed.

Lemma getHeader_missing (headers : list (string * string)) (name : string) :
  (forall h, In h headers -> toLowerCase (fst h) <> toLowerCase name) ->
  getHeader headers name = EmptyString.
Proof.
  intros Hall. unfold getHeader.
  induction headers as [|h headers IH]; cbn [find]; [reflexivity|].
  destruct (String.eqb (toLowerCase (fst h)) (toLowerCase name)) eqn:E.
  - apply String.eqb_eq in E. exfalso. apply (Hall h); [left; reflexivity | exact E].
  - apply IH. intros h' Hin. apply Hall. right. exact Hin.
Qed.

(** X3: [extractEmailHeaders] finds a header whatever the case of its name,
    takes the first of several, and reads a header that is absent as the
    empty string; the handlers then store [(No Subject)] for a message
    without a subject. *)
Theorem headers_found_ignoring_case (pre post : list (string * string))
        (n v : string) (labels : list string) :
  toLowerCase n = "subject" ->
  (forall h, In h pre -> toLowerCase (fst h) <> "subject") ->
  subject (extractEmailHeaders {| payload_headers := pre ++ (n, v) :: post;
                                  labelIds := labels |}) = v /\
  subject (extractEmailHeaders {| payload_headers := pre; labelIds := labels |}) =
    EmptyString /\
  or_else (subject (extractEmailHeaders {| payload_headers := pre; labelIds := labels |}))
          "(No Subject)" = "(No Subject)".
Proof.
  intros Hn Hpre. unfold extractEmailHeaders. cbn [subject payload_headers].
  rewrite (getHeader_found pre post n v "Subject" Hn Hpre).
  rewrite (getHeader_missing pre "Subject" Hpre). repeat split.
Qed.

Lemma headers_found_ignoring_case_witness :
  subject (extractEmailHeaders
             {| payload_headers := [("From", "Bob <bob@co.com>"); ("SUBJECT", "Q3 report");
                                    ("Subject", "second")];
                labelIds := ["INBOX"] |}) = "Q3 report" /\
  subject (extractEmailHeaders
             {| payload_headers := [("From", "Bob <bob@co.com>")];
                labelIds := ["INBOX"] |}) = EmptyString.
Proof.
  pose proof (headers_found_ignoring_case
                [("From", "Bob <bob@co.com>")] [("Subject", "second")]
                "SUBJECT" "Q3 report" ["INBOX"]) as H.
  destruct H as (H1 & H2 & _).
  - reflexivity.
  - intros h [<-|[]]. discriminate.
  - split; [exact H1 | exact H2].
Defined.

(** *** Summaries *)

Lemma substring_length (n : nat) (s : string) :
  (n <= String.length s)%nat -> String.length (substring 0 n s) = n.
Proof.
  revert s. induction n as [|n IH]; intros s H.
  - destruct s; reflexivity.
  - destruct s as [|c s]; cbn [String.length] in H; [lia|].
    cbn [substring String.length]. rewrite IH by lia. reflexivity.
Qed.

(** X4: the summary of a Slack message whose text is a string is that
    text when it has at most 100 characters, and otherwise its first 100
    characters followed by three dots: never more than 103 characters. *)
Theorem summary_truncated (s : string) :
  exists t,
    summarize (JStr s) = Ret (JStr t) /\
    (String.length t <= 103)%nat /\
    t = (if (100 <? String.length s)%nat then substring 0 100 s ++ "..." else s) /\
    substring 0 100 t = substring 0 100 s.
Proof.
  unfold summarize. destruct (100 <? String.length s)%nat eqn:E.
  - apply Nat.ltb_lt in E. eexists. split; [reflexivity|]. split; [|split; [reflexivity|]].
    + rewrite length_append, substring_length by lia. cbn. lia.
    + rewrite <- (substring_length 100 s) at 1 by lia. apply substring_prefix.
  - apply Nat.ltb_ge in E. exists s. repeat split. lia.
Qed.

(** ** More about the Slack webhook *)

(** X5: [verifySlackSignature] accepts exactly the following requests.
    With a signing secret configured: those whose timestamp passes the
    freshness test and whose signature header is, character for character,
    [v0=] followed by the HMAC of the timestamp and the re-serialised body.
    The freshness test has no upper bound: a timestamp in the future
    passes.  Without a secret, or with an empty one: every request. *)
Theorem signature_acceptance (req : SlackRequest) (w : World) :
  (forall secret,
      configured w secret ->
      (verifySlackSignature req w = (Ret true, w) <->
       stale req w = false /\
       x_slack_signature req =
         Some (slack_signature secret (x_slack_request_timestamp req)
                               (stringify (body req))))) /\
  (SLACK_SIGNING_SECRET w = None \/ SLACK_SIGNING_SECRET w = Some EmptyString ->
   verifySlackSignature req w = (Ret true, w)).
Proof.
  split.
  - intros secret Hc. split.
    + rewrite (verify_configured req w secret Hc). fold (stale req w).
      destruct (stale req w); [discriminate|]. intros H. split; [reflexivity|].
      destruct (x_slack_signature req) as [sig|]; [|discriminate].
      rewrite timingSafeEqual_spec in H.
      destruct (_ =? _)%nat; [|discriminate].
      destruct (list_eq_dec Byte.byte_eq_dec _ _) as [E|]; [|discriminate].
      apply Buffer_from_inj in E. rewrite E. reflexivity.
    + intros [Hf Hs]. apply (valid_signature_accepted req w secret Hc Hf Hs).
  - intros [H|H]; unfold verifySlackSignature; rewrite H; reflexivity.
Qed.

Lemma signature_acceptance_witness :
  verifySlackSignature postdated_request (Sample.world (Some Sample.secret) Sample.clock) =
    (Ret true, Sample.world (Some Sample.secret) Sample.clock) /\
  verifySlackSignature plain_dm (Sample.world None Sample.clock) =
    (Ret true, Sample.world None Sample.clock).
Proof.
  assert (configured (Sample.world (Some Sample.secret) Sample.clock) Sample.secret) as Hc
      by (split; [reflexivity | discriminate]).
  split.
  - apply (proj2 (proj1 (signature_acceptance postdated_request _) _ Hc)).
    split; reflexivity.
  - apply (proj2 (signature_acceptance plain_dm (Sample.world None Sample.clock))).
    left. reflexivity.
Defined.

(** *** The lookups on the token tables *)

Lemma select_single_spec (table : string) (rows : World -> list row)
      (name : string) (v : value) (w : World) :
  select_single table rows name v w =
  (Ret (if fst (next_fault w) then None
        else match matching [(name, String_ v)] (rows w) with
             | [r] => Some r
             | _ => None
             end),
   with_store w (pending_actions w) (snd (next_fault w))
              (Select table [(name, String_ v)] :: calls w)).
Proof.
  unfold select_single. destruct (next_fault w) as [f fs]. cbn [fst snd].
  destruct f; [reflexivity|].
  destruct (matching _ (rows w)) as [|r [|r' l]]; reflexivity.
Qed.

Lemma lookup_sender_spec (bot_token slackUserId : value) (w : World) :
  MultiUser.lookup_sender bot_token slackUserId w =
  (Ret (profile_name (slack_users_info w bot_token slackUserId) slackUserId), w).
Proof.
  unfold MultiUser.lookup_sender, try_catch, bind, lift, profile_name.
  destruct (slack_users_info w bot_token slackUserId) as [userData|e]; [|reflexivity].
  destruct (truthy (get (Some userData) "ok")); reflexivity.
Qed.

Lemma value_or_dm_text (event : value) :
  value_or (get event "text") (Some (JStr "(No message text)")) = Some (dm_text event).
Proof.
  unfold dm_text, value_or.
  destruct (get event "text") as [j|]; [|reflexivity].
  destruct (truthy (Some j)); reflexivity.
Qed.

(** The [try] block of the multi-user handler for a workspace without
    exactly one credential row, or when the lookup fails. *)
Lemma process_dm_unknown (b : json) (event : value) (w : World) :
  (fst (next_fault w) = true \/
   forall t, matching [("team_id", String_ (get (Some b) "team_id"))]
                      (user_slack_tokens w) <> [t]) ->
  MultiUser.process_dm b event w =
  (Ret (Some (Response 200 (Text "OK"))),
   with_store w (pending_actions w) (snd (next_fault w))
     (Select "user_slack_tokens" [("team_id", String_ (get (Some b) "team_id"))] :: calls w)).
Proof.
  intros H. unfold MultiUser.process_dm. unfold bind at 1.
  rewrite select_single_spec.
  destruct H as [H|H].
  - rewrite H. reflexivity.
  - destruct (fst (next_fault w)); [reflexivity|].
    destruct (matching _ (user_slack_tokens w)) as [|r [|r' l]]; try reflexivity.
    exfalso. apply (H r). reflexivity.
Qed.

(** X6: a direct message that passes the signature check and comes from a
    workspace that has no credential row, or more than one (two users have
    connected the same workspace), is acknowledged with 200 and nothing is
    stored. *)
Theorem unattributable_message_dropped (req : SlackRequest) (w : World) :
  not_handshake req ->
  verifySlackSignature req w = (Ret true, w) ->
  is_direct_message (event_of req) = true ->
  (forall t, matching [("team_id", team_of req)] (user_slack_tokens w) <> [t]) ->
  fst (MultiUser.slack_webhook req w) = Ret (Response 200 (Text "OK")) /\
  pending_actions (snd (MultiUser.slack_webhook req w)) = pending_actions w.
Proof.
  intros Hh Hv Hdm Hrows.
  enough (exists w', MultiUser.slack_webhook req w = (Ret (Response 200 (Text "OK")), w') /\
                     pending_actions w' = pending_actions w) as (w' & -> & Hp)
      by (split; [reflexivity | exact Hp]).
  unfold MultiUser.slack_webhook.
  unfold not_handshake in Hh. rewrite Hh. unfold bind at 1. rewrite Hv.
  change (negb true) with false. cbv iota.
  unfold event_of in Hdm. rewrite Hdm.
  destruct (bot_or_edit _); [exists w; split; reflexivity|].
  unfold bind, try_catch.
  rewrite (process_dm_unknown (body req) _ w (or_intror Hrows)).
  eexists. split; reflexivity.
Qed.

Lemma unattributable_message_dropped_witness :
  List.length (user_slack_tokens shared_workspace) = 2%nat /\
  fst (MultiUser.slack_webhook plain_dm shared_workspace) = Ret (Response 200 (Text "OK")) /\
  pending_actions (snd (MultiUser.slack_webhook plain_dm shared_workspace)) = [].
Proof.
  split; [reflexivity|].
  apply (unattributable_message_dropped plain_dm shared_workspace).
  - reflexivity.
  - reflexivity.
  - reflexivity.
  - intros t H. vm_compute in H. discriminate H.
Defined.

(** X7: a direct message that passes the signature check, is not from a
    bot, carries its identifiers (workspace, channel, timestamp, author)
    and its text as strings, and comes from a workspace with exactly one
    credential row, whose bot token is a string, is acknowledged with 200;
    when the storage answers and the sender name settled on is a string,
    the table gains exactly one row, holding the owner of the workspace,
    the link to the message and the sender (the profile name, or the raw
    user id when the profile lookup fails), unless a row with the same link
    is already stored. *)
Theorem direct_message_stored (req : SlackRequest) (w : World) (t : row)
        (text : string) (s : json) :
  not_handshake req ->
  verifySlackSignature req w = (Ret true, w) ->
  is_direct_message (event_of req) = true ->
  bot_or_edit (event_of req) = false ->
  textual_ids req ->
  dm_text (event_of req) = JStr text ->
  faults w = [] ->
  matching [("team_id", team_of req)] (user_slack_tokens w) = [t] ->
  textual (field t "bot_token") ->
  textual (MultiUser.sender (dm_message req t w s)) ->
  summarize (JStr text) = Ret s ->
  fst (MultiUser.slack_webhook req w) = Ret (Response 200 (Text "OK")) /\
  pending_actions (snd (MultiUser.slack_webhook req w)) =
    if recorded "message_link" "platform_tag"
                (MultiUser.url (dm_message req t w s)) "slack" w
    then pending_actions w
    else (pending_actions w ++ [MultiUser.new_row (dm_message req t w s)])%list.
Proof.
  intros Hh Hv Hdm Hbot _ Htext Hq Hrow _ _ Hsum. rewrite <- Htext in Hsum.
  enough (exists w', MultiUser.slack_webhook req w = (Ret (Response 200 (Text "OK")), w') /\
                     pending_actions w' =
                     if recorded "message_link" "platform_tag"
                                 (MultiUser.url (dm_message req t w s)) "slack" w
                     then pending_actions w
                     else (pending_actions w ++ [MultiUser.new_row (dm_message req t w s)])%list)
    as (w' & -> & Hp) by (split; [reflexivity | exact Hp]).
  unfold MultiUser.slack_webhook.
  unfold not_handshake in Hh. rewrite Hh. unfold bind at 1. rewrite Hv.
  change (negb true) with false. cbv iota.
  unfold event_of in Hdm, Hbot. rewrite Hdm, Hbot.
  unfold bind at 1. unfold try_catch.
  unfold MultiUser.process_dm. unfold bind at 1.
  rewrite select_single_spec, (quiet_next_fault w Hq). cbn [fst snd].
  unfold team_of in Hrow. rewrite Hrow.
  unfold bind at 1. rewrite lookup_sender_spec.
  unfold bind at 1. unfold lift at 1.
  rewrite value_or_dm_text. fold (event_of req). rewrite Hsum.
  unfold bind at 1.
  set (w1 := with_store w (pending_actions w) [] _).
  change (slack_users_info w1) with (slack_users_info w).
  change (MultiUser.saveToSupabase _ w1)
    with (MultiUser.saveToSupabase (dm_message req t w s) w1).
  pose proof (multi_save_spec (dm_message req t w s) w1
                (multi_createSlackLink_nonempty _ _ _)) as Hs.
  cbv zeta in Hs. rewrite Hs. clear Hs.
  assert (next_fault w1 = (false, [])) as Hn1 by reflexivity.
  rewrite Hn1. cbn [fst snd negb andb].
  change (recorded "message_link" "platform_tag" (MultiUser.url (dm_message req t w s))
                   (MultiUser.platform (dm_message req t w s)) w1)
    with (recorded "message_link" "platform_tag" (MultiUser.url (dm_message req t w s))
                   "slack" w).
  destruct (recorded _ _ _ _ w); eexists; split; reflexivity.
Qed.

Lemma direct_message_stored_witness :
  fst (MultiUser.slack_webhook plain_dm (Sample.slack_world Sample.offline [])) =
    Ret (Response 200 (Text "OK")) /\
  pending_actions (snd (MultiUser.slack_webhook plain_dm (Sample.slack_world Sample.offline []))) =
    [[("task_text", JStr "U1: hello"); ("platform_tag", JStr "slack");
      ("sender_name", JStr "U1");
      ("message_link",
       JStr "https://slack.com/app_redirect?team=T1&channel=D1&message_ts=1700000000.000100");
      ("user_id", JStr "u-1")]].
Proof.
  apply (direct_message_stored plain_dm (Sample.slack_world Sample.offline [])
           [("user_id", JStr "u-1"); ("team_id", JStr "T1"); ("team_name", JStr "Acme");
            ("bot_token", JStr "xoxb-1")] "hello" (JStr "hello"));
    try reflexivity; try (eexists; reflexivity).
  repeat split; eexists; reflexivity.
Defined.

(** ** The OAuth routes *)

Lemma matching_one (c v : string) (rows : list row) :
  matching [(c, v)] rows = filter (eq_filter c v) rows.
Proof.
  unfold matching. apply filter_ext. intros r. cbn [forallb fst snd]. apply andb_true_r.
Qed.

Lemma assoc_app {A} (k : string) (a b : list (string * A)) :
  assoc k (a ++ b) = match assoc k a with
                     | Some v => Some v
                     | None => assoc k b
                     end.
Proof.
  induction a as [|[k' v] a IH]; cbn [app assoc]; [reflexivity|].
  destruct (String.eqb k k'); [reflexivity | exact IH].
Qed.

(** The updated row holds the columns of the new one. *)
Lemma assoc_merge (r old : row) (c : string) (j : json) :
  assoc c r = Some j -> assoc c (merge r old) = Some j.
Proof. intros H. unfold merge. rewrite assoc_app, H. reflexivity. Qed.

Lemma column_merge (r old : row) (c v : string) :
  column r c = Some v -> column (merge r old) c = Some v.
Proof.
  unfold column. destruct (assoc c r) as [j|] eqn:E; [|discriminate].
  rewrite (assoc_merge r old c j E). trivial.
Qed.

Lemma conflicts_one (col e : string) (r old : row) :
  column r col = Some e -> conflicts [col] r old = eq_filter col e old.
Proof.
  intros H. unfold conflicts, eq_filter. cbn [forallb]. rewrite H, andb_true_r.
  destruct (column old col); [apply String.eqb_sym | reflexivity].
Qed.

Lemma one_per_tail (col : string) (old : row) (rest : list row) :
  one_per col (old :: rest) -> one_per col rest.
Proof.
  intros H v. specialize (H v). rewrite matching_one in *. cbn [filter] in H.
  destruct (eq_filter col v old); cbn [List.length] in H; lia.
Qed.

(** An upsert on a table with one row per value of the conflict column:
    afterwards exactly one row holds the value of the new row, with the
    columns of the new row, and the rows of other values are as before. *)
Lemma upsert_one_key (col e : string) (r : row) (rows : list row) :
  column r col = Some e ->
  one_per col rows ->
  (exists r', matching [(col, e)] (upsert_rows [col] r rows) = [r'] /\
              forall c j, assoc c r = Some j -> assoc c r' = Some j) /\
  (forall e', e' <> e ->
              matching [(col, e')] (upsert_rows [col] r rows) = matching [(col, e')] rows).
Proof.
  intros Hr. induction rows as [|old rest IH]; intros Hone.
  - cbn [upsert_rows]. split.
    + exists r. rewrite matching_one. cbn [filter]. unfold eq_filter at 1.
      rewrite Hr, String.eqb_refl. split; [reflexivity | trivial].
    + intros e' Hne. rewrite !matching_one. cbn [filter]. unfold eq_filter.
      rewrite Hr. apply String.eqb_neq in Hne. rewrite String.eqb_sym, Hne. reflexivity.
  - cbn [upsert_rows]. rewrite (conflicts_one col e r old Hr).
    destruct (eq_filter col e old) eqn:Hold.
    + split.
      * exists (merge r old). split; [|intros c j; apply assoc_merge].
        pose proof (Hone e) as H1. rewrite matching_one in *. cbn [filter] in *.
        rewrite Hold in H1. unfold eq_filter at 1.
        rewrite (column_merge r old col e Hr), String.eqb_refl.
        destruct (filter (eq_filter col e) rest); [reflexivity | cbn in H1; lia].
      * intros e' Hne. rewrite !matching_one. cbn [filter].
        assert (eq_filter col e' (merge r old) = false) as ->.
        { unfold eq_filter. rewrite (column_merge r old col e Hr).
          apply String.eqb_neq. congruence. }
        assert (eq_filter col e' old = false) as ->; [|reflexivity].
        unfold eq_filter in *. destruct (column old col) as [b|]; [|reflexivity].
        apply String.eqb_eq in Hold. subst b. apply String.eqb_neq. congruence.
    + destruct (IH (one_per_tail _ _ _ Hone)) as [(r' & Hm & Hcols) Hothers]. split.
      * exists r'. split; [|exact Hcols].
        rewrite matching_one in *. cbn [filter]. rewrite Hold. exact Hm.
      * intros e' Hne. specialize (Hothers e' Hne).
        rewrite !matching_one in *. cbn [filter]. rewrite Hothers. reflexivity.
Qed.

Lemma upsert_keeps_one_per (col e : string) (r : row) (rows : list row) :
  column r col = Some e ->
  one_per col rows -> one_per col (upsert_rows [col] r rows).
Proof.
  intros Hr Hone v.
  destruct (upsert_one_key col e r rows Hr Hone) as [(r' & Hm & _) Hothers].
  destruct (String.eqb v e) eqn:E.
  - apply String.eqb_eq in E. subst v. rewrite Hm. cbn. lia.
  - apply String.eqb_neq in E. rewrite (Hothers v E). apply Hone.
Qed.

(** X8: connecting a mailbox binds it to the user who started the flow.
    When the [state] is the one [/auth/google] made for a user id of ASCII
    characters, Google answers with a refresh token and the profile with an
    address, and the storage accepts the upsert, the callback answers 200
    and the token table holds exactly one row for that address, carrying
    that user and that token (a row another user had for the address is
    overwritten); rows of other addresses and the pending actions are
    untouched, and the lookup of the Gmail webhook finds the new row. *)
Theorem mailbox_bound_to_user (d : Deployment) (w : World) (code : option string)
        (u rt email : string) :
  ascii7 u = true ->
  getToken d code = Ret (Some (JStr rt)) ->
  getProfile d (Some (JStr rt)) = Ret (Some (JStr email)) ->
  lookup_succeeds w ->
  one_per "email_address" (user_gmail_tokens w) ->
  exists w' r,
    MultiUserRoutes.auth_google_callback d code (Some (oauth_state u)) w =
      (Ret (Page 200 "Gmail Connected!" ("Connected: " ++ email)), w') /\
    matching [("email_address", email)] (user_gmail_tokens w') = [r] /\
    field r "user_id" = Some (JStr u) /\
    field r "refresh_token" = Some (JStr rt) /\
    one_per "email_address" (user_gmail_tokens w') /\
    (forall e', e' <> email ->
                matching [("email_address", e')] (user_gmail_tokens w') =
                matching [("email_address", e')] (user_gmail_tokens w)) /\
    pending_actions w' = pending_actions w /\
    (lookup_succeeds w' ->
     fst (select_single "user_gmail_tokens" user_gmail_tokens "email_address"
                        (Some (JStr email)) w') = Ret (Some r)).
Proof.
  intros Hu Htok Hprof Hok Hone.
  set (r0 := object [("user_id", Some (JStr u)); ("email_address", Some (JStr email));
                     ("refresh_token", Some (JStr rt))]).
  assert (column r0 "email_address" = Some email) as Hcol by reflexivity.
  destruct (upsert_one_key "email_address" email r0 (user_gmail_tokens w) Hcol Hone)
    as [(r & Hm & Hcols) Hothers].
  exists (with_tokens w (upsert_rows ["email_address"] r0 (user_gmail_tokens w))
                      (user_slack_tokens w) (snd (next_fault w))), r.
  split.
  { unfold MultiUserRoutes.auth_google_callback, try_catch, bind, lift.
    rewrite (parse_oauth_state u Hu). unfold state_of. cbv iota.
    rewrite Htok, Hprof. cbn [get assoc String.eqb Ascii.eqb Bool.eqb].
    fold r0. unfold upsert_gmail_token. unfold lookup_succeeds in Hok.
    destruct (next_fault w) as [f fs]. cbn [fst snd] in *. subst f. reflexivity. }
  cbn [user_gmail_tokens pending_actions with_tokens].
  split; [exact Hm|].
  split; [unfold field; rewrite (Hcols "user_id" (JStr u) eq_refl); reflexivity|].
  split; [unfold field; rewrite (Hcols "refresh_token" (JStr rt) eq_refl); reflexivity|].
  split; [apply (upsert_keeps_one_per _ email); assumption|].
  split; [exact Hothers|].
  split; [reflexivity|].
  intros Hok'. rewrite select_single_spec. unfold lookup_succeeds in Hok'. rewrite Hok'.
  cbn [fst user_gmail_tokens with_tokens String_ to_string]. rewrite Hm. reflexivity.
Qed.

Lemma mailbox_bound_to_user_witness :
  user_gmail_tokens (Sample.gmail_world []) =
    [[("user_id", JStr "u-1"); ("email_address", JStr "ada@x.com");
      ("refresh_token", JStr "rt-1")]] /\
  exists w' r,
    MultiUserRoutes.auth_google_callback acme (Some "4/0Ab") (Some (oauth_state "u-2"))
      (Sample.gmail_world []) =
      (Ret (Page 200 "Gmail Connected!" "Connected: ada@x.com"), w') /\
    matching [("email_address", "ada@x.com")] (user_gmail_tokens w') = [r] /\
    field r "user_id" = Some (JStr "u-2") /\
    field r "refresh_token" = Some (JStr "rt-2").
Proof.
  split; [reflexivity|].
  destruct (mailbox_bound_to_user acme (Sample.gmail_world []) (Some "4/0Ab")
              "u-2" "rt-2" "ada@x.com") as (w' & r & H1 & H2 & H3 & H4 & _).
  - reflexivity.
  - reflexivity.
  - reflexivity.
  - reflexivity.
  - intros v. rewrite matching_one. cbn [Sample.gmail_world user_gmail_tokens filter].
    destruct (eq_filter _ _ _); cbn; lia.
  - exists w', r. repeat split; assumption.
Defined.

(** *** Failed connections *)

Ltac settle_callback :=
  repeat (cbv beta iota;
          match goal with
          | |- context [match ?x with _ => _ end] =>
              first [ is_var x; destruct x
                    | match x with
                      | ?f _ => is_var f; destruct x
                      | get _ _ => destruct x
                      | negb _ => destruct x
                      | next_fault _ => destruct x
                      end ]
          end);
  do 2 eexists; (split; [reflexivity|]);
  cbn [reply_status pending_actions user_gmail_tokens user_slack_tokens with_tokens];
  intuition (try discriminate; try reflexivity).

(** X9: the OAuth callbacks always answer, with 200 or 500, whatever the
    query parameters, the providers and the storage do; they never touch
    the pending actions, and a callback that answers 500 leaves both token
    tables as they were. *)
Theorem oauth_callbacks_answer (d : Deployment) (code state : option string) (w : World) :
  (exists r w',
      MultiUserRoutes.auth_google_callback d code state w = (Ret r, w') /\
      (reply_status r = 200 \/ reply_status r = 500) /\
      pending_actions w' = pending_actions w /\
      user_slack_tokens w' = user_slack_tokens w /\
      (reply_status r = 500 -> user_gmail_tokens w' = user_gmail_tokens w)) /\
  (exists r w',
      MultiUserRoutes.auth_slack_callback d code state w = (Ret r, w') /\
      (reply_status r = 200 \/ reply_status r = 500) /\
      pending_actions w' = pending_actions w /\
      user_gmail_tokens w' = user_gmail_tokens w /\
      (reply_status r = 500 -> user_slack_tokens w' = user_slack_tokens w)).
Proof.
  split.
  - unfold MultiUserRoutes.auth_google_callback, try_catch, bind, lift, throw, ret,
      upsert_gmail_token.
    generalize (parse_base64 state), (getToken d code), (getProfile d), (next_fault w).
    intros decoded token profile fault. settle_callback.
  - unfold MultiUserRoutes.auth_slack_callback, try_catch, bind, lift, throw, ret,
      upsert_slack_token.
    generalize (parse_base64 state), (oauth_v2_access d code), (next_fault w).
    intros decoded access fault. settle_callback.
Qed.

(** X10: the two codecs behind the [state] parameter are exact: decoding
    the base64 text of any bytes gives the bytes back, and decoding the
    UTF-8 bytes of any string gives the string back. *)
Theorem buffer_codecs_roundtrip :
  (forall bs, Base64.decode (Base64.encode bs) = bs) /\
  (forall s, Buffer_toString (Crypto.Buffer_from s) = Some s).
Proof.
  split; [exact base64_roundtrip | exact Buffer_toString_from].
Qed.

Lemma form_urlencode_state : form_urlencode "state" = "state".
Proof. reflexivity. Qed.

(** X11: the OAuth start routes refuse a missing or empty [user_id] with
    400; for a user id of ASCII characters they redirect to the provider
    with a [state] from which the callbacks read the same user id back. *)
Theorem oauth_state_recovered (d : Deployment) (u : string) :
  ascii7 u = true -> u <> EmptyString ->
  MultiUserRoutes.auth_google d (Some u) = Redirect (generateAuthUrl d (oauth_state u)) /\
  (exists prefix,
      MultiUserRoutes.auth_slack d (Some u) =
      Redirect (prefix ++ "&state=" ++ form_urlencode (oauth_state u))) /\
  parse_base64 (Some (oauth_state u)) = Ret (JObj [("user_id", JStr u)]) /\
  reply_status (MultiUserRoutes.auth_google d None) = 400 /\
  reply_status (MultiUserRoutes.auth_google d (Some EmptyString)) = 400 /\
  reply_status (MultiUserRoutes.auth_slack d None) = 400 /\
  reply_status (MultiUserRoutes.auth_slack d (Some EmptyString)) = 400.
Proof.
  intros Hu Hne. destruct u as [|c u]; [contradiction|].
  split; [reflexivity|].
  split.
  - unfold MultiUserRoutes.auth_slack, MultiUserRoutes.slackAuthUrl, URLSearchParams.
    cbn [map join fst snd]. rewrite form_urlencode_state.
    exists ("https://slack.com/oauth/v2/authorize?" ++
            form_urlencode "client_id" ++ "=" ++
            form_urlencode (String_ (option_map JStr (SLACK_CLIENT_ID d))) ++ "&" ++
            form_urlencode "scope" ++ "=" ++
            form_urlencode "channels:read,im:history,im:read,users:read" ++ "&" ++
            form_urlencode "redirect_uri" ++ "=" ++
            form_urlencode (MultiUserRoutes.redirectUri d)).
    rewrite !append_assoc. reflexivity.
  - split; [apply (parse_oauth_state _ Hu)|]. repeat split.
Qed.

Lemma oauth_state_recovered_witness :
  oauth_state "u-1" = "eyJ1c2VyX2lkIjoidS0xIn0=" /\
  parse_base64 (Some "eyJ1c2VyX2lkIjoidS0xIn0=") = Ret (JObj [("user_id", JStr "u-1")]) /\
  MultiUserRoutes.auth_slack acme (Some "u-1") =
    Redirect ("https://slack.com/oauth/v2/authorize?client_id=1234.5678" ++
              "&scope=channels%3Aread%2Cim%3Ahistory%2Cim%3Aread%2Cusers%3Aread" ++
              "&redirect_uri=http%3A%2F%2Flocalhost%3A3000%2Fauth%2Fslack%2Fcallback" ++
              "&state=eyJ1c2VyX2lkIjoidS0xIn0%3D").
Proof.
  split; [reflexivity|].
  split; [|reflexivity].
  apply (oauth_state_recovered acme "u-1"); [reflexivity | discriminate].
Defined.

(** ** Batches of Gmail messages *)

Lemma with_store_self (w : World) :
  with_store w (pending_actions w) (faults w) (calls w) = w.
Proof. destruct w; reflexivity. Qed.

Lemma recorded_linked (link platform : string) (w : World) :
  recorded "message_link" "platform_tag" link platform w =
  linked link platform (pending_actions w).
Proof. reflexivity. Qed.

(** [saveToSupabase] of the multi-user server when the storage answers. *)
Lemma multi_save_answered (m : MultiUser.Message) (w : World) (rows : list row)
      (cs : list call) :
  MultiUser.url m <> EmptyString ->
  exists cs',
    MultiUser.saveToSupabase m (with_store w rows [] cs) =
    if linked (MultiUser.url m) (MultiUser.platform m) rows
    then (Ret (Skipped "duplicate"), with_store w rows [] cs')
    else (Ret (Saved [MultiUser.new_row m]),
          with_store w (rows ++ [MultiUser.new_row m])%list [] cs').
Proof.
  intros Hne. pose proof (multi_save_spec m (with_store w rows [] cs) Hne) as Hs.
  cbv zeta in Hs. rewrite Hs. clear Hs.
  change (next_fault (with_store w rows [] cs)) with (false, @nil bool).
  cbn [fst snd negb andb]. rewrite recorded_linked.
  change (pending_actions (with_store w rows [] cs)) with rows.
  destruct (linked _ _ rows); eexists; reflexivity.
Qed.

Lemma process_messages_cons (u tok : value) (id : string) (rest : list string)
      (n : nat) (w : World) (m : GmailMessage) :
  gmail_messages_get w tok id = Ret m ->
  MultiUser.process_messages u tok (id :: rest) n w =
  if negb (kept m) then MultiUser.process_messages u tok rest n w
  else bind (MultiUser.saveToSupabase (email_message u id m))
            (fun result => MultiUser.process_messages u tok rest
                             (match result with Skipped _ => n | Saved _ => S n end)) w.
Proof.
  intros H. cbn [MultiUser.process_messages]. unfold bind at 1, lift. rewrite H.
  unfold kept. destruct (MultiUser.shouldIncludeEmail _ _); reflexivity.
Qed.

Lemma ingest_cons (u : value) (rows : list row) (im : string * GmailMessage)
      (batch : list (string * GmailMessage)) :
  ingest u rows (im :: batch) = ingest u (ingest_one u rows im) batch.
Proof. reflexivity. Qed.

(** The loop of the Gmail webhook is the fold [ingest] when the storage
    answers and Gmail returns each listed message; the counter grows by the
    number of rows added. *)
Lemma process_messages_ingest (w : World) (u tok : value)
      (batch : list (string * GmailMessage)) :
  Forall (fun im => gmail_messages_get w tok (fst im) = Ret (snd im)) batch ->
  forall (n : nat) (rows : list row) (cs : list call),
  exists r cs',
    MultiUser.process_messages u tok (map fst batch) n (with_store w rows [] cs) =
      (Ret r, with_store w (ingest u rows batch) [] cs') /\
    (r + List.length rows = n + List.length (ingest u rows batch))%nat.
Proof.
  induction 1 as [|[id m] batch Hget _ IH]; intros n rows cs.
  - exists n, cs. split; reflexivity.
  - cbn [map fst snd] in *. rewrite (process_messages_cons u tok id _ n (with_store w rows [] cs) m Hget).
    rewrite ingest_cons. unfold ingest_one. cbn [fst snd].
    destruct (kept m); cbn [negb andb]; [|apply IH].
    unfold bind.
    destruct (multi_save_answered (email_message u id m) w rows cs
                (createGmailLink_nonempty id)) as [cs1 Hs].
    rewrite Hs. clear Hs.
    change (MultiUser.url (email_message u id m)) with (createGmailLink id).
    change (MultiUser.platform (email_message u id m)) with "gmail".
    destruct (linked (createGmailLink id) "gmail" rows); cbn [negb].
    + apply IH.
    + destruct (IH (S n) (rows ++ [MultiUser.new_row (email_message u id m)])%list cs1)
        as (r & cs' & Hrun & Hcount).
      exists r, cs'. split; [exact Hrun|].
      rewrite length_app in Hcount. cbn [List.length] in Hcount. lia.
Qed.

(** *** A batch delivered again *)

Lemma linked_app (link platform : string) (a b : list row) :
  linked link platform (a ++ b) = linked link platform a || linked link platform b.
Proof. unfold linked. apply existsb_app. Qed.

Lemma linked_new_row (m : MultiUser.Message) :
  linked (MultiUser.url m) (MultiUser.platform m) [MultiUser.new_row m] = true.
Proof.
  destruct (multi_new_row_key m) as [Hk Hp].
  unfold linked, eq_filter. cbn [existsb]. rewrite Hk, Hp, !String.eqb_refl. reflexivity.
Qed.

Lemma ingest_one_keeps (u : value) (rows : list row) (im : string * GmailMessage)
      (link platform : string) :
  linked link platform rows = true -> linked link platform (ingest_one u rows im) = true.
Proof.
  intros H. unfold ingest_one. destruct (_ && _); [|exact H].
  rewrite linked_app, H. reflexivity.
Qed.

Lemma ingest_keeps (u : value) (batch : list (string * GmailMessage)) (rows : list row)
      (link platform : string) :
  linked link platform rows = true -> linked link platform (ingest u rows batch) = true.
Proof.
  revert rows. induction batch as [|im batch IH]; intros rows H; [exact H|].
  rewrite ingest_cons. apply IH, ingest_one_keeps, H.
Qed.

(** After a batch, every message that passes the filter has its link stored. *)
Lemma ingest_links (u : value) (batch : list (string * GmailMessage)) (rows : list row) :
  Forall (fun im => kept (snd im) = true ->
                    linked (createGmailLink (fst im)) "gmail" (ingest u rows batch) = true)
         batch.
Proof.
  revert rows. induction batch as [|im batch IH]; intros rows; constructor.
  - intros Hk. rewrite ingest_cons. apply ingest_keeps. unfold ingest_one. rewrite Hk.
    destruct (linked (createGmailLink (fst im)) "gmail" rows) eqn:E; cbn [negb andb].
    + exact E.
    + rewrite linked_app.
      change (linked (createGmailLink (fst im)) "gmail"
                     [MultiUser.new_row (email_message u (fst im) (snd im))])
        with (linked (MultiUser.url (email_message u (fst im) (snd im)))
                     (MultiUser.platform (email_message u (fst im) (snd im)))
                     [MultiUser.new_row (email_message u (fst im) (snd im))]).
      rewrite linked_new_row. apply orb_true_r.
  - rewrite ingest_cons. apply IH.
Qed.

Lemma ingest_settled (u : value) (batch : list (string * GmailMessage)) (rows : list row) :
  Forall (fun im => kept (snd im) = true ->
                    linked (createGmailLink (fst im)) "gmail" rows = true) batch ->
  ingest u rows batch = rows.
Proof.
  induction 1 as [|im batch Him _ IH]; [reflexivity|].
  rewrite ingest_cons. unfold ingest_one.
  destruct (kept (snd im)); cbn [andb]; [|exact IH].
  rewrite (Him eq_refl). exact IH.
Qed.

Lemma ingest_idempotent (u : value) (batch : list (string * GmailMessage)) (rows : list row) :
  ingest u (ingest u rows batch) batch = ingest u rows batch.
Proof. apply ingest_settled, ingest_links. Qed.

(** The handler on a push that resolves, when the storage answers. *)
Lemma gmail_webhook_resolved (body : json) (w : World) (t : row)
      (batch : list (string * GmailMessage)) (rows : list row) (cs : list call) :
  push_resolves body w t batch ->
  exists cs',
    MultiUser.gmail_webhook body (with_store w rows [] cs) =
    (Ret (Response 200 (Text "OK")),
     with_store w (ingest (field t "user_id") rows batch) [] cs').
Proof.
  intros (data & decoded & Hdata & Htruthy & Hdec & Hnull & Hrow & Hlist & Hget).
  unfold MultiUser.gmail_webhook, try_catch. rewrite Hdata, Htruthy.
  cbn [negb]. unfold bind at 1. unfold lift at 1.
  change (decode_notification (with_store w rows [] cs)) with (decode_notification w).
  rewrite Hdec.
  assert (forall (A : Type) (x y : A),
             match decoded with JNull => x | _ => y end = y) as Hskip
      by (intros A x y; destruct decoded; try reflexivity; contradiction).
  rewrite Hskip. unfold bind at 1. rewrite select_single_spec.
  change (next_fault (with_store w rows [] cs)) with (false, @nil bool).
  cbn [fst snd].
  change (user_gmail_tokens (with_store w rows [] cs)) with (user_gmail_tokens w).
  rewrite Hrow. unfold bind at 1. unfold lift at 1.
  change (gmail_messages_list _ (field t "refresh_token"))
    with (gmail_messages_list w (field t "refresh_token")).
  rewrite Hlist. unfold bind at 1.
  change (pending_actions (with_store w rows [] cs)) with rows.
  match goal with
  | |- context [MultiUser.process_messages _ _ _ _ (with_store ?w0 rows [] ?cs0)] =>
      change (with_store w0 rows [] cs0) with (with_store w rows [] cs0);
      destruct (process_messages_ingest w (field t "user_id") (field t "refresh_token")
                  batch Hget 0%nat rows cs0) as (r & cs' & Hrun & _)
  end.
  rewrite Hrun. exists cs'. reflexivity.
Qed.

(** X12: a Gmail push that resolves to one connected account is
    acknowledged with 200 and, when the storage answers, leaves the table
    as the fold [ingest] describes: in list order, each message that passes
    the label filter and whose link is not stored yet adds one row for the
    owner of the account.  Delivering the same push again adds nothing. *)
Theorem gmail_push_ingested (body : json) (w : World) (t : row)
        (batch : list (string * GmailMessage)) :
  faults w = [] ->
  push_resolves body w t batch ->
  fst (MultiUser.gmail_webhook body w) = Ret (Response 200 (Text "OK")) /\
  pending_actions (snd (MultiUser.gmail_webhook body w)) =
    ingest (field t "user_id") (pending_actions w) batch /\
  pending_actions (snd (MultiUser.gmail_webhook body (snd (MultiUser.gmail_webhook body w)))) =
    pending_actions (snd (MultiUser.gmail_webhook body w)).
Proof.
  intros Hq Hres.
  destruct (gmail_webhook_resolved body w t batch (pending_actions w) (calls w) Hres)
    as [cs1 H1].
  rewrite <- Hq in H1 at 1. rewrite with_store_self in H1. rewrite H1. cbn [fst snd].
  destruct (gmail_webhook_resolved body w t batch
              (ingest (field t "user_id") (pending_actions w) batch) cs1 Hres) as [cs2 H2].
  rewrite H2. cbn [fst snd pending_actions with_store].
  repeat split. apply ingest_idempotent.
Qed.

Lemma gmail_push_ingested_witness :
  pending_actions (snd (MultiUser.gmail_webhook Sample.notification
                          (Sample.gmail_world [("18c0a1", Sample.q3_message);
                                               ("18c0c3", Sample.promo_message)]))) =
    [MultiUser.new_row (q3_event "18c0a1")] /\
  pending_actions
    (snd (MultiUser.gmail_webhook Sample.notification
            (snd (MultiUser.gmail_webhook Sample.notification
                    (Sample.gmail_world [("18c0a1", Sample.q3_message);
                                         ("18c0c3", Sample.promo_message)]))))) =
    [MultiUser.new_row (q3_event "18c0a1")].
Proof.
  destruct (gmail_push_ingested Sample.notification
              (Sample.gmail_world [("18c0a1", Sample.q3_message);
                                   ("18c0c3", Sample.promo_message)])
              [("user_id", JStr "u-1"); ("email_address", JStr "ada@x.com");
               ("refresh_token", JStr "rt-1")]
              [("18c0a1", Sample.q3_message); ("18c0c3", Sample.promo_message)])
    as (_ & H1 & H2).
  - reflexivity.
  - exists (JStr "eyJlbWFpbEFkZHJlc3MiOiJhZGFAeC5jb20iLCJoaXN0b3J5SWQiOjQyfQ=="),
           (JObj [("emailAddress", JStr "ada@x.com"); ("historyId", JNum 42)]).
    repeat split; try reflexivity; try discriminate.
    repeat constructor.
  - rewrite H2, H1. split; reflexivity.
Defined.

(** ** The sync and watch routes *)

Lemma sync_messages_cons (u tok : value) (id : string) (rest : list string)
      (results : list json) (filtered : nat) (w : World) (m : GmailMessage) :
  gmail_messages_get w tok id = Ret m ->
  MultiUserRoutes.sync_messages u tok (id :: rest) results filtered w =
  if negb (kept m) then MultiUserRoutes.sync_messages u tok rest results (S filtered) w
  else bind (MultiUser.saveToSupabase (email_message u id m))
            (fun result =>
               MultiUserRoutes.sync_messages u tok rest
                 (results ++ [MultiUserRoutes.sync_item
                                (parseSenderName (from (extractEmailHeaders m)))
                                (subject (extractEmailHeaders m)) result])%list
                 filtered) w.
Proof.
  intros H. cbn [MultiUserRoutes.sync_messages]. unfold bind at 1, lift. rewrite H.
  unfold kept. destruct (MultiUser.shouldIncludeEmail _ _); reflexivity.
Qed.

Lemma added_app (a b : list json) : added (a ++ b) = (added a + added b)%nat.
Proof. unfold added. rewrite filter_app, length_app. reflexivity. Qed.

(** The loop of the sync route is the same fold as the loop of the webhook;
    every listed message is either counted as filtered or reported, and the
    reported entries with [skipped: false] are the rows added. *)
Lemma sync_messages_ingest (w : World) (u tok : value)
      (batch : list (string * GmailMessage)) :
  Forall (fun im => gmail_messages_get w tok (fst im) = Ret (snd im)) batch ->
  forall (results : list json) (filtered : nat) (rows : list row) (cs : list call),
  exists items cs',
    MultiUserRoutes.sync_messages u tok (map fst batch) results filtered
                                  (with_store w rows [] cs) =
      (Ret ((results ++ items)%list, (filtered + filtered_out batch)%nat),
       with_store w (ingest u rows batch) [] cs') /\
    (List.length items + filtered_out batch = List.length batch)%nat /\
    (List.length rows + added items = List.length (ingest u rows batch))%nat.
Proof.
  induction 1 as [|[id m] batch Hget _ IH]; intros results filtered rows cs.
  - exists [], cs. change (filtered_out []) with 0%nat.
    rewrite app_nil_r, Nat.add_0_r. split; [reflexivity|].
    split; [reflexivity | cbn; lia].
  - cbn [map fst snd] in *.
    rewrite (sync_messages_cons u tok id _ results filtered (with_store w rows [] cs) m Hget).
    rewrite ingest_cons. unfold ingest_one, filtered_out. cbn [fst snd filter].
    destruct (kept m); cbn [negb andb].
    + unfold bind.
      destruct (multi_save_answered (email_message u id m) w rows cs
                  (createGmailLink_nonempty id)) as [cs1 Hs].
      rewrite Hs. clear Hs.
      change (MultiUser.url (email_message u id m)) with (createGmailLink id).
      change (MultiUser.platform (email_message u id m)) with "gmail".
      destruct (linked (createGmailLink id) "gmail" rows); cbn [negb].
      * match goal with
        | |- context [MultiUserRoutes.sync_messages _ _ _ (results ++ [?item])%list] =>
            destruct (IH (results ++ [item])%list filtered rows cs1)
              as (items & cs' & Hrun & Hlen & Hadd);
            exists (item :: items), cs'
        end.
        rewrite Hrun, <- app_assoc. fold (filtered_out batch).
        split; [reflexivity|]. split; [cbn [List.length]; lia|].
        change (?x :: items) with ([x] ++ items)%list. rewrite added_app.
        match goal with
        | |- context [added [?x]] => change (added [x]) with 0%nat
        end. lia.
      * match goal with
        | |- context [MultiUserRoutes.sync_messages _ _ _ (results ++ [?item])%list] =>
            destruct (IH (results ++ [item])%list filtered
                         (rows ++ [MultiUser.new_row (email_message u id m)])%list cs1)
              as (items & cs' & Hrun & Hlen & Hadd);
            exists (item :: items), cs'
        end.
        rewrite Hrun, <- app_assoc. fold (filtered_out batch).
        split; [reflexivity|]. split; [cbn [List.length]; lia|].
        change (?x :: items) with ([x] ++ items)%list. rewrite added_app.
        rewrite length_app in Hadd. cbn [List.length] in Hadd.
        match goal with
        | |- context [added [?x]] => change (added [x]) with 1%nat
        end. lia.
    + destruct (IH results (S filtered) rows cs) as (items & cs' & Hrun & Hlen & Hadd).
      exists items, cs'. rewrite Hrun. cbn [List.length]. fold (filtered_out batch).
      replace (filtered + S (filtered_out batch))%nat
        with (S filtered + filtered_out batch)%nat by lia.
      split; [reflexivity|]. split; [lia | exact Hadd].
Qed.

(** The route on a request that resolves, when the storage answers. *)
Lemma gmail_sync_resolved (d : Deployment) (body : json) (w : World) (t : row)
      (batch : list (string * GmailMessage)) (rows : list row) (cs : list call) :
  sync_resolves d body w t batch ->
  exists items cs',
    MultiUserRoutes.gmail_sync d body (with_store w rows [] cs) =
    (Ret (Body 200 (MultiUserRoutes.sync_report items (filtered_out batch))),
     with_store w (ingest (get (Some body) "user_id") rows batch) [] cs') /\
    (List.length items + filtered_out batch = List.length batch)%nat /\
    (List.length rows + added items =
     List.length (ingest (get (Some body) "user_id") rows batch))%nat.
Proof.
  intros (Hu & Hrow & Hlist & Hget).
  unfold MultiUserRoutes.gmail_sync, try_catch. cbv zeta. rewrite Hu. cbn [negb].
  unfold bind at 1. rewrite select_single_spec.
  change (next_fault (with_store w rows [] cs)) with (false, @nil bool).
  cbn [fst snd].
  change (user_gmail_tokens (with_store w rows [] cs)) with (user_gmail_tokens w).
  rewrite Hrow. unfold bind at 1. unfold lift at 1.
  match goal with
  | |- context [messages_list_upto d ?a ?b] =>
      replace (messages_list_upto d a b) with (@Ret (list string) (map fst batch))
        by (symmetry; exact Hlist)
  end.
  unfold bind at 1.
  change (pending_actions (with_store w rows [] cs)) with rows.
  match goal with
  | |- context [MultiUserRoutes.sync_messages _ _ _ _ _ (with_store ?w0 rows [] ?cs0)] =>
      change (with_store w0 rows [] cs0) with (with_store w rows [] cs0);
      destruct (sync_messages_ingest w (get (Some body) "user_id") (field t "refresh_token")
                  batch Hget [] 0%nat rows cs0) as (items & cs' & Hrun & Hlen & Hadd)
  end.
  rewrite Hrun. exists items, cs'. cbn [fst snd app]. repeat split; assumption.
Qed.

(** X13: a sync request that resolves to one connected mailbox answers 200
    with a report whose [processed] and [filtered] figures add up to the
    number of listed messages; when the storage answers, the table ends as
    the same fold as for a push, and the rows added are the entries
    reported with [skipped: false].  [processed] counts the skipped
    duplicates too: a second sync reports the same figures and adds
    nothing. *)
Theorem gmail_sync_reported (d : Deployment) (body : json) (w : World) (t : row)
        (batch : list (string * GmailMessage)) :
  faults w = [] ->
  sync_resolves d body w t batch ->
  exists items w' items' w'',
    MultiUserRoutes.gmail_sync d body w =
      (Ret (Body 200 (MultiUserRoutes.sync_report items (filtered_out batch))), w') /\
    (List.length items + filtered_out batch = List.length batch)%nat /\
    pending_actions w' = ingest (get (Some body) "user_id") (pending_actions w) batch /\
    List.length (pending_actions w') = (List.length (pending_actions w) + added items)%nat /\
    MultiUserRoutes.gmail_sync d body w' =
      (Ret (Body 200 (MultiUserRoutes.sync_report items' (filtered_out batch))), w'') /\
    List.length items' = List.length items /\
    added items' = 0%nat /\
    pending_actions w'' = pending_actions w'.
Proof.
  intros Hq Hres.
  destruct (gmail_sync_resolved d body w t batch (pending_actions w) (calls w) Hres)
    as (items & cs1 & H1 & Hlen1 & Hadd1).
  rewrite <- Hq in H1 at 1. rewrite with_store_self in H1.
  destruct (gmail_sync_resolved d body w t batch
              (ingest (get (Some body) "user_id") (pending_actions w) batch) cs1 Hres)
    as (items' & cs2 & H2 & Hlen2 & Hadd2).
  rewrite ingest_idempotent in H2, Hadd2.
  do 4 eexists. split; [exact H1|]. cbn [pending_actions with_store].
  split; [exact Hlen1|]. split; [reflexivity|]. split; [symmetry; exact Hadd1|].
  split; [exact H2|]. cbn [pending_actions with_store].
  split; [lia|]. split; [lia | reflexivity].
Qed.

Lemma gmail_sync_reported_witness :
  exists items w' items' w'',
    MultiUserRoutes.gmail_sync acme sync_request (Sample.gmail_world ada_inbox) =
      (Ret (Body 200 (MultiUserRoutes.sync_report items 1)), w') /\
    List.length items = 1%nat /\
    pending_actions w' = [MultiUser.new_row (q3_event "18c0a1")] /\
    MultiUserRoutes.gmail_sync acme sync_request w' =
      (Ret (Body 200 (MultiUserRoutes.sync_report items' 1)), w'') /\
    List.length items' = 1%nat /\
    pending_actions w'' = pending_actions w'.
Proof.
  destruct (gmail_sync_reported acme sync_request (Sample.gmail_world ada_inbox)
              [("user_id", JStr "u-1"); ("email_address", JStr "ada@x.com");
               ("refresh_token", JStr "rt-1")] ada_inbox)
    as (items & w' & items' & w'' & H1 & Hlen & Hrows & _ & H2 & Hlen' & _ & Hsame).
  - reflexivity.
  - repeat split; try reflexivity. repeat constructor.
  - exists items, w', items', w''.
    change (filtered_out ada_inbox) with 1%nat in *.
    cbn [List.length ada_inbox] in Hlen.
    repeat split; try assumption; try lia.
Defined.

(** *** Requests that do not resolve *)



(** ** The single-user server *)

(** *** Its Gmail webhook *)

Lemma process_added_unread (d : Deployment) (rows : list row) (ids : list string) :
  (forall id m, own_messages_get d id = Ret m ->
                MultiUser.includes (labelIds m) "UNREAD" = false) ->
  preserves (fun w => pending_actions w = rows) (SingleUserRoutes.process_added d ids).
Proof.
  intros Hread. induction ids as [|id rest IH]; intros w Hw; [exact Hw|].
  cbn [SingleUserRoutes.process_added]. unfold bind at 1, lift.
  destruct (own_messages_get d id) as [m|e] eqn:E; [|exact Hw].
  rewrite (Hread id m E). cbn [negb]. apply IH, Hw.
Qed.

Lemma process_history_unread (d : Deployment) (rows : list row) (items : list (list string)) :
  (forall id m, own_messages_get d id = Ret m ->
                MultiUser.includes (labelIds m) "UNREAD" = false) ->
  preserves (fun w => pending_actions w = rows) (SingleUserRoutes.process_history d items).
Proof.
  intros Hread. induction items as [|added rest IH]; cbn [SingleUserRoutes.process_history].
  - apply preserves_ret.
  - apply preserves_bind; [apply process_added_unread, Hread | intros _; exact IH].
Qed.

(** X15: the Gmail webhook of the single-user server answers 200 whatever
    the body, the providers and the storage do; a push whose messages all
    lack the UNREAD label stores nothing. *)
Theorem own_push_acknowledged (d : Deployment) (body : json) (w : World) :
  (exists r w', SingleUserRoutes.gmail_webhook d body w = (Ret r, w') /\ status r = 200) /\
  ((forall id m, own_messages_get d id = Ret m ->
                 MultiUser.includes (labelIds m) "UNREAD" = false) ->
   pending_actions (snd (SingleUserRoutes.gmail_webhook d body w)) = pending_actions w).
Proof.
  split.
  - apply try_catch_total.
    + intros r w' Hrun. cbv zeta in Hrun. invert_run; reflexivity.
    + intros e w1. do 2 eexists. split; reflexivity.
  - intros Hread.
    assert (preserves (fun w0 => pending_actions w0 = pending_actions w)
                      (SingleUserRoutes.gmail_webhook d body)) as Hkeep.
    { unfold SingleUserRoutes.gmail_webhook. cbv zeta.
      repeat first
        [ apply process_history_unread, Hread
        | keep_step (fun (w0 : World) (table : string) (filters : list (string * string))
                         (H : pending_actions w0 = pending_actions w) => H)
                    preserves_ret ]. }
    apply Hkeep. reflexivity.
Qed.

Lemma own_push_acknowledged_witness :
  pending_actions
    (snd (SingleUserRoutes.gmail_webhook acme Sample.notification (Sample.gmail_world []))) = [].
Proof.
  apply (proj2 (own_push_acknowledged acme Sample.notification (Sample.gmail_world []))).
  intros id m H. unfold acme, own_messages_get in H.
  destruct (String.eqb id "18c0a1"); inversion H; reflexivity.
Defined.

(** *** The unique index as a backstop *)

Lemma indexed_select_kept (w : World) (table : string) (filters : list (string * string)) :
  indexed_unique w ->
  indexed_unique (with_store w (pending_actions w) (snd (next_fault w))
                             (Select table filters :: calls w)).
Proof. intros H. exact H. Qed.

Lemma single_save_indexed (m : SingleUser.Message) :
  preserves indexed_unique (SingleUser.saveToSupabase m).
Proof.
  intros w [Hidx Hone]. split.
  - pose proof (single_save_spec m w) as Hs. cbv zeta in Hs. rewrite Hs.
    destruct (_ && _); [exact Hidx|]. destruct (_ || _); exact Hidx.
  - apply single_unique_index_backstop; assumption.
Qed.

Ltac indexed_single := keep_step indexed_select_kept single_save_indexed.

Lemma process_added_indexed (d : Deployment) (ids : list string) :
  preserves indexed_unique (SingleUserRoutes.process_added d ids).
Proof.
  induction ids as [|id rest IH]; cbn [SingleUserRoutes.process_added].
  - indexed_single.
  - apply preserves_bind; [indexed_single|]. intros message.
    destruct (negb _); [exact IH|].
    apply preserves_bind; [indexed_single | intros _; exact IH].
Qed.

Lemma process_history_indexed (d : Deployment) (items : list (list string)) :
  preserves indexed_unique (SingleUserRoutes.process_history d items).
Proof.
  induction items as [|added rest IH]; cbn [SingleUserRoutes.process_history].
  - indexed_single.
  - apply preserves_bind; [apply process_added_indexed | intros _; exact IH].
Qed.

Lemma own_gmail_webhook_indexed (d : Deployment) (b : json) :
  preserves indexed_unique (SingleUserRoutes.gmail_webhook d b).
Proof.
  unfold SingleUserRoutes.gmail_webhook. cbv zeta.
  repeat first [apply process_history_indexed | indexed_single].
Qed.

Lemma own_slack_webhook_indexed (req : SlackRequest) :
  preserves indexed_unique (SingleUser.slack_webhook req).
Proof.
  unfold SingleUser.slack_webhook, SingleUser.process_dm, SingleUser.lookup_sender.
  repeat indexed_single.
Qed.

(** X16: with the migration's unique index in place, no sequence of Gmail
    pushes and Slack events makes the single-user server store a message
    id twice for a platform, whatever the providers answer and even when
    duplicate checks fail: the index refuses the insert that the failed
    check let through. *)
Theorem unique_index_backstop (d : Deployment) (xs : list own_delivery) (w : World) :
  unique_index w = true ->
  at_most_one "message_id" "platform" w ->
  at_most_one "message_id" "platform" (deliver_all_own d xs w).
Proof.
  intros Hidx Hone.
  enough (indexed_unique (deliver_all_own d xs w)) as [_ H] by exact H.
  assert (indexed_unique w) as Hw by (split; assumption). clear Hidx Hone.
  revert w Hw. induction xs as [|x xs IH]; intros w Hw; [exact Hw|].
  apply IH. destruct x as [b|req]; cbn [deliver_own].
  - apply own_gmail_webhook_indexed, Hw.
  - apply own_slack_webhook_indexed, Hw.
Qed.

Lemma unique_index_backstop_witness :
  at_most_one "message_id" "platform"
              (deliver_all_own twins [OwnGmailPush Sample.notification] blind_checks) /\
  List.length (pending_actions
                 (deliver_all_own twins [OwnGmailPush Sample.notification] blind_checks)) = 1%nat /\
  List.length (pending_actions
                 (deliver_all_own twins [OwnGmailPush Sample.notification]
                                  (without_index blind_checks))) = 2%nat.
Proof.
  split; [|split; reflexivity].
  apply (unique_index_backstop twins [OwnGmailPush Sample.notification] blind_checks).
  - reflexivity.
  - intros key platform. cbn. lia.
Defined.

(** ** Slack: the single-user handler, and shared workspaces *)

Lemma own_lookup_sender_spec (userId : value) (w : World) :
  SingleUser.lookup_sender userId w = (Ret (own_profile_name w userId), w).
Proof.
  unfold SingleUser.lookup_sender, own_profile_name, bind, ask.
  destruct (SLACK_BOT_TOKEN w) as [[|c tok]|]; try reflexivity.
  unfold try_catch, bind, lift, profile_name.
  destruct (slack_users_info w _ userId) as [userData|e]; [|reflexivity].
  destruct (truthy (get (Some userData) "ok")); reflexivity.
Qed.

Lemma violates_unique_recorded (m : SingleUser.Message) (created_at : string) (w : World) :
  violates_unique (SingleUser.new_row m created_at) (pending_actions w) =
  recorded "message_id" "platform" (SingleUser.messageId m) (SingleUser.platform m) w.
Proof.
  destruct (single_new_row_key m created_at) as [Hk Hp].
  unfold violates_unique. rewrite Hk, Hp. reflexivity.
Qed.

(** [saveToSupabase] of the single-user server when the storage answers. *)
Lemma single_save_answered (m : SingleUser.Message) (w : World) :
  faults w = [] ->
  exists w',
    SingleUser.saveToSupabase m w =
    (Ret (if recorded "message_id" "platform" (SingleUser.messageId m)
                      (SingleUser.platform m) w
          then Skipped "duplicate"
          else Saved [SingleUser.new_row m (now_iso w)]), w') /\
    pending_actions w' =
    if recorded "message_id" "platform" (SingleUser.messageId m) (SingleUser.platform m) w
    then pending_actions w
    else (pending_actions w ++ [SingleUser.new_row m (now_iso w)])%list.
Proof.
  intros Hq. pose proof (single_save_spec m w) as Hs. cbv zeta in Hs. rewrite Hs. clear Hs.
  rewrite (quiet_next_fault w Hq). cbn [fst snd negb andb].
  destruct (recorded _ _ _ _ w) eqn:Hrec.
  - eexists. split; reflexivity.
  - change (next_fault (with_store w (pending_actions w) [] _)) with (false, @nil bool).
    cbn [fst snd orb]. rewrite violates_unique_recorded, Hrec, andb_false_r.
    eexists. split; reflexivity.
Qed.

(** X17: the single-user server acknowledges with 200 a direct message
    that passes the signature check, is not from a bot and carries its
    identifiers (workspace, channel, timestamp, author) and its text as
    strings; when the storage answers and the sender name settled on is a
    string, the table gains exactly one row, keyed by team, channel and
    timestamp and stamped with the current time, unless that key is already
    stored for Slack. *)
Theorem own_direct_message_stored (req : SlackRequest) (w : World)
        (text : string) (s : json) :
  not_handshake req ->
  verifySlackSignature req w = (Ret true, w) ->
  is_direct_message (event_of req) = true ->
  bot_or_edit (event_of req) = false ->
  textual_ids req ->
  dm_text (event_of req) = JStr text ->
  faults w = [] ->
  textual (SingleUser.sender (own_dm_message req w s)) ->
  summarize (JStr text) = Ret s ->
  fst (SingleUser.slack_webhook req w) = Ret (Response 200 (Text "OK")) /\
  pending_actions (snd (SingleUser.slack_webhook req w)) =
    if recorded "message_id" "platform"
                (SingleUser.messageId (own_dm_message req w s)) "slack" w
    then pending_actions w
    else (pending_actions w ++ [SingleUser.new_row (own_dm_message req w s) (now_iso w)])%list.
Proof.
  intros Hh Hv Hdm Hbot (_ & _ & (ts & Hts) & _) Htext Hq _ Hsum.
  rewrite <- Htext in Hsum.
  enough (exists w', SingleUser.slack_webhook req w = (Ret (Response 200 (Text "OK")), w') /\
                     pending_actions w' =
                     if recorded "message_id" "platform"
                                 (SingleUser.messageId (own_dm_message req w s)) "slack" w
                     then pending_actions w
                     else (pending_actions w ++
                           [SingleUser.new_row (own_dm_message req w s) (now_iso w)])%list)
    as (w' & -> & Hp) by (split; [reflexivity | exact Hp]).
  unfold SingleUser.slack_webhook.
  unfold not_handshake in Hh. rewrite Hh. unfold bind at 1. rewrite Hv.
  change (negb true) with false. cbv iota.
  unfold event_of in Hdm, Hbot. rewrite Hdm, Hbot.
  unfold bind at 1. unfold try_catch.
  unfold SingleUser.process_dm. unfold bind at 1.
  rewrite own_lookup_sender_spec.
  unfold bind at 1. unfold lift at 1.
  rewrite value_or_dm_text. fold (event_of req). rewrite Hsum.
  unfold bind at 1. unfold lift at 1. unfold SingleUser.createSlackLink.
  rewrite Hts. unfold bind at 1.
  destruct (single_save_answered (own_dm_message req w s) w Hq) as (w' & Hs & Hrows).
  unfold own_dm_message in Hs at 1. cbv zeta in Hs. rewrite Hts in Hs.
  unfold MultiUser.createSlackLink in Hs.
  rewrite Hs. exists w'. split; [reflexivity | exact Hrows].
Qed.

Lemma own_direct_message_stored_witness :
  pending_actions (snd (SingleUser.slack_webhook plain_dm (Sample.world None Sample.clock))) =
    [[("sender", JStr "U1"); ("summary", JStr "hello");
      ("url", JStr "https://slack.com/app_redirect?team=T1&channel=D1&message_ts=1700000000.000100");
      ("platform", JStr "slack");
      ("message_id", JStr "T1-D1-1700000000.000100");
      ("created_at", JStr "2023-11-14T22:13:20.000Z")]].
Proof.
  apply (own_direct_message_stored plain_dm (Sample.world None Sample.clock)
           "hello" (JStr "hello"));
    try reflexivity; try (eexists; reflexivity).
  repeat split; eexists; reflexivity.
Defined.

(** *** A workspace connected by two users *)

Lemma conflicts_user_team (u team : string) (r old : row) :
  column r "user_id" = Some u -> column r "team_id" = Some team ->
  conflicts ["user_id"; "team_id"] r old =
  eq_filter "user_id" u old && eq_filter "team_id" team old.
Proof.
  intros Hu Ht. unfold conflicts, eq_filter. cbn [forallb]. rewrite Hu, Ht, andb_true_r.
  destruct (column old "user_id"), (column old "team_id");
    rewrite ?(String.eqb_sym u), ?(String.eqb_sym team); reflexivity.
Qed.

Lemma upsert_appends (keys : list string) (r : row) (rows : list row) :
  (forall old, In old rows -> conflicts keys r old = false) ->
  upsert_rows keys r rows = (rows ++ [r])%list.
Proof.
  induction rows as [|old rest IH]; intros H; [reflexivity|].
  cbn [upsert_rows app]. rewrite (H old (or_introl eq_refl)).
  rewrite IH; [reflexivity|]. intros o Ho. apply H. right. exact Ho.
Qed.

(** X18: when a second user connects a workspace that another user has
    connected, the callback answers 200 and adds a second credential row
    for the workspace; from then on the lookup of the webhook finds two rows
    for the team, and every direct message of the workspace that passes the
    signature check is acknowledged and dropped, for both users. *)
Theorem second_connection_silences_workspace
        (d : Deployment) (w : World) (code : option string)
        (u1 u2 team team_name token : string) (t : row) :
  ascii7 u2 = true ->
  oauth_v2_access d code = Ret (access_granted team team_name token) ->
  lookup_succeeds w ->
  matching [("team_id", team)] (user_slack_tokens w) = [t] ->
  column t "user_id" = Some u1 -> u1 <> u2 ->
  exists w',
    MultiUserRoutes.auth_slack_callback d code (Some (oauth_state u2)) w =
      (Ret (Page 200 "Slack Connected!" ("Workspace: " ++ team_name)), w') /\
    List.length (matching [("team_id", team)] (user_slack_tokens w')) = 2%nat /\
    forall req,
      not_handshake req ->
      verifySlackSignature req w' = (Ret true, w') ->
      is_direct_message (event_of req) = true ->
      team_of req = team ->
      fst (MultiUser.slack_webhook req w') = Ret (Response 200 (Text "OK")) /\
      pending_actions (snd (MultiUser.slack_webhook req w')) = pending_actions w'.
Proof.
  intros Hu Hacc Hok Hrow Hu1 Hne.
  set (r := object [("user_id", Some (JStr u2)); ("team_id", Some (JStr team));
                    ("team_name", Some (JStr team_name));
                    ("bot_token", Some (JStr token))]).
  assert (upsert_rows ["user_id"; "team_id"] r (user_slack_tokens w) =
          (user_slack_tokens w ++ [r])%list) as Hup.
  { apply upsert_appends. intros old Hin.
    rewrite (conflicts_user_team u2 team r old eq_refl eq_refl).
    destruct (eq_filter "team_id" team old) eqn:Ht; [|apply andb_false_r].
    assert (In old (matching [("team_id", team)] (user_slack_tokens w))) as Hm.
    { rewrite matching_one. apply filter_In. split; assumption. }
    rewrite Hrow in Hm. destruct Hm as [<-|[]].
    unfold eq_filter at 1. rewrite Hu1.
    apply String.eqb_neq in Hne. rewrite Hne. reflexivity. }
  exists (with_tokens w (user_gmail_tokens w) (user_slack_tokens w ++ [r])%list
                      (snd (next_fault w))).
  assert (matching [("team_id", team)] (user_slack_tokens w ++ [r]) = [t; r]) as Htwo.
  { rewrite matching_one, filter_app.
    rewrite <- (matching_one "team_id" team (user_slack_tokens w)), Hrow. cbn [filter].
    assert (eq_filter "team_id" team r = true) as ->
        by (unfold eq_filter; change (column r "team_id") with (Some team);
            apply String.eqb_refl).
    reflexivity. }
  split; [|split].
  - unfold MultiUserRoutes.auth_slack_callback, try_catch, bind, lift.
    rewrite (parse_oauth_state u2 Hu). unfold state_of. cbv iota.
    rewrite Hacc. unfold access_granted. cbv iota.
    cbn [get assoc String.eqb Ascii.eqb Bool.eqb truthy negb].
    unfold upsert_slack_token. unfold lookup_succeeds in Hok.
    destruct (next_fault w) as [f fs]. cbn [fst snd] in *. subst f.
    rewrite <- Hup. reflexivity.
  - cbn [user_slack_tokens with_tokens]. rewrite Htwo. reflexivity.
  - intros req Hh Hv Hdm Hteam.
    enough (exists w'', MultiUser.slack_webhook req
                          (with_tokens w (user_gmail_tokens w) (user_slack_tokens w ++ [r])%list
                                       (snd (next_fault w))) =
                        (Ret (Response 200 (Text "OK")), w'') /\
                        pending_actions w'' = pending_actions w) as (w'' & -> & Hp)
        by (split; [reflexivity | exact Hp]).
    unfold MultiUser.slack_webhook.
    unfold not_handshake in Hh. rewrite Hh. unfold bind at 1. rewrite Hv.
    change (negb true) with false. cbv iota.
    unfold event_of in Hdm. rewrite Hdm.
    destruct (bot_or_edit _); [eexists; split; reflexivity|].
    unfold bind, try_catch. rewrite process_dm_unknown.
    + eexists. split; reflexivity.
    + right. intros t0. fold (team_of req). rewrite Hteam.
      cbn [user_slack_tokens with_tokens]. rewrite Htwo. discriminate.
Qed.

Lemma second_connection_silences_workspace_witness :
  exists w',
    MultiUserRoutes.auth_slack_callback acme (Some "code-2") (Some (oauth_state "u-2"))
                                        (Sample.slack_world Sample.offline []) =
      (Ret (Page 200 "Slack Connected!" "Workspace: Acme"), w') /\
    List.length (user_slack_tokens w') = 2%nat /\
    fst (MultiUser.slack_webhook plain_dm w') = Ret (Response 200 (Text "OK")) /\
    pending_actions (snd (MultiUser.slack_webhook plain_dm w')) = [].
Proof.
  destruct (second_connection_silences_workspace acme (Sample.slack_world Sample.offline [])
              (Some "code-2") "u-1" "u-2" "T1" "Acme" "xoxb-2"
              [("user_id", JStr "u-1"); ("team_id", JStr "T1"); ("team_name", JStr "Acme");
               ("bot_token", JStr "xoxb-1")]) as (w' & Hrun & _ & Hdrop);
    try reflexivity; try discriminate.
  exists w'. split; [exact Hrun|].
  injection Hrun as <-. split; [reflexivity|].
  apply (Hdrop plain_dm); reflexivity.
Defined.

(** ** Invariants of all the routes of the multi-user server *)

Section RouteInvariants.
Variable I : World -> Prop.

Hypothesis select_kept :
  forall w table filters,
    I w -> I (with_store w (pending_actions w) (snd (next_fault w))
                         (Select table filters :: calls w)).

Hypothesis save_kept :
  forall m, MultiUser.url m <> EmptyString -> preserves I (MultiUser.saveToSupabase m).

Hypothesis tokens_kept :
  forall w gmail slack, I w -> I (with_tokens w gmail slack (snd (next_fault w))).

Lemma upsert_gmail_kept (r : row) : preserves I (upsert_gmail_token r).
Proof.
  intros w Hw. unfold upsert_gmail_token.
  pose proof (tokens_kept w (user_gmail_tokens w) (user_slack_tokens w) Hw) as H1.
  pose proof (tokens_kept w (upsert_rows ["email_address"] r (user_gmail_tokens w))
                          (user_slack_tokens w) Hw) as H2.
  destruct (next_fault w) as [[] fs]; assumption.
Qed.

Lemma upsert_slack_kept (r : row) : preserves I (upsert_slack_token r).
Proof.
  intros w Hw. unfold upsert_slack_token.
  pose proof (tokens_kept w (user_gmail_tokens w) (user_slack_tokens w) Hw) as H1.
  pose proof (tokens_kept w (user_gmail_tokens w)
                          (upsert_rows ["user_id"; "team_id"] r (user_slack_tokens w)) Hw)
    as H2.
  destruct (next_fault w) as [[] fs]; assumption.
Qed.

Ltac route_step :=
  first [ apply upsert_gmail_kept | apply upsert_slack_kept
        | keep_step select_kept save_kept ].

Lemma process_messages_kept (user_id token : value) (ids : list string) (n : nat) :
  preserves I (MultiUser.process_messages user_id token ids n).
Proof.
  revert n. induction ids as [|id rest IH]; intros n; cbn [MultiUser.process_messages].
  - route_step.
  - apply preserves_bind; [route_step|]. intros message.
    destruct (negb _); [apply IH|].
    apply preserves_bind; [route_step | intros result; apply IH].
Qed.

Lemma sync_messages_kept (user_id token : value) (ids : list string)
      (results : list json) (filtered : nat) :
  preserves I (MultiUserRoutes.sync_messages user_id token ids results filtered).
Proof.
  revert results filtered.
  induction ids as [|id rest IH]; intros results filtered;
    cbn [MultiUserRoutes.sync_messages].
  - route_step.
  - apply preserves_bind; [route_step|]. intros message.
    destruct (negb _); [apply IH|].
    apply preserves_bind; [route_step | intros result; apply IH].
Qed.

Lemma serve_kept (d : Deployment) (r : request) (w : World) : I w -> I (serve d w r).
Proof.
  intros Hw. destruct r as [b|req|b|b|c s|c s]; cbn [serve].
  - assert (preserves I (MultiUser.gmail_webhook b)) as H; [|apply H, Hw].
    unfold MultiUser.gmail_webhook. cbv zeta.
    repeat first [apply process_messages_kept | route_step].
  - assert (preserves I (MultiUser.slack_webhook req)) as H; [|apply H, Hw].
    unfold MultiUser.slack_webhook, MultiUser.process_dm, MultiUser.lookup_sender.
    cbv zeta. repeat route_step.
  - assert (preserves I (MultiUserRoutes.gmail_sync d b)) as H; [|apply H, Hw].
    unfold MultiUserRoutes.gmail_sync. cbv zeta.
    repeat first [apply sync_messages_kept | route_step].
  - assert (preserves I (MultiUserRoutes.gmail_watch d b)) as H; [|apply H, Hw].
    unfold MultiUserRoutes.gmail_watch. cbv zeta. repeat route_step.
  - assert (preserves I (MultiUserRoutes.auth_google_callback d c s)) as H;
      [|apply H, Hw].
    unfold MultiUserRoutes.auth_google_callback. cbv zeta. repeat route_step.
  - assert (preserves I (MultiUserRoutes.auth_slack_callback d c s)) as H;
      [|apply H, Hw].
    unfold MultiUserRoutes.auth_slack_callback. cbv zeta. repeat route_step.
Qed.

Lemma serve_all_kept (d : Deployment) (rs : list request) (w : World) :
  I w -> I (serve_all d rs w).
Proof.
  revert w. induction rs as [|r rs IH]; intros w Hw; [exact Hw|].
  apply IH, serve_kept, Hw.
Qed.

End RouteInvariants.

Lemma quiet_tokens_kept (w : World) (gmail slack : list row) :
  quiet_unique "message_link" "platform_tag" w ->
  quiet_unique "message_link" "platform_tag" (with_tokens w gmail slack (snd (next_fault w))).
Proof.
  intros [Hf Hone]. split; [|exact Hone].
  cbn [faults with_tokens]. rewrite (quiet_next_fault w Hf). reflexivity.
Qed.

Lemma gate_tokens_kept (w : World) (gmail slack : list row) :
  gate_respected "message_link" "platform_tag" w ->
  gate_respected "message_link" "platform_tag"
                 (with_tokens w gmail slack (snd (next_fault w))).
Proof. intros H. exact H. Qed.

(** X19: over any sequence of requests to the routes of the multi-user
    server that touch the storage (both webhooks, sync, watch and the two
    OAuth callbacks), served one after the other, each answered before the
    next begins, in any order and whatever the providers answer: every
    insert into the pending actions directly follows a duplicate check on
    the link and platform of the inserted row, and, while the storage
    answers every request without an error, no link is stored twice for a
    platform.  Requests that overlap are not covered. *)
Theorem routes_keep_links_unique (d : Deployment) (rs : list request) (w : World) :
  (gate_respected "message_link" "platform_tag" w ->
   gate_respected "message_link" "platform_tag" (serve_all d rs w)) /\
  (quiet_unique "message_link" "platform_tag" w ->
   quiet_unique "message_link" "platform_tag" (serve_all d rs w)).
Proof.
  split.
  - apply serve_all_kept.
    + apply gate_select_kept.
    + apply multi_save_gated.
    + apply gate_tokens_kept.
  - apply serve_all_kept.
    + apply quiet_select_kept.
    + apply multi_save_quiet.
    + apply quiet_tokens_kept.
Qed.

Lemma routes_keep_links_unique_witness :
  quiet_unique "message_link" "platform_tag"
               (serve_all acme busy_routes (Sample.gmail_world ada_inbox)) /\
  List.length (pending_actions (serve_all acme busy_routes (Sample.gmail_world ada_inbox))) =
    2%nat.
Proof.
  split; [|reflexivity].
  apply (proj2 (routes_keep_links_unique acme busy_routes (Sample.gmail_world ada_inbox))).
  apply quiet_unique_empty; reflexivity.
Defined.

(** *** A storage failure in the middle of a batch *)

(** X20: when the insert for a listed message fails, the Gmail webhook
    answers 200 and stops: the messages listed after it are not looked at
    in this delivery, whatever they are. *)
Theorem failed_insert_ends_batch (body : json) (w : World) (t : row)
        (im : string * GmailMessage) (rest : list (string * GmailMessage))
        (fs : list bool) :
  push_resolves body w t (im :: rest) ->
  kept (snd im) = true ->
  linked (createGmailLink (fst im)) "gmail" (pending_actions w) = false ->
  faults w = false :: false :: true :: fs ->
  fst (MultiUser.gmail_webhook body w) = Ret (Response 200 (Text "Error logged")) /\
  pending_actions (snd (MultiUser.gmail_webhook body w)) = pending_actions w /\
  faults (snd (MultiUser.gmail_webhook body w)) = fs.
Proof.
  intros (data & decoded & Hdata & Htruthy & Hdec & Hnull & Hrow & Hlist & Hget)
         Hkept Hlinked Hfaults.
  enough (exists cs, MultiUser.gmail_webhook body w =
                     (Ret (Response 200 (Text "Error logged")),
                      with_store w (pending_actions w) fs cs)) as (cs & ->)
      by (repeat split).
  destruct im as [id m]. cbn [fst snd] in *.
  inversion Hget as [|? ? Hm _]; subst. cbn [fst snd] in Hm.
  unfold MultiUser.gmail_webhook, try_catch. rewrite Hdata, Htruthy.
  cbn [negb]. unfold bind at 1. unfold lift at 1. rewrite Hdec.
  assert (forall (A : Type) (x y : A),
             match decoded with JNull => x | _ => y end = y) as Hskip
      by (intros A x y; destruct decoded; try reflexivity; contradiction).
  rewrite Hskip. unfold bind at 1. rewrite select_single_spec.
  assert (next_fault w = (false, false :: true :: fs)) as Hn
      by (unfold next_fault; rewrite Hfaults; reflexivity).
  rewrite Hn. cbn [fst snd]. rewrite Hrow.
  unfold bind at 1. unfold lift at 1.
  change (gmail_messages_list _ (field t "refresh_token"))
    with (gmail_messages_list w (field t "refresh_token")).
  rewrite Hlist. unfold bind at 1. cbn [map fst].
  match goal with
  | |- context [MultiUser.process_messages _ _ _ _ ?w1] =>
      rewrite (process_messages_cons (field t "user_id") (field t "refresh_token")
                 id (map fst rest) 0 w1 m Hm);
      pose proof (multi_save_spec (email_message (field t "user_id") id m) w1
                    (createGmailLink_nonempty id)) as Hs
  end.
  rewrite Hkept. cbn [negb]. unfold bind at 1.
  cbv zeta in Hs. rewrite Hs. clear Hs.
  change (next_fault (with_store w (pending_actions w) (false :: true :: fs) ?cs))
    with (false, true :: fs).
  cbn [fst snd negb andb]. rewrite recorded_linked.
  change (pending_actions (with_store w (pending_actions w) _ _)) with (pending_actions w).
  change (MultiUser.url (email_message (field t "user_id") id m)) with (createGmailLink id).
  change (MultiUser.platform (email_message (field t "user_id") id m)) with "gmail".
  rewrite Hlinked. eexists. reflexivity.
Qed.

Lemma failed_insert_ends_batch_witness :
  fst (MultiUser.gmail_webhook Sample.notification refused_insert) =
    Ret (Response 200 (Text "Error logged")) /\
  pending_actions (snd (MultiUser.gmail_webhook Sample.notification refused_insert)) = [] /\
  List.length (pending_actions
                 (snd (MultiUser.gmail_webhook Sample.notification
                         (Sample.gmail_world [("18c0a1", Sample.q3_message);
                                              ("18c0d4", Sample.q3_message)])))) = 2%nat.
Proof.
  destruct (failed_insert_ends_batch Sample.notification refused_insert
              [("user_id", JStr "u-1"); ("email_address", JStr "ada@x.com");
               ("refresh_token", JStr "rt-1")]
              ("18c0a1", Sample.q3_message) [("18c0d4", Sample.q3_message)] [])
    as (H1 & H2 & _).
  - exists (JStr "eyJlbWFpbEFkZHJlc3MiOiJhZGFAeC5jb20iLCJoaXN0b3J5SWQiOjQyfQ=="),
           (JObj [("emailAddress", JStr "ada@x.com"); ("historyId", JNum 42)]).
    repeat split; try reflexivity; try discriminate.
    repeat constructor.
  - reflexivity.
  - reflexivity.
  - reflexivity.
  - split; [exact H1|]. split; [exact H2 | reflexivity].
Defined.

(** ** The Gmail webhook of the single-user server as a fold *)

Lemma recorded_keyed (key platform : string) (w : World) :
  recorded "message_id" "platform" key platform w = keyed key platform (pending_actions w).
Proof. reflexivity. Qed.

(** [saveToSupabase] of the single-user server when the storage answers. *)
Lemma own_save_answered (m : SingleUser.Message) (w : World) (rows : list row)
      (cs : list call) :
  exists cs',
    SingleUser.saveToSupabase m (with_store w rows [] cs) =
    if keyed (SingleUser.messageId m) (SingleUser.platform m) rows
    then (Ret (Skipped "duplicate"), with_store w rows [] cs')
    else (Ret (Saved [SingleUser.new_row m (now_iso w)]),
          with_store w (rows ++ [SingleUser.new_row m (now_iso w)])%list [] cs').
Proof.
  pose proof (single_save_spec m (with_store w rows [] cs)) as Hs.
  cbv zeta in Hs. rewrite Hs. clear Hs.
  change (next_fault (with_store w rows [] cs)) with (false, @nil bool).
  cbn [fst snd negb andb]. rewrite recorded_keyed.
  change (pending_actions (with_store w rows [] cs)) with rows.
  destruct (keyed _ _ rows) eqn:Hk; [eexists; reflexivity|].
  change (next_fault (with_store (with_store w rows [] cs) _ [] _)) with (false, @nil bool).
  cbn [fst snd orb].
  change (now_iso (with_store w rows [] cs)) with (now_iso w).
  pose proof (violates_unique_recorded m (now_iso w) (with_store w rows [] cs)) as Hv.
  rewrite recorded_keyed in Hv.
  change (pending_actions (with_store w rows [] cs)) with rows in Hv.
  rewrite Hv, Hk, andb_false_r. eexists. reflexivity.
Qed.

Lemma process_added_cons (d : Deployment) (id : string) (rest : list string)
      (w : World) (m : GmailMessage) :
  own_messages_get d id = Ret m ->
  SingleUserRoutes.process_added d (id :: rest) w =
  if negb (unread m) then SingleUserRoutes.process_added d rest w
  else bind (SingleUser.saveToSupabase (own_email_message id m))
            (fun _ => SingleUserRoutes.process_added d rest) w.
Proof.
  intros H. cbn [SingleUserRoutes.process_added]. unfold bind at 1, lift. rewrite H.
  unfold unread. destruct (MultiUser.includes _ _); reflexivity.
Qed.

Lemma own_ingest_cons (created_at : string) (rows : list row) (im : string * GmailMessage)
      (batch : list (string * GmailMessage)) :
  own_ingest created_at rows (im :: batch) =
  own_ingest created_at (own_ingest_one created_at rows im) batch.
Proof. reflexivity. Qed.

Lemma own_ingest_app (created_at : string) (rows : list row)
      (a b : list (string * GmailMessage)) :
  own_ingest created_at rows (a ++ b) = own_ingest created_at (own_ingest created_at rows a) b.
Proof. unfold own_ingest. apply fold_left_app. Qed.

Lemma process_added_ingest (d : Deployment) (w : World)
      (batch : list (string * GmailMessage)) :
  Forall (fun im => own_messages_get d (fst im) = Ret (snd im)) batch ->
  forall (rows : list row) (cs : list call),
  exists cs',
    SingleUserRoutes.process_added d (map fst batch) (with_store w rows [] cs) =
    (Ret tt, with_store w (own_ingest (now_iso w) rows batch) [] cs').
Proof.
  induction 1 as [|[id m] batch Hget _ IH]; intros rows cs.
  - exists cs. reflexivity.
  - cbn [map fst snd] in *. rewrite (process_added_cons d id _ _ m Hget).
    rewrite own_ingest_cons. unfold own_ingest_one. cbn [fst snd].
    destruct (unread m); cbn [negb andb]; [|apply IH].
    unfold bind.
    destruct (own_save_answered (own_email_message id m) w rows cs) as [cs1 Hs].
    rewrite Hs. clear Hs.
    change (SingleUser.platform (own_email_message id m)) with "gmail".
    destruct (keyed _ "gmail" rows); cbn [negb]; apply IH.
Qed.

Lemma process_history_ingest (d : Deployment) (w : World)
      (items : list (list (string * GmailMessage))) :
  Forall (fun im => own_messages_get d (fst im) = Ret (snd im)) (concat items) ->
  forall (rows : list row) (cs : list call),
  exists cs',
    SingleUserRoutes.process_history d (map (map fst) items) (with_store w rows [] cs) =
    (Ret tt, with_store w (own_ingest (now_iso w) rows (concat items)) [] cs').
Proof.
  induction items as [|added rest IH]; intros Hget rows cs.
  - exists cs. reflexivity.
  - cbn [concat] in Hget. apply Forall_app in Hget. destruct Hget as [Ha Hr].
    cbn [map SingleUserRoutes.process_history concat]. unfold bind.
    destruct (process_added_ingest d w added Ha rows cs) as [cs1 H1]. rewrite H1.
    destruct (IH Hr (own_ingest (now_iso w) rows added) cs1) as [cs2 H2]. rewrite H2.
    exists cs2. rewrite own_ingest_app. reflexivity.
Qed.

(** *** A history delivered again *)

Lemma keyed_app (key platform : string) (a b : list row) :
  keyed key platform (a ++ b) = keyed key platform a || keyed key platform b.
Proof. unfold keyed. apply existsb_app. Qed.

Lemma keyed_new_row (m : SingleUser.Message) (created_at : string) :
  keyed (SingleUser.messageId m) (SingleUser.platform m)
        [SingleUser.new_row m created_at] = true.
Proof.
  destruct (single_new_row_key m created_at) as [Hk Hp].
  unfold keyed, eq_filter. cbn [existsb]. rewrite Hk, Hp, !String.eqb_refl. reflexivity.
Qed.

Lemma own_ingest_one_keeps (created_at : string) (rows : list row)
      (im : string * GmailMessage) (key platform : string) :
  keyed key platform rows = true ->
  keyed key platform (own_ingest_one created_at rows im) = true.
Proof.
  intros H. unfold own_ingest_one. destruct (_ && _); [|exact H].
  rewrite keyed_app, H. reflexivity.
Qed.

Lemma own_ingest_keeps (created_at : string) (batch : list (string * GmailMessage))
      (rows : list row) (key platform : string) :
  keyed key platform rows = true ->
  keyed key platform (own_ingest created_at rows batch) = true.
Proof.
  revert rows. induction batch as [|im batch IH]; intros rows H; [exact H|].
  rewrite own_ingest_cons. apply IH, own_ingest_one_keeps, H.
Qed.

Lemma own_ingest_keys (created_at : string) (batch : list (string * GmailMessage))
      (rows : list row) :
  Forall (fun im => unread (snd im) = true ->
                    keyed (SingleUser.messageId (own_email_message (fst im) (snd im))) "gmail"
                          (own_ingest created_at rows batch) = true) batch.
Proof.
  revert rows. induction batch as [|im batch IH]; intros rows; constructor.
  - intros Hu. rewrite own_ingest_cons. apply own_ingest_keeps.
    unfold own_ingest_one. rewrite Hu.
    destruct (keyed _ "gmail" rows) eqn:E; cbn [negb andb]; [exact E|].
    rewrite keyed_app.
    change "gmail" with (SingleUser.platform (own_email_message (fst im) (snd im))) at 2.
    rewrite keyed_new_row. apply orb_true_r.
  - rewrite own_ingest_cons. apply IH.
Qed.

Lemma own_ingest_settled (created_at : string) (batch : list (string * GmailMessage))
      (rows : list row) :
  Forall (fun im => unread (snd im) = true ->
                    keyed (SingleUser.messageId (own_email_message (fst im) (snd im))) "gmail"
                          rows = true) batch ->
  own_ingest created_at rows batch = rows.
Proof.
  induction 1 as [|im batch Him _ IH]; [reflexivity|].
  rewrite own_ingest_cons. unfold own_ingest_one.
  destruct (unread (snd im)); cbn [andb]; [|exact IH].
  rewrite (Him eq_refl). exact IH.
Qed.

Lemma own_ingest_idempotent (created_at : string) (batch : list (string * GmailMessage))
      (rows : list row) :
  own_ingest created_at (own_ingest created_at rows batch) batch =
  own_ingest created_at rows batch.
Proof. apply own_ingest_settled, own_ingest_keys. Qed.

Lemma own_gmail_webhook_resolved (d : Deployment) (body : json) (w : World)
      (items : list (list (string * GmailMessage))) (rows : list row) (cs : list call) :
  own_push_resolves d body w items ->
  exists cs',
    SingleUserRoutes.gmail_webhook d body (with_store w rows [] cs) =
    (Ret (Response 200 (Text "OK")),
     with_store w (own_ingest (now_iso w) rows (concat items)) [] cs').
Proof.
  intros (data & decoded & Hdata & Htruthy & Hdec & Hnull & Hhist & Hget).
  unfold SingleUserRoutes.gmail_webhook, try_catch. rewrite Hdata, Htruthy.
  cbn [negb]. unfold bind at 1. unfold lift at 1.
  change (decode_notification (with_store w rows [] cs)) with (decode_notification w).
  rewrite Hdec.
  assert (forall (A : Type) (x y : A),
             match decoded with JNull => x | _ => y end = y) as Hskip
      by (intros A x y; destruct decoded; try reflexivity; contradiction).
  rewrite Hskip. unfold bind at 1. unfold lift at 1. rewrite Hhist.
  unfold bind at 1.
  destruct (process_history_ingest d w items Hget rows cs) as [cs' Hrun].
  rewrite Hrun. exists cs'. reflexivity.
Qed.

(** X21: a Gmail push to the single-user server whose history resolves is
    answered with 200 and, when the storage answers, leaves the table as a
    fold over the added messages: in order, each message that carries the
    UNREAD label and whose key (its Message-ID header, or its Gmail id
    without one) is not stored yet adds one row, whatever its category
    labels.  Delivering the same push again adds nothing. *)
Theorem own_push_ingested (d : Deployment) (body : json) (w : World)
        (items : list (list (string * GmailMessage))) :
  faults w = [] ->
  own_push_resolves d body w items ->
  fst (SingleUserRoutes.gmail_webhook d body w) = Ret (Response 200 (Text "OK")) /\
  pending_actions (snd (SingleUserRoutes.gmail_webhook d body w)) =
    own_ingest (now_iso w) (pending_actions w) (concat items) /\
  pending_actions (snd (SingleUserRoutes.gmail_webhook d body
                          (snd (SingleUserRoutes.gmail_webhook d body w)))) =
    pending_actions (snd (SingleUserRoutes.gmail_webhook d body w)).
Proof.
  intros Hq Hres.
  destruct (own_gmail_webhook_resolved d body w items (pending_actions w) (calls w) Hres)
    as [cs1 H1].
  rewrite <- Hq in H1 at 1. rewrite with_store_self in H1. rewrite H1. cbn [fst snd].
  destruct (own_gmail_webhook_resolved d body w items
              (own_ingest (now_iso w) (pending_actions w) (concat items)) cs1 Hres)
    as [cs2 H2].
  rewrite H2. cbn [fst snd pending_actions with_store].
  repeat split. apply own_ingest_idempotent.
Qed.

Lemma own_push_ingested_witness :
  map (fun r => column r "message_id")
      (pending_actions (snd (SingleUserRoutes.gmail_webhook unread_account Sample.notification
                               (Sample.gmail_world [])))) =
    [Some "<abc@mail>"; Some "18c0e5"] /\
  List.length
    (pending_actions
       (snd (SingleUserRoutes.gmail_webhook unread_account Sample.notification
               (snd (SingleUserRoutes.gmail_webhook unread_account Sample.notification
                       (Sample.gmail_world [])))))) = 2%nat.
Proof.
  destruct (own_push_ingested unread_account Sample.notification (Sample.gmail_world [])
              unread_history) as (_ & H1 & H2).
  - reflexivity.
  - exists (JStr "eyJlbWFpbEFkZHJlc3MiOiJhZGFAeC5jb20iLCJoaXN0b3J5SWQiOjQyfQ=="),
           (JObj [("emailAddress", JStr "ada@x.com"); ("historyId", JNum 42)]).
    repeat split; try reflexivity; try discriminate.
    repeat constructor.
  - rewrite H2, H1. split; reflexivity.
Defined.

(** ** Requests that the webhooks set aside *)

(** X22: an event that is not a direct message (a channel message, a
    reaction, an event without a type) leaves the stored state of either
    server as it was, whatever the signature check says: no row is added to
    or changed in any table, and no request is sent to the storage. *)
Theorem only_direct_messages_ingested (req : SlackRequest) (w : World) :
  is_direct_message (event_of req) = false ->
  snd (MultiUser.slack_webhook req w) = w /\
  snd (SingleUser.slack_webhook req w) = w.
Proof.
  intros Hdm. unfold event_of in Hdm.
  unfold MultiUser.slack_webhook, SingleUser.slack_webhook.
  destruct (is_str (get (Some (body req)) "type") "url_verification");
    [split; reflexivity|].
  unfold bind. pose proof (verifySlackSignature_pure req w) as Hpure.
  destruct (verifySlackSignature req w) as [[[]|e] w1]; cbn [snd] in Hpure; subst w1;
    cbn [negb]; rewrite ?Hdm; split; reflexivity.
Qed.

Lemma only_direct_messages_ingested_witness :
  MultiUser.slack_webhook channel_message (Sample.slack_world (Ret Sample.ada_profile) []) =
    (Ret (Response 200 (Text "OK")), Sample.slack_world (Ret Sample.ada_profile) []).
Proof.
  pose proof (only_direct_messages_ingested channel_message
                (Sample.slack_world (Ret Sample.ada_profile) []) eq_refl) as [H _].
  rewrite <- H at 2. reflexivity.
Defined.



(** ** The outcomes of the webhooks *)



